(** * Claude Code rate-limit monitor: windowed usage, alerts and debounce

    A shallow embedding of the Python sources

      - [config.py]            (plan table, [Config.token_limit])
      - [usage_calculator.py]  ([UsageStats], [calculate], [_parse_jsonl_file])
      - [notifier.py]          ([Notifier.notify], [reset_cooldown])
      - [tray_app.py]          ([TrayApp._check_and_notify])
      - [file_watcher.py]      ([JSONLEventHandler], debounce timer)

    Conventions of the embedding.

      - Python [int] is [Z].  Instants ([datetime]) and durations
        ([timedelta]) are counted in microseconds, the resolution of the
        Python types, as [Z].  The calendar range of [datetime], years 1
        to 9999, is checked where [calculate] adds or subtracts a
        duration ([calculate_with_result]).
      - Python [float] percentages are exact rationals [Q]; rounding is not
        modelled.  Where the code converts through a float and the result
        can differ from the exact one, the model gives no value
        ([StatsView.whole_seconds]) or the exception that Python raises
        ([true_div_overflows]).
      - A Python exception is a value of [exn] carried by the [result] monad;
        [try]/[except] is a [match] on the result.
      - [json.loads] and [datetime.fromisoformat] are library functions and
        are taken as parameters of the calculator: [json_loads] gives the
        decoded document or the exception raised, [fromisoformat] the
        [datetime] or nothing for its [ValueError].  JSON numbers are
        integers, as the token counters of the log format are; a log
        whose numbers are reals is outside the model. *)

From Stdlib Require Import ZArith QArith Qminmax Lia String Ascii List Permutation.
From stdpp Require Import gmap strings list pretty.
Import ListNotations.

#[local] Set Warnings "-register-all".
#[local] Open Scope Z_scope.

(** ** Python prelude *)

Module Py.

(** The exception classes that the modelled code can meet.  All of them
    derive from [Exception]; [JSONDecodeError] is the class of the [json]
    module, a subclass of [ValueError] that an [except ValueError] would
    catch but that a plain [ValueError] is not. *)
Inductive exn : Type :=
  | TypeError
  | AttributeError
  | ValueError
  | OSError
  | UnicodeDecodeError
  | RuntimeError
  | JSONDecodeError
  | RecursionError
  | OverflowError.

Inductive result (A : Type) : Type :=
  | Ok (a : A)
  | Raise (e : exn).
Arguments Ok {A} a.
Arguments Raise {A} e.

Definition bind {A B : Type} (r : result A) (k : A -> result B) : result B :=
  match r with
  | Ok a => k a
  | Raise e => Raise e
  end.

Definition returns {A : Type} (r : result A) : bool :=
  match r with Ok _ => true | Raise _ => false end.

(** Decoded JSON documents, as [json.loads] builds them: [dict] with
    string keys, [list], [str], [int], [bool] and [None]. *)
Inductive json : Type :=
  | JNull
  | JBool (b : bool)
  | JNum (n : Z)
  | JStr (s : string)
  | JArr (l : list json)
  | JObj (m : gmap string json).

(** Truth value testing, [bool(x)]. *)
Definition truthy (j : json) : bool :=
  match j with
  | JNull => false
  | JBool b => b
  | JNum n => negb (n =? 0)
  | JStr s => negb (String.eqb s EmptyString)
  | JArr l => match l with [] => false | _ :: _ => true end
  | JObj m => match map_to_list m with [] => false | _ :: _ => true end
  end.

(** [d.get(key, default)]: only a [dict] has the method. *)
Definition get (d : json) (key : string) (default : json) : result json :=
  match d with
  | JObj m => match m !! key with Some v => Ok v | None => Ok default end
  | _ => Raise AttributeError
  end.

(** The value of [0 + a], [a + b] on decoded JSON: [int] and [bool]
    ([bool] is a subclass of [int]) add, every other operand ends in
    [TypeError] before the running total is updated. *)
Definition as_int (j : json) : result Z :=
  match j with
  | JNum n => Ok n
  | JBool b => Ok (if b then 1 else 0)
  | _ => Raise TypeError
  end.

(** [str.isspace] on the ASCII range. *)
Definition is_space (a : ascii) : bool :=
  let n := Z.of_nat (nat_of_ascii a) in
  ((9 <=? n) && (n <=? 13)) || ((28 <=? n) && (n <=? 32)).

Fixpoint lstrip (s : string) : string :=
  match s with
  | EmptyString => EmptyString
  | String a r => if is_space a then lstrip r else s
  end.

Fixpoint rstrip (s : string) : string :=
  match s with
  | EmptyString => EmptyString
  | String a r =>
      match rstrip r with
      | EmptyString => if is_space a then EmptyString else String a EmptyString
      | r' => String a r'
      end
  end.

(** [line.strip()] *)
Definition strip (s : string) : string := rstrip (lstrip s).

(** [s.replace('Z', '+00:00')] *)
Fixpoint replace_Z (s : string) : string :=
  match s with
  | EmptyString => EmptyString
  | String a r =>
      if Ascii.eqb a "Z"%char
      then String.append "+00:00" (replace_Z r)
      else String a (replace_Z r)
  end.

(** [s.endswith(suffix)] *)
Definition endswith (s suffix : string) : bool :=
  let n := String.length s in
  let k := String.length suffix in
  (k <=? n)%nat && String.eqb (substring (n - k) k s) suffix.

(** A [datetime]: aware values compare by their UTC instant; an aware
    and a naive value do not compare. *)
Inductive datetime : Type :=
  | Aware (utc : Z)
  | Naive (wall : Z).

(** [timedelta(hours=h)] and [timedelta(minutes=m)] in microseconds. *)
Definition hours (h : Z) : Z := h * 3600000000.
Definition minutes (m : Z) : Z := m * 60000000.

End Py.

(** [x ← r; k] runs [r] and continues with [k] unless [r] raised. *)
#[global] Instance result_ret : MRet Py.result := fun _ a => Py.Ok a.
#[global] Instance result_bind : MBind Py.result := fun _ _ k r => Py.bind r k.

(** ** config.py *)

Module Config.

Record PlanInfo : Type := mkPlan {
  plan_token_limit : Z;
  description : string
}.

Definition pro_plan : PlanInfo := mkPlan 8744628 "Pro ($20/month)".
Definition max5_plan : PlanInfo := mkPlan 100000000 "Max 5x ($100/month)".
Definition max20_plan : PlanInfo := mkPlan 400000000 "Max 20x ($200/month)".

Definition PLANS : gmap string PlanInfo :=
  <["Pro" := pro_plan]> (<["Max 5x" := max5_plan]> (<["Max 20x" := max20_plan]> ∅)).

Record Config : Type := mkConfig {
  plan : string;
  window_hours : Z;
  warning_threshold : Q;
  refresh_interval : Z;
  notification_cooldown : Z;
  claude_dir : string
}.

(** [Config()] with the dataclass defaults; [home] is the result of
    [__post_init__] for an empty [claude_dir]. *)
Definition default_config (home : string) : Config :=
  mkConfig "Max 5x" 5 90 30 15 home.

(** [PLANS.get(self.plan, PLANS["Pro"])["token_limit"]] *)
Definition token_limit (c : Config) : Z :=
  plan_token_limit
    (match PLANS !! plan c with
     | Some p => p
     | None => pro_plan
     end).

End Config.

(** ** usage_calculator.py *)

Module UsageCalculator.
Import Py.

Record UsageStats : Type := mkStats {
  total_tokens : Z;
  token_limit : Z;
  percentage : Q;
  window_start : option Z;
  window_end : option Z;
  remaining_tokens : Z;
  remaining_time : option Z;
  oldest_message_time : option Z
}.

(** [UsageStats(token_limit=limit)]: every other field keeps its dataclass
    default. *)
Definition default_stats (limit : Z) : UsageStats :=
  mkStats 0 limit 0 None None 0 None None.

(** What reading a log fragment yields: its lines in order, ended by the end
    of the file or by the exception that [open] or the iteration raises. *)
Inductive file : Type :=
  | Eof
  | Line (raw : string) (rest : file)
  | ReadError (e : exn).

(** The loop state of a scan: [(total_tokens, oldest_time)]. *)
Definition acc : Type := (Z * option Z)%type.

(** [if oldest_time is None or msg_time < oldest_time: oldest_time = msg_time] *)
Definition older (msg_time : Z) (oldest_time : option Z) : option Z :=
  match oldest_time with
  | None => Some msg_time
  | Some o => if msg_time <? o then Some msg_time else Some o
  end.

(** [min(percentage, 100.0)]: the first argument unless the second is
    smaller. *)
Definition py_min (a b : Q) : Q := if Qle_bool a b then a else b.

(** The range of [datetime], from [0001-01-01T00:00:00] to
    [9999-12-31T23:59:59.999999], in microseconds from the epoch. *)
Definition datetime_min : Z := -62135596800000000.
Definition datetime_max : Z := 253402300799999999.

(** [dt + delta], and [dt - delta] for the opposite [delta], on a
    [datetime] whose fields, read in its own zone, are [fields]:
    [OverflowError] when the result leaves the range.  A [timedelta] too
    large to be built raises the same error and would leave the range. *)
Definition shifted (fields delta : Z) : result Z :=
  if (datetime_min <=? fields + delta) && (fields + delta <=? datetime_max)
  then Ok (fields + delta)
  else Raise OverflowError.

(** [a / b] on two [int]: the quotient, rounded to the nearest float, is
    too large for a float, and the division raises [OverflowError]. *)
Definition true_div_overflows (a b : Z) : bool :=
  (2 ^ 1024 - 2 ^ 970) * Z.abs b <=? Z.abs a.

Section Parser.

Variable json_loads : string -> result json.
Variable fromisoformat : string -> option datetime.

(** Lines 164-169: the four counters, absent ones counting as [0]. *)
Definition message_tokens (usage : json) : result Z :=
  input_tokens ← get usage "input_tokens" (JNum 0);
  output_tokens ← get usage "output_tokens" (JNum 0);
  cache_creation ← get usage "cache_creation_input_tokens" (JNum 0);
  cache_read ← get usage "cache_read_input_tokens" (JNum 0);
  a ← as_int input_tokens;
  b ← as_int output_tokens;
  c ← as_int cache_creation;
  d ← as_int cache_read;
  mret (a + b + c + d).

(** Lines 132-159 of the loop body: [None] stands for [continue], a pair for
    a line that reaches the window test with its parsed time and its usage
    object. *)
Definition read_record (raw : string) : result (option (datetime * json)) :=
  let line := strip raw in
  if String.eqb line EmptyString then mret None
  else
    match json_loads line with
    | Raise JSONDecodeError => mret None
    | Raise e => Raise e
    | Ok entry =>
        message ← get entry "message" (JObj ∅);
        usage ← get message "usage" (JObj ∅);
        if negb (truthy usage) then mret None
        else
          timestamp_str ← get entry "timestamp" JNull;
          if negb (truthy timestamp_str) then mret None
          else
            match timestamp_str with
            | JStr s =>
                match fromisoformat (replace_Z s) with
                | None => mret None
                | Some msg_time => mret (Some (msg_time, usage))
                end
            | _ => Raise AttributeError
            end
    end.

(** The whole loop body, lines 132-174.  [window_start] is aware, so the
    comparison with a naive [msg_time] raises. *)
Definition process_line (window_start : Z) (st : acc) (raw : string) : result acc :=
  r ← read_record raw;
  match r with
  | None => mret st
  | Some (Naive _, _) => Raise TypeError
  | Some (Aware msg_time, usage) =>
      if window_start <=? msg_time then
        tokens ← message_tokens usage;
        mret (st.1 + tokens, older msg_time st.2)
      else mret st
  end.

Fixpoint parse_lines (window_start : Z) (st : acc) (f : file) : result acc :=
  match f with
  | Eof => mret st
  | ReadError e => Raise e
  | Line raw rest =>
      st' ← process_line window_start st raw;
      parse_lines window_start st' rest
  end.

Definition _parse_jsonl_file (file_path : file) (window_start : Z) : result acc :=
  parse_lines window_start (0, None) file_path.

(** The body of the [for jsonl_file in ...] loop of [calculate], with its
    [try]/[except Exception]. *)
Definition scan (window_start : Z) (st : acc) (jsonl_file : file) : acc :=
  match _parse_jsonl_file jsonl_file window_start with
  | Ok (tokens, oldest) =>
      (st.1 + tokens,
       match oldest with
       | Some o => older o st.2
       | None => st.2
       end)
  | Raise _ => st
  end.

(** The snapshot that [calculate] builds, with the two configuration
    reads named: [limit] is [self.config.token_limit], [hours_] is
    [self.config.window_hours].  [claude_dir] is [None] when the directory
    does not exist, else the fragments that [rglob("*.jsonl")] enumerates,
    in its order.  The date arithmetic and the division are exact here;
    [calculate_with_result] below says when they raise instead. *)
Definition calculate_with (limit hours_ now : Z) (claude_dir : option (list file))
  : UsageStats :=
  let window_start := now - hours hours_ in
  match claude_dir with
  | None => default_stats limit
  | Some files =>
      let st := fold_left (scan window_start) files (0, None) in
      let total_tokens := st.1 in
      let oldest_message_time := st.2 in
      let remaining_time :=
        match oldest_message_time with
        | None => None
        | Some o =>
            let reset_time := o + hours hours_ in
            let remaining := reset_time - now in
            Some (if remaining <? 0 then 0 else remaining)
        end in
      let percentage :=
        if 0 <? limit
        then (inject_Z total_tokens / inject_Z limit * 100)%Q
        else 0%Q in
      let remaining_tokens := Z.max 0 (limit - total_tokens) in
      mkStats total_tokens limit (py_min percentage 100)
              (Some window_start) (Some now)
              remaining_tokens remaining_time oldest_message_time
  end.

Definition calculate (config : Config.Config) (now : Z)
    (claude_dir : option (list file)) : UsageStats :=
  calculate_with (Config.token_limit config) (Config.window_hours config)
                 now claude_dir.

(** [calculate] with the places where it raises: the window start of line
    76, computed before the root is tested, the reset time of line 103 and
    the division of line 109 raise [OverflowError] out of range.  When
    none does, the snapshot is that of [calculate_with].  [oldest_offset]
    is the UTC offset of the oldest record's [datetime], which line 103
    shifts in its own zone. *)
Definition calculate_with_result (limit hours_ now : Z)
    (claude_dir : option (list file)) (oldest_offset : Z) : result UsageStats :=
  window_start ← shifted now (- hours hours_);
  match claude_dir with
  | None => mret (default_stats limit)
  | Some files =>
      let st := fold_left (scan window_start) files (0, None) in
      _ ← match st.2 with
          | None => mret 0
          | Some o => shifted (o + oldest_offset) (hours hours_)
          end;
      if (0 <? limit) && true_div_overflows st.1 limit
      then Raise OverflowError
      else mret (calculate_with limit hours_ now claude_dir)
  end.

Definition calculate_result (config : Config.Config) (now : Z)
    (claude_dir : option (list file)) (oldest_offset : Z) : result UsageStats :=
  calculate_with_result (Config.token_limit config) (Config.window_hours config)
                        now claude_dir oldest_offset.

(** The usage records of a fragment, for the statements below: the lines
    that reach the window test with an aware time and whose counters add
    up, as [(timestamp, tokens)]. *)
Definition line_records (raw : string) : list (Z * Z) :=
  match read_record raw with
  | Ok (Some (Aware t, usage)) =>
      match message_tokens usage with
      | Ok n => [(t, n)]
      | Raise _ => []
      end
  | _ => []
  end.

Fixpoint records (f : file) : list (Z * Z) :=
  match f with
  | Line raw rest => line_records raw ++ records rest
  | _ => []
  end.

(** A fragment whose parse returns, and the records of the fragments of a
    pass whose parse returns. *)
Definition completes (window_start : Z) (f : file) : bool :=
  returns (_parse_jsonl_file f window_start).

Definition pass_records (window_start : Z) (files : list file) : list (Z * Z) :=
  flat_map records (filter (fun f => completes window_start f = true) files).

End Parser.

(** A counter of a usage object: an integer, or absent and counted as 0. *)
Definition counter (usage : gmap string json) (key : string) (n : Z) : Prop :=
  (usage !! key = None ∧ n = 0) ∨ usage !! key = Some (JNum n).

(** The shapes of a decoded record that the loop body skips: no usage object
    under [message], and no timestamp or one that does not parse. *)
Definition lacks_usage (entry : gmap string json) : Prop :=
  match entry !! "message" with
  | None => True
  | Some (JObj message) => message !! "usage" = None
  | Some _ => False
  end.

Definition message_is_object (entry : gmap string json) : Prop :=
  match entry !! "message" with
  | None | Some (JObj _) => True
  | Some _ => False
  end.

Definition bad_timestamp (fromisoformat : string -> option datetime)
    (entry : gmap string json) : Prop :=
  match entry !! "timestamp" with
  | None | Some JNull => True
  | Some (JStr s) => fromisoformat (replace_Z s) = None
  | Some _ => False
  end.

Section Shapes.

Variable json_loads : string -> result json.
Variable fromisoformat : string -> option datetime.

(** A line that holds a usage record of time [t] and [n] tokens: a JSON
    object with a non-empty usage object under [message], a timestamp that
    parses to an aware time, and integer counters that add up to [n]. *)
Definition record_line (raw : string) (t n : Z) : Prop :=
  ∃ entry message usage s a b c d,
    strip raw ≠ EmptyString
    ∧ json_loads (strip raw) = Ok (JObj entry)
    ∧ entry !! "message" = Some (JObj message)
    ∧ message !! "usage" = Some (JObj usage)
    ∧ usage ≠ ∅
    ∧ entry !! "timestamp" = Some (JStr s)
    ∧ s ≠ EmptyString
    ∧ fromisoformat (replace_Z s) = Some (Aware t)
    ∧ counter usage "input_tokens" a
    ∧ counter usage "output_tokens" b
    ∧ counter usage "cache_creation_input_tokens" c
    ∧ counter usage "cache_read_input_tokens" d
    ∧ n = a + b + c + d.

(** A line that holds no record: blank, rejected by the decoder, or an
    object without usage or without a timestamp that parses. *)
Definition skip_line (raw : string) : Prop :=
  strip raw = EmptyString
  ∨ json_loads (strip raw) = Raise JSONDecodeError
  ∨ ∃ entry, json_loads (strip raw) = Ok (JObj entry)
             ∧ (lacks_usage entry
                ∨ (message_is_object entry ∧ bad_timestamp fromisoformat entry)).

(** A fragment that can be read to its end, made of such lines only, with
    the records it holds, in order. *)
Inductive holds : file -> list (Z * Z) -> Prop :=
  | holds_eof : holds Eof []
  | holds_skip raw rest rs :
      skip_line raw -> holds rest rs -> holds (Line raw rest) rs
  | holds_record raw rest t n rs :
      record_line raw t n -> holds rest rs -> holds (Line raw rest) ((t, n) :: rs).

End Shapes.

(** Sum of the token counts and least timestamp of a list of records. *)
Definition sum_tokens (rs : list (Z * Z)) : Z :=
  foldr (fun r s => r.2 + s) 0 rs.

Definition omin (a b : option Z) : option Z :=
  match a, b with
  | None, _ => b
  | _, None => a
  | Some x, Some y => Some (Z.min x y)
  end.

Definition min_time (rs : list (Z * Z)) : option Z :=
  foldr (fun r o => omin (Some r.1) o) None rs.

Definition in_window (window_start : Z) (rs : list (Z * Z)) : list (Z * Z) :=
  filter (fun r => window_start ≤ r.1) rs.

(** The loop state after the records [rs] have been seen from state [st]:
    the in-window ones are added and compete for the oldest time. *)
Definition count (window_start : Z) (st : acc) (rs : list (Z * Z)) : acc :=
  (st.1 + sum_tokens (in_window window_start rs),
   omin (min_time (in_window window_start rs)) st.2).

End UsageCalculator.

(** ** notifier.py *)

Module Notifier.
Import Py.

Inductive log_entry : Type :=
  | LogDebug
  | LogInfo
  | LogError.

(** [toaster] is [true] when [win10toast] could be imported, so that
    [self.toaster] is not [None]. *)
Record Notifier : Type := mkNotifier {
  toaster : bool;
  cooldown : Z;
  last_notification : gmap string Z
}.

(** [Notifier(cooldown_minutes)] *)
Definition init (toast_available : bool) (cooldown_minutes : Z) : Notifier :=
  mkNotifier toast_available (minutes cooldown_minutes) ∅.

(** What a call of [notify] leaves behind: the notifier, the returned
    boolean, whether the background thread was started, and the log. *)
Record outcome : Type := mkOutcome {
  self' : Notifier;
  returned : bool;
  dispatched : bool;
  log : list log_entry
}.

(** The body of the background thread: [show_toast] is the result of
    [self.toaster.show_toast(...)]; the [try]/[except Exception] turns a
    raise into an error entry of the log. *)
Definition send (show_toast : result unit) : result log_entry :=
  match show_toast with
  | Ok _ => mret LogInfo
  | Raise _ => mret LogError
  end.

(** [notify]; [now] is the value of [datetime.now()].  The thread runs
    after [notify] has fixed its return value. *)
Definition notify (self : Notifier) (now : Z) (notification_type : string)
    (force : bool) (show_toast : result unit) : result outcome :=
  if negb (toaster self) then
    mret (mkOutcome self false false [LogDebug])
  else
    let cooling :=
      negb force &&
      match last_notification self !! notification_type with
      | Some last_time => now - last_time <? cooldown self
      | None => false
      end in
    if cooling then
      mret (mkOutcome self false false [LogDebug])
    else
      let self1 :=
        mkNotifier (toaster self) (cooldown self)
                   (<[notification_type := now]> (last_notification self)) in
      entry ← send show_toast;
      mret (mkOutcome self1 true true [entry]).

Definition notify_warning (self : Notifier) (now : Z) (show_toast : result unit)
  : result outcome :=
  notify self now "usage_warning" false show_toast.

Definition notify_critical (self : Notifier) (now : Z) (show_toast : result unit)
  : result outcome :=
  notify self now "usage_critical" false show_toast.

(** [reset_cooldown(notification_type=None)] *)
Definition reset_cooldown (self : Notifier) (notification_type : option string)
  : Notifier :=
  match notification_type with
  | Some ty =>
      if String.eqb ty EmptyString
      then mkNotifier (toaster self) (cooldown self) ∅
      else mkNotifier (toaster self) (cooldown self)
                      (delete ty (last_notification self))
  | None => mkNotifier (toaster self) (cooldown self) ∅
  end.

End Notifier.

(** ** tray_app.py *)

Module TrayApp.
Import Py.

Inductive alert : Type :=
  | Warning
  | Critical.

Record TrayApp : Type := mkApp {
  config : Config.Config;
  notifier : Notifier.Notifier;
  current_stats : option UsageCalculator.UsageStats;
  _last_warning_level : Z
}.

(** [TrayApp()] before the first refresh. *)
Definition init (config : Config.Config) (toast_available : bool) : TrayApp :=
  mkApp config
        (Notifier.init toast_available (Config.notification_cooldown config))
        None 0.

Definition set_level (self : TrayApp) (level : Z) (n : Notifier.Notifier) : TrayApp :=
  mkApp (config self) n (current_stats self) level.

(** [_check_and_notify]: the new application state and, when a notifier
    call was made, its kind and outcome. *)
Definition _check_and_notify (self : TrayApp) (now : Z) (show_toast : result unit)
  : result (TrayApp * option (alert * Notifier.outcome)) :=
  match current_stats self with
  | None => mret (self, None)
  | Some stats =>
      let percentage := UsageCalculator.percentage stats in
      if Qle_bool 95 percentage then
        if _last_warning_level self <? 2 then
          o ← Notifier.notify_critical (notifier self) now show_toast;
          mret (set_level self 2 (Notifier.self' o), Some (Critical, o))
        else mret (self, None)
      else if Qle_bool (Config.warning_threshold (config self)) percentage then
        if _last_warning_level self <? 1 then
          o ← Notifier.notify_warning (notifier self) now show_toast;
          mret (set_level self 1 (Notifier.self' o), Some (Warning, o))
        else mret (self, None)
      else
        if 0 <? _last_warning_level self then
          mret (set_level self 0 (Notifier.reset_cooldown (notifier self) None), None)
        else mret (self, None)
  end.

(** One evaluation of the alert machine on a published snapshot: the part
    of [_refresh_stats] after [calculate]. *)
Definition evaluate (self : TrayApp) (stats : UsageCalculator.UsageStats)
    (now : Z) (show_toast : result unit)
  : result (TrayApp * option (alert * Notifier.outcome)) :=
  _check_and_notify
    (mkApp (config self) (notifier self) (Some stats) (_last_warning_level self))
    now show_toast.

(** A snapshot with the given percentage; the alert machine reads no other
    field but [remaining_tokens], which only goes into the message text. *)
Definition snapshot (percentage : Q) : UsageCalculator.UsageStats :=
  UsageCalculator.mkStats 0 0 percentage None None 0 None None.

(** The kind of the alert that an evaluation emitted, if any. *)
Definition emitted (r : TrayApp * option (alert * Notifier.outcome)) : option alert :=
  match r.2 with
  | Some (a, _) => Some a
  | None => None
  end.

(** A run of evaluations, one per [(snapshot, time)], returning for each the
    alert that was emitted, if any, with the notifier's returned boolean. *)
Fixpoint run (self : TrayApp) (passes : list (UsageCalculator.UsageStats * Z))
  : result (TrayApp * list (option (alert * bool))) :=
  match passes with
  | [] => mret (self, [])
  | (stats, now) :: rest =>
      r ← evaluate self stats now (Ok tt);
      r' ← run r.1 rest;
      mret (r'.1, (match r.2 with
                   | Some (a, o) => Some (a, Notifier.returned o)
                   | None => None
                   end) :: r'.2)
  end.

End TrayApp.

(** ** file_watcher.py *)

Module FileWatcher.
Import Py.

(** A [threading.Timer] object: it calls its function at [deadline] unless
    [cancel] came first; [cancel] on a timer that has fired changes nothing. *)
Inductive timer_status : Type :=
  | Pending
  | Cancelled
  | Fired.

#[global] Instance timer_status_eq_dec : EqDecision timer_status.
Proof. solve_decision. Defined.

Record Timer : Type := mkTimer {
  deadline : Z;
  status : timer_status
}.

Definition cancel (t : Timer) : Timer :=
  match status t with
  | Pending => mkTimer (deadline t) Cancelled
  | _ => t
  end.

Inductive event_type : Type :=
  | Created
  | Modified
  | Deleted
  | Moved.

Record FileSystemEvent : Type := mkEvent {
  kind : event_type;
  is_directory : bool;
  src_path : string
}.

(** The handler with the [Timer] objects it has created so far ([timers],
    oldest first); [_timer] refers to one of them by position.  [calls]
    lists the instants at which [_execute_callback] ran. *)
Record JSONLEventHandler : Type := mkHandler {
  debounce_seconds : Z;
  _timer : option nat;
  timers : list Timer;
  calls : list Z
}.

(** [JSONLEventHandler(callback, debounce_seconds)] *)
Definition init (debounce : Z) : JSONLEventHandler :=
  mkHandler debounce None [] [].

(** [_schedule_callback] at instant [now], under the handler's lock. *)
Definition _schedule_callback (self : JSONLEventHandler) (now : Z)
  : JSONLEventHandler :=
  let cancelled :=
    match _timer self with
    | Some i => alter cancel i (timers self)
    | None => timers self
    end in
  mkHandler (debounce_seconds self)
            (Some (length cancelled))
            (cancelled ++ [mkTimer (now + debounce_seconds self) Pending])
            (calls self).

Definition on_modified (self : JSONLEventHandler) (now : Z) (event : FileSystemEvent)
  : JSONLEventHandler :=
  if negb (is_directory event) && endswith (src_path event) ".jsonl"
  then _schedule_callback self now
  else self.

Definition on_created (self : JSONLEventHandler) (now : Z) (event : FileSystemEvent)
  : JSONLEventHandler :=
  if negb (is_directory event) && endswith (src_path event) ".jsonl"
  then _schedule_callback self now
  else self.

(** [FileSystemEventHandler.dispatch]: the handlers that the class does not
    override do nothing. *)
Definition dispatch (self : JSONLEventHandler) (now : Z) (event : FileSystemEvent)
  : JSONLEventHandler :=
  match kind event with
  | Modified => on_modified self now event
  | Created => on_created self now event
  | Deleted | Moved => self
  end.

Definition is_pending (t : Timer) : Prop := status t = Pending.
Definition is_due (now : Z) (t : Timer) : Prop := status t = Pending ∧ deadline t ≤ now.

#[global] Instance is_pending_dec t : Decision (is_pending t).
Proof. unfold is_pending. apply _. Defined.

#[global] Instance is_due_dec now t : Decision (is_due now t).
Proof. unfold is_due. apply _. Defined.

(** The passage of time up to [now]: every pending timer whose deadline has
    come runs [_execute_callback] and is finished. *)
Definition elapse (self : JSONLEventHandler) (now : Z) : JSONLEventHandler :=
  mkHandler (debounce_seconds self)
            (_timer self)
            ((fun t => if decide (is_due now t)
                       then mkTimer (deadline t) Fired else t)
               <$> timers self)
            (calls self ++ (deadline <$> filter (is_due now) (timers self))).

(** An event observed at an instant: the timers due by then fire first. *)
Definition observe1 (self : JSONLEventHandler) (e : Z * FileSystemEvent)
  : JSONLEventHandler :=
  dispatch (elapse self e.1) e.1 e.2.

Definition observe (self : JSONLEventHandler) (trace : list (Z * FileSystemEvent))
  : JSONLEventHandler :=
  fold_left observe1 trace self.

Definition pending (self : JSONLEventHandler) : list Timer :=
  filter is_pending (timers self).

(** The single slot: a timer that is still pending is the one that
    [_timer] refers to. *)
Definition single_slot (self : JSONLEventHandler) : Prop :=
  ∀ i t, timers self !! i = Some t → is_pending t → _timer self = Some i.

(** Creation or modification of a non-directory path ending in [.jsonl]. *)
Definition qualifying (event : FileSystemEvent) : bool :=
  match kind event with
  | Created | Modified =>
      negb (is_directory event) && endswith (src_path event) ".jsonl"
  | Deleted | Moved => false
  end.

(** A burst: instants in order, each less than [delay] after the one
    before, every event qualifying. *)
Fixpoint burst_after (delay last : Z) (trace : list (Z * FileSystemEvent)) : Prop :=
  match trace with
  | [] => True
  | (t, ev) :: rest =>
      last ≤ t ∧ t - last < delay ∧ qualifying ev = true ∧ burst_after delay t rest
  end.

Definition burst (delay : Z) (trace : list (Z * FileSystemEvent)) : Prop :=
  match trace with
  | [] => False
  | (t, ev) :: rest => qualifying ev = true ∧ burst_after delay t rest
  end.

Definition last_instant (trace : list (Z * FileSystemEvent)) (d : Z) : Z :=
  (List.last trace (d, mkEvent Deleted false EmptyString)).1.

End FileWatcher.

(** ** Sample log lines

    A table standing for [json.loads] and [datetime.fromisoformat] on the
    lines used in the examples.  In the line texts a single quote stands for
    the double quote of JSON. *)

Module Sample.
Import Py.

(** Microseconds since the epoch of [2024-01-01T00:00:00Z] plus [h:m:s]. *)
Definition jan1 (h m s : Z) : Z :=
  (1704067200 + h * 3600 + m * 60 + s) * 1000000.

Definition usage_of (input output creation read : Z) : json :=
  JObj (<["input_tokens" := JNum input]>
       (<["output_tokens" := JNum output]>
       (<["cache_creation_input_tokens" := JNum creation]>
       (<["cache_read_input_tokens" := JNum read]> ∅)))).

Definition entry_of (timestamp : string) (usage : json) : json :=
  JObj (<["timestamp" := JStr timestamp]>
       (<["message" := JObj (<["usage" := usage]> ∅)]> ∅)).

Definition line_050001 : string :=
  "{'timestamp':'2024-01-01T05:00:01Z','message':{'usage':{'input_tokens':100}}}".
Definition line_050000 : string :=
  "{'timestamp':'2024-01-01T05:00:00Z','message':{'usage':{'input_tokens':7}}}".
Definition line_045959 : string :=
  "{'timestamp':'2024-01-01T04:59:59Z','message':{'usage':{'input_tokens':50}}}".
Definition line_four : string :=
  "{'timestamp':'2024-01-01T09:00:00Z','message':{'usage':{'input_tokens':10,'output_tokens':5,'cache_creation_input_tokens':2,'cache_read_input_tokens':3}}}".
Definition line_big : string :=
  "{'timestamp':'2024-01-01T09:00:00Z','message':{'usage':{'input_tokens':2000000}}}".
Definition line_negative : string :=
  "{'timestamp':'2024-01-01T09:00:00Z','message':{'usage':{'input_tokens':-1000000}}}".
Definition line_no_timestamp : string :=
  "{'message':{'usage':{'input_tokens':40}}}".
Definition line_no_usage : string :=
  "{'timestamp':'2024-01-01T09:00:00Z','message':{'role':'user'}}".
Definition line_no_message : string :=
  "{'type':'summary'}".
Definition line_bad_timestamp : string :=
  "{'timestamp':'yesterday','message':{'usage':{'input_tokens':40}}}".
Definition line_bad_json : string :=
  "{'timestamp': ".
Definition line_blank : string := "   ".
Definition line_message_string : string :=
  "{'timestamp':'2024-01-01T09:00:00Z','message':'hello'}".
Definition line_numeric_timestamp : string :=
  "{'timestamp':1704099600,'message':{'usage':{'input_tokens':40}}}".
Definition line_naive : string :=
  "{'timestamp':'2024-01-01T09:00:00','message':{'usage':{'input_tokens':40}}}".

Definition table : list (string * json) :=
  [ (line_050001, entry_of "2024-01-01T05:00:01Z" (JObj (<["input_tokens" := JNum 100]> ∅)));
    (line_050000, entry_of "2024-01-01T05:00:00Z" (JObj (<["input_tokens" := JNum 7]> ∅)));
    (line_045959, entry_of "2024-01-01T04:59:59Z" (JObj (<["input_tokens" := JNum 50]> ∅)));
    (line_four, entry_of "2024-01-01T09:00:00Z" (usage_of 10 5 2 3));
    (line_big, entry_of "2024-01-01T09:00:00Z" (JObj (<["input_tokens" := JNum 2000000]> ∅)));
    (line_negative,
       entry_of "2024-01-01T09:00:00Z" (JObj (<["input_tokens" := JNum (-1000000)]> ∅)));
    (line_no_timestamp,
       JObj (<["message" := JObj (<["usage" := JObj (<["input_tokens" := JNum 40]> ∅)]> ∅)]> ∅));
    (line_no_usage,
       JObj (<["timestamp" := JStr "2024-01-01T09:00:00Z"]>
            (<["message" := JObj (<["role" := JStr "user"]> ∅)]> ∅)));
    (line_no_message, JObj (<["type" := JStr "summary"]> ∅));
    (line_bad_timestamp,
       entry_of "yesterday" (JObj (<["input_tokens" := JNum 40]> ∅)));
    (line_message_string,
       JObj (<["timestamp" := JStr "2024-01-01T09:00:00Z"]>
            (<["message" := JStr "hello"]> ∅)));
    (line_numeric_timestamp,
       JObj (<["timestamp" := JNum 1704099600]>
            (<["message" := JObj (<["usage" := JObj (<["input_tokens" := JNum 40]> ∅)]> ∅)]> ∅)));
    (line_naive,
       entry_of "2024-01-01T09:00:00" (JObj (<["input_tokens" := JNum 40]> ∅))) ].

Fixpoint assoc {A : Type} (l : list (string * A)) (k : string) : option A :=
  match l with
  | [] => None
  | (k', v) :: rest => if String.eqb k k' then Some v else assoc rest k
  end.

Definition json_loads (s : string) : result json :=
  match assoc table s with
  | Some entry => Ok entry
  | None => Raise JSONDecodeError
  end.

Definition fromisoformat (s : string) : option datetime :=
  assoc [ ("2024-01-01T05:00:01+00:00", Aware (jan1 5 0 1));
          ("2024-01-01T05:00:00+00:00", Aware (jan1 5 0 0));
          ("2024-01-01T04:59:59+00:00", Aware (jan1 4 59 59));
          ("2024-01-01T09:00:00+00:00", Aware (jan1 9 0 0));
          ("2024-01-01T09:00:00", Naive (jan1 9 0 0)) ] s.

Definition calculate_with := UsageCalculator.calculate_with json_loads fromisoformat.
Definition calculate := UsageCalculator.calculate json_loads fromisoformat.

(** Ten o'clock on the first of January 2024, UTC. *)
Definition ten : Z := jan1 10 0 0.

(** A modification of a log fragment, and ten of them 90 ms apart
    (instants in microseconds). *)
Definition jsonl_event : FileWatcher.FileSystemEvent :=
  FileWatcher.mkEvent FileWatcher.Modified false
    "/home/u/.claude/projects/demo/session.jsonl".

Definition ten_events : list (Z * FileWatcher.FileSystemEvent) :=
  (fun i : Z => (i * 90000, jsonl_event)) <$> [0; 1; 2; 3; 4; 5; 6; 7; 8; 9].

End Sample.

(** ** usage_calculator.py: the display methods of [UsageStats] *)

Module StatsView.
Import Py.

(** The [status] property. *)
Definition status (self : UsageCalculator.UsageStats) : string :=
  if Qle_bool 90 (UsageCalculator.percentage self) then "CRITICAL"
  else if Qle_bool 70 (UsageCalculator.percentage self) then "WARNING"
  else "OK".

(** The [status_color] property. *)
Definition status_color (self : UsageCalculator.UsageStats) : string :=
  if Qle_bool 90 (UsageCalculator.percentage self) then "red"
  else if Qle_bool 70 (UsageCalculator.percentage self) then "yellow"
  else "green".

(** [int(td.total_seconds())] of a duration in microseconds.  The seconds
    go through a float; below [2^34] seconds the float is within a
    microsecond of the exact quotient and the truncation towards zero is
    exact.  Beyond, the float can reach the next second, and the model
    gives no value. *)
Definition whole_seconds (td : Z) : option Z :=
  if Z.abs td <? 2 ^ 34 * 1000000 then Some (Z.quot td 1000000) else None.

(** [format_remaining_time].  A [timedelta] is false when it is zero, so
    [not self.remaining_time] holds for [None] and for the zero duration. *)
Definition format_remaining_time (self : UsageCalculator.UsageStats)
  : option string :=
  match UsageCalculator.remaining_time self with
  | None => Some "N/A"
  | Some td =>
      if td =? 0 then Some "N/A"
      else
        match whole_seconds td with
        | None => None
        | Some total_seconds =>
            if total_seconds <=? 0 then Some "Resetting"
            else
              let hours := total_seconds / 3600 in
              let minutes := (total_seconds mod 3600) / 60 in
              if 0 <? hours
              then Some (pretty hours +:+ "h " +:+ pretty minutes +:+ "m")
              else Some (pretty minutes +:+ "m")
        end
  end.

End StatsView.

(** ** icon_generator.py *)

Module IconGenerator.
Import Py.

Definition green : Z * Z * Z := (76, 175, 80).
Definition yellow : Z * Z * Z := (255, 193, 7).
Definition red : Z * Z * Z := (244, 67, 54).
Definition gray : Z * Z * Z := (158, 158, 158).

Definition COLORS : gmap string (Z * Z * Z) :=
  <["green" := green]> (<["yellow" := yellow]> (<["red" := red]>
    (<["gray" := gray]> ∅))).

(** [int(percentage)]: truncation towards zero. *)
Definition int (percentage : Q) : Z :=
  Z.quot (Qnum percentage) (Z.pos (Qden percentage)).

(** What [create_icon] draws: the fill colour of the disc and the text, if
    any. *)
Record Icon : Type := mkIcon {
  fill : Z * Z * Z;
  text : option string
}.

(** [create_icon] of a generator of the given [size]. *)
Definition create_icon (size : Z) (percentage : Q) (show_text : bool) : Icon :=
  let color :=
    if Qle_bool 90 percentage then red
    else if Qle_bool 70 percentage then yellow
    else green in
  mkIcon color
         (if show_text && (32 <=? size)
          then Some (pretty (int percentage)) else None).

Definition get_color_for_percentage (percentage : Q) : string :=
  if Qle_bool 90 percentage then "red"
  else if Qle_bool 70 percentage then "yellow"
  else "green".

End IconGenerator.

(** ** tray_app.py: refresh and plan selection *)

Module Refresh.
Import Py.

(** [config_manager.update(plan=plan_name)] on the configuration object,
    which the application, the calculator and the manager share. *)
Definition set_plan (c : Config.Config) (plan_name : string) : Config.Config :=
  Config.mkConfig plan_name (Config.window_hours c) (Config.warning_threshold c)
                  (Config.refresh_interval c) (Config.notification_cooldown c)
                  (Config.claude_dir c).

Section WithParser.

Variable json_loads : string -> result json.
Variable fromisoformat : string -> option datetime.

(** [_refresh_stats].  [now] is the aware [datetime.now(timezone.utc)] that
    [calculate] reads, [clock] the naive [datetime.now()] of the notifier,
    [update_icon] the result of [_update_icon].  The [try]/[except
    Exception] keeps whatever was assigned before a raise: nothing when
    [calculate] raises, the new snapshot when the icon update does. *)
Definition _refresh_stats (self : TrayApp.TrayApp) (now clock : Z)
    (claude_dir : option (list UsageCalculator.file)) (oldest_offset : Z)
    (update_icon show_toast : result unit)
  : TrayApp.TrayApp * option (TrayApp.alert * Notifier.outcome) :=
  match UsageCalculator.calculate_result json_loads fromisoformat
          (TrayApp.config self) now claude_dir oldest_offset with
  | Raise _ => (self, None)
  | Ok stats =>
      let self1 :=
        TrayApp.mkApp (TrayApp.config self) (TrayApp.notifier self) (Some stats)
                      (TrayApp._last_warning_level self) in
      match (_ ← update_icon; TrayApp._check_and_notify self1 clock show_toast) with
      | Ok r => r
      | Raise _ => (self1, None)
      end
  end.

(** [_on_plan_select]: the state it leaves and the exception, if any, that
    it lets through ([save_config] is the result of writing the file). *)
Definition _on_plan_select (self : TrayApp.TrayApp) (plan_name : string)
    (save_config : result unit) (now clock : Z)
    (claude_dir : option (list UsageCalculator.file)) (oldest_offset : Z)
    (update_icon show_toast : result unit)
  : TrayApp.TrayApp * option exn :=
  if String.eqb plan_name (Config.plan (TrayApp.config self)) then (self, None)
  else
    let self1 :=
      TrayApp.mkApp (set_plan (TrayApp.config self) plan_name)
                    (TrayApp.notifier self) (TrayApp.current_stats self)
                    (TrayApp._last_warning_level self) in
    match save_config with
    | Raise e => (self1, Some e)
    | Ok _ =>
        ((_refresh_stats self1 now clock claude_dir oldest_offset
                         update_icon show_toast).1, None)
    end.

End WithParser.

(** The percentages for which [_check_and_notify] takes its last branch. *)
Definition normal (config : Config.Config) (percentage : Q) : Prop :=
  (percentage < 95)%Q ∧ (percentage < Config.warning_threshold config)%Q.

End Refresh.

(** ** More sample lines: records whose counters do not add up *)

Module SampleMore.
Import Py.

Definition line_null_counter_0400 : string :=
  "{'timestamp':'2024-01-01T04:00:00Z','message':{'usage':{'input_tokens':null,'output_tokens':3}}}".
Definition line_null_counter_0900 : string :=
  "{'timestamp':'2024-01-01T09:00:00Z','message':{'usage':{'input_tokens':null,'output_tokens':3}}}".

(** A line with a number of 4301 digits, more than [int] converts from a
    string: [json.loads] raises [ValueError]. *)
Fixpoint nines (n : nat) : string :=
  match n with
  | O => EmptyString
  | S k => String "9" (nines k)
  end.
Definition line_long_number : string :=
  "{'timestamp':'2024-01-01T09:00:00Z','message':{'usage':{'input_tokens':"
  +:+ nines 4301 +:+ "}}}".

(** A record of the last hour of the last day that [datetime] can hold. *)
Definition line_year_9999 : string :=
  "{'timestamp':'9999-12-31T23:00:00Z','message':{'usage':{'input_tokens':1}}}".

Definition null_usage : json :=
  JObj (<["input_tokens" := JNull]> (<["output_tokens" := JNum 3]> ∅)).

Definition json_loads (s : string) : result json :=
  if String.eqb s line_null_counter_0400
  then Ok (Sample.entry_of "2024-01-01T04:00:00Z" null_usage)
  else if String.eqb s line_null_counter_0900
  then Ok (Sample.entry_of "2024-01-01T09:00:00Z" null_usage)
  else if String.eqb s line_year_9999
  then Ok (Sample.entry_of "9999-12-31T23:00:00Z" (JObj (<["input_tokens" := JNum 1]> ∅)))
  else if String.eqb s line_long_number
  then Raise ValueError
  else Sample.json_loads s.

Definition fromisoformat (s : string) : option datetime :=
  if String.eqb s "2024-01-01T04:00:00+00:00"
  then Some (Aware (Sample.jan1 4 0 0))
  else if String.eqb s "9999-12-31T23:00:00+00:00"
  then Some (Aware 253402297200000000)
  else Sample.fromisoformat s.

End SampleMore.

(** ** Sequences of notifier calls *)

Module NotifierRuns.
Import Py.

(** The notifier after unforced calls of [notify] for one type at the given
    instants, with the booleans they returned. *)
Fixpoint attempts (self : Notifier.Notifier) (notification_type : string)
    (instants : list Z) : Notifier.Notifier * list bool :=
  match instants with
  | [] => (self, [])
  | now :: rest =>
      match Notifier.notify self now notification_type false (Ok tt) with
      | Ok o =>
          let r := attempts (Notifier.self' o) notification_type rest in
          (r.1, Notifier.returned o :: r.2)
      | Raise _ => (self, [])
      end
  end.

End NotifierRuns.

(** ** Causes of callbacks *)

Module WatcherFacts.

(** An instant that is the debounce delay after a qualifying event of the
    trace. *)
Definition caused (delay : Z) (trace : list (Z * FileWatcher.FileSystemEvent))
    (instant : Z) : Prop :=
  ∃ t ev, (t, ev) ∈ trace ∧ FileWatcher.qualifying ev = true ∧ instant = t + delay.

(** Every timer of the handler and every run of the callback has such a
    cause. *)
Definition all_caused (delay : Z) (trace : list (Z * FileWatcher.FileSystemEvent))
    (self : FileWatcher.JSONLEventHandler) : Prop :=
  FileWatcher.debounce_seconds self = delay
  ∧ (∀ tm, tm ∈ FileWatcher.timers self → caused delay trace (FileWatcher.deadline tm))
  ∧ (∀ c, c ∈ FileWatcher.calls self → caused delay trace c).

End WatcherFacts.

(** ** What the tray application keeps true of its notifier *)

Module TrayFacts.

(** Whenever the level is Normal no cooldown is running, and below the
    Critical level none is running for Critical alerts. *)
Definition cooldown_free (available : bool) (self : TrayApp.TrayApp) : Prop :=
  Notifier.toaster (TrayApp.notifier self) = available
  ∧ 0 ≤ TrayApp._last_warning_level self ≤ 2
  ∧ (TrayApp._last_warning_level self = 0 →
     Notifier.last_notification (TrayApp.notifier self) = ∅)
  ∧ (TrayApp._last_warning_level self = 1 →
     Notifier.last_notification (TrayApp.notifier self) !! "usage_critical" = None).

End TrayFacts.

(** * Properties *)

Import Py.

(** ** Configuration *)

Lemma PLANS_lookup (name : string) :
  Config.PLANS !! name =
    if decide (name = "Pro") then Some Config.pro_plan
    else if decide (name = "Max 5x") then Some Config.max5_plan
    else if decide (name = "Max 20x") then Some Config.max20_plan
    else None.
Proof.
  unfold Config.PLANS.
  repeat (rewrite lookup_insert; case_decide; subst;
          [ repeat case_decide; congruence | ]).
  rewrite lookup_empty. repeat case_decide; congruence.
Qed.

(** C10.  For every configuration the [token_limit] property is the limit
    of the configured plan for the three known plans (Pro 8,744,628, Max 5x
    100,000,000, Max 20x 400,000,000) and the Pro limit for every other plan
    name; it is strictly positive, so the test [token_limit > 0] of the
    percentage derivation always succeeds. *)
Theorem token_limit_positive (c : Config.Config) :
  Config.token_limit c =
    (if decide (Config.plan c = "Pro") then 8744628
     else if decide (Config.plan c = "Max 5x") then 100000000
     else if decide (Config.plan c = "Max 20x") then 400000000
     else 8744628)
  ∧ 0 < Config.token_limit c
  ∧ (0 <? Config.token_limit c) = true.
Proof.
  assert (E : Config.token_limit c =
    (if decide (Config.plan c = "Pro") then 8744628
     else if decide (Config.plan c = "Max 5x") then 100000000
     else if decide (Config.plan c = "Max 20x") then 400000000
     else 8744628)).
  { unfold Config.token_limit. rewrite PLANS_lookup.
    repeat case_decide; reflexivity. }
  split; [exact E|].
  assert (0 < Config.token_limit c) by (rewrite E; repeat case_decide; lia).
  split; [assumption|]. apply Z.ltb_lt. assumption.
Qed.

(** ** Window aggregation *)

Import UsageCalculator.

Lemma older_omin t o : older t o = omin (Some t) o.
Proof.
  destruct o as [x|]; simpl; [|reflexivity].
  destruct (Z.ltb_spec t x); f_equal; lia.
Qed.

Lemma omin_assoc a b c : omin a (omin b c) = omin (omin a b) c.
Proof. destruct a, b, c; simpl; try reflexivity. f_equal. lia. Qed.

Lemma omin_None_r a : omin a None = a.
Proof. destruct a; reflexivity. Qed.

Lemma sum_tokens_app rs1 rs2 :
  sum_tokens (rs1 ++ rs2) = sum_tokens rs1 + sum_tokens rs2.
Proof. induction rs1 as [|r rs1 IH]; simpl; [reflexivity|]. rewrite IH. lia. Qed.

Lemma min_time_app rs1 rs2 :
  min_time (rs1 ++ rs2) = omin (min_time rs1) (min_time rs2).
Proof.
  induction rs1 as [|r rs1 IH]; simpl; [reflexivity|].
  rewrite IH. destruct (min_time rs1), (min_time rs2); simpl; f_equal; lia.
Qed.

Lemma in_window_app ws rs1 rs2 :
  in_window ws (rs1 ++ rs2) = in_window ws rs1 ++ in_window ws rs2.
Proof. apply filter_app. Qed.

Section ParserFacts.

Variable json_loads : string -> result json.
Variable fromisoformat : string -> option datetime.

Abbreviation read_record := (read_record json_loads fromisoformat).
Abbreviation process_line := (process_line json_loads fromisoformat).
Abbreviation parse_lines := (parse_lines json_loads fromisoformat).
Abbreviation _parse_jsonl_file := (_parse_jsonl_file json_loads fromisoformat).
Abbreviation scan := (scan json_loads fromisoformat).
Abbreviation line_records := (line_records json_loads fromisoformat).
Abbreviation records := (records json_loads fromisoformat).
Abbreviation completes := (completes json_loads fromisoformat).
Abbreviation pass_records := (pass_records json_loads fromisoformat).
Abbreviation calculate_with := (calculate_with json_loads fromisoformat).
Abbreviation calculate := (calculate json_loads fromisoformat).
Abbreviation calculate_with_result := (calculate_with_result json_loads fromisoformat).
Abbreviation calculate_result := (calculate_result json_loads fromisoformat).

Lemma process_line_count ws st raw st' :
  process_line ws st raw = Ok st' → st' = count ws st (line_records raw).
Proof.
  unfold UsageCalculator.process_line, UsageCalculator.line_records, count, in_window.
  destruct read_record as [[[dt usage]|]|e]; simpl; try discriminate.
  - destruct dt as [t|t]; [|discriminate].
    destruct (Z.leb_spec ws t) as [Hle|Hlt].
    + destruct (message_tokens usage) as [n|e] eqn:E; simpl; [|discriminate].
      intros [= <-]. rewrite filter_cons_True by (simpl; lia).
      rewrite ?filter_nil. simpl. rewrite older_omin. f_equal; lia.
    + intros [= <-]. destruct (message_tokens usage) as [n|e]; simpl.
      * rewrite filter_cons_False by (simpl; lia).
        rewrite ?filter_nil. simpl. destruct st; f_equal; simpl; lia.
      * rewrite ?filter_nil. destruct st; simpl; f_equal; lia.
  - intros [= <-]. rewrite ?filter_nil. destruct st; simpl; f_equal; lia.
Qed.

Lemma count_app ws st rs1 rs2 :
  count ws (count ws st rs1) rs2 = count ws st (rs1 ++ rs2).
Proof.
  unfold count. simpl. rewrite in_window_app, sum_tokens_app, min_time_app.
  f_equal; [lia|].
  destruct (min_time (in_window ws rs1)), (min_time (in_window ws rs2)), st.2;
    simpl; f_equal; lia.
Qed.

Lemma parse_lines_count ws f : forall st st',
  parse_lines ws st f = Ok st' → st' = count ws st (records f).
Proof.
  induction f as [|raw rest IH|e]; intros st st'; simpl.
  - intros [= <-]. unfold count, in_window. rewrite ?filter_nil. simpl.
    destruct st; f_equal; simpl; lia.
  - destruct (process_line ws st raw) as [st1|e] eqn:E; simpl; [|discriminate].
    intros H. apply IH in H. apply process_line_count in E. subst.
    apply count_app.
  - discriminate.
Qed.

Lemma scan_count ws st f :
  scan ws st f = if completes ws f then count ws st (records f) else st.
Proof.
  unfold UsageCalculator.scan, UsageCalculator.completes.
  destruct (_parse_jsonl_file f ws) as [[tokens oldest]|e] eqn:E; simpl; [|reflexivity].
  apply parse_lines_count in E. unfold count in *. simpl in E.
  injection E as -> ->. rewrite omin_None_r.
  destruct (min_time (in_window ws (records f))); simpl;
    rewrite ?older_omin; f_equal; lia.
Qed.

Lemma fold_scan_count ws files : forall st,
  fold_left (scan ws) files st = count ws st (pass_records ws files).
Proof.
  unfold UsageCalculator.pass_records.
  induction files as [|f files IH]; intros st; simpl.
  - unfold count, in_window. rewrite ?filter_nil. simpl. destruct st; f_equal; simpl; lia.
  - rewrite IH, scan_count.
    destruct (completes ws f) eqn:E.
    + rewrite filter_cons_True by assumption. simpl. apply count_app.
    + rewrite filter_cons_False by congruence. reflexivity.
Qed.

Lemma in_window_iff ws (r : Z * Z) rs : r ∈ in_window ws rs ↔ r ∈ rs ∧ ws ≤ r.1.
Proof. unfold in_window. rewrite list_elem_of_filter. tauto. Qed.

Lemma calculate_with_count limit h now files :
  let ws := now - hours h in
  let s := calculate_with limit h now (Some files) in
  total_tokens s = sum_tokens (in_window ws (pass_records ws files))
  ∧ oldest_message_time s = min_time (in_window ws (pass_records ws files)).
Proof.
  simpl. rewrite fold_scan_count. unfold count. simpl.
  split; [lia|]. apply omin_None_r.
Qed.

Lemma record_step ws st raw t usage n :
  read_record raw = Ok (Some (Aware t, usage)) →
  message_tokens usage = Ok n →
  process_line ws st raw =
    Ok (if bool_decide (ws ≤ t) then (st.1 + n, older t st.2) else st).
Proof.
  intros Hr Hn. unfold UsageCalculator.process_line. rewrite Hr. simpl.
  case_bool_decide as Hd.
  - apply Z.leb_le in Hd. rewrite Hd, Hn. reflexivity.
  - apply Z.leb_nle in Hd. rewrite Hd. reflexivity.
Qed.

End ParserFacts.

(** The example of the specification: window of five hours ending at ten
    o'clock; the records of 05:00:01 (100 tokens) and 05:00:00 (7 tokens)
    count, the record of 04:59:59 (50 tokens) does not. *)
Example window_example :
  let s := Sample.calculate_with 1000000 5 Sample.ten
             (Some [Line Sample.line_050001
                      (Line Sample.line_045959 (Line Sample.line_050000 Eof))]) in
  total_tokens s = 107 ∧ oldest_message_time s = Some (Sample.jan1 5 0 0).
Proof. vm_compute. split; reflexivity. Qed.

(** A record with the four counters 10, 5, 2 and 3 contributes 20 tokens. *)
Example four_counters :
  line_records Sample.json_loads Sample.fromisoformat Sample.line_four
  = [(Sample.jan1 9 0 0, 20)].
Proof. vm_compute. reflexivity. Qed.

(** ** Percentage, malformed lines and the missing root *)

Lemma py_min_Qmin (p : Q) : (py_min p 100 == Qmin 100 p)%Q.
Proof.
  unfold py_min. destruct (Qle_bool p 100) eqn:E.
  - apply Qle_bool_iff in E. symmetry. apply Q.min_r. exact E.
  - assert (H : ¬ (p <= 100)%Q) by (rewrite <- Qle_bool_iff; congruence).
    apply Qnot_le_lt in H. symmetry. apply Q.min_l. apply Qlt_le_weak. exact H.
Qed.

Lemma py_min_le (p : Q) : (py_min p 100 <= 100)%Q.
Proof.
  unfold py_min. destruct (Qle_bool p 100) eqn:E.
  - apply Qle_bool_iff. exact E.
  - apply Qle_refl.
Qed.

Lemma py_min_nonneg (p : Q) : (0 <= p)%Q → (0 <= py_min p 100)%Q.
Proof.
  intros H. unfold py_min. destruct (Qle_bool p 100); [exact H|].
  discriminate.
Qed.

Lemma ratio_nonneg (total limit : Z) :
  0 ≤ total → 0 < limit → (0 <= inject_Z total / inject_Z limit * 100)%Q.
Proof.
  intros Ht Hl. apply Qmult_le_0_compat; [|discriminate].
  apply Qmult_le_0_compat.
  - change (inject_Z 0 <= inject_Z total)%Q. rewrite <- Zle_Qle. exact Ht.
  - apply Qinv_le_0_compat.
    change (inject_Z 0 <= inject_Z limit)%Q. rewrite <- Zle_Qle. lia.
Qed.

Section CalculatorClaims.

Variable json_loads : string -> result json.
Variable fromisoformat : string -> option datetime.

Abbreviation process_line := (process_line json_loads fromisoformat).
Abbreviation completes := (completes json_loads fromisoformat).
Abbreviation pass_records := (pass_records json_loads fromisoformat).
Abbreviation calculate_with := (calculate_with json_loads fromisoformat).
Abbreviation calculate := (calculate json_loads fromisoformat).
Abbreviation calculate_with_result := (calculate_with_result json_loads fromisoformat).
Abbreviation calculate_result := (calculate_result json_loads fromisoformat).

(** C4.  The percentage of the snapshot of a pass is
    [min(100, total_tokens / token_limit * 100)] when [token_limit > 0] and
    [0] otherwise; two million tokens against a limit of one million give
    100, not 200. *)
Theorem percentage_is_clamped_ratio (limit h now : Z) (dir : option (list file)) :
  let s := calculate_with limit h now dir in
  (percentage s ==
     if 0 <? limit
     then Qmin 100 (inject_Z (total_tokens s) / inject_Z limit * 100)
     else 0)%Q
  ∧ (let big := Sample.calculate_with 1000000 5 Sample.ten
                  (Some [Line Sample.line_big Eof]) in
     total_tokens big = 2000000 ∧ token_limit big = 1000000
     ∧ percentage big = 100%Q).
Proof.
  split; [|vm_compute; repeat split; reflexivity].
  destruct dir as [files|]; simpl.
  - rewrite py_min_Qmin. destruct (0 <? limit); [reflexivity|].
    apply Q.min_r. discriminate.
  - destruct (Z.ltb_spec 0 limit); [|reflexivity].
    change (inject_Z 0) with 0%Q.
    assert (E : (0 / inject_Z limit * 100 == 0)%Q)
      by (unfold Qdiv; rewrite !Qmult_0_l; reflexivity).
    rewrite E. reflexivity.
Qed.

Lemma calculate_returns limit h now dir off s :
  calculate_with_result limit h now dir off = Ok s →
  s = calculate_with limit h now dir.
Proof.
  unfold UsageCalculator.calculate_with_result, shifted.
  destruct (_ && _); [|discriminate].
  change (Ok ?x ≫= ?f) with (f x). cbv beta.
  replace (now + - hours h) with (now - hours h) by lia.
  destruct dir as [files|]; [|intros [= <-]; reflexivity].
  cbv zeta.
  destruct (fold_left (UsageCalculator.scan json_loads fromisoformat (now - hours h)) files (0, None)).2 as [o|].
  - destruct ((datetime_min <=? _) && _); [|discriminate].
    change (Ok ?x ≫= ?f) with (f x). cbv beta.
    destruct (_ && _); [discriminate|]. intros [= <-]. reflexivity.
  - change (mret 0 ≫= ?f) with (f 0). cbv beta.
    destruct (_ && _); [discriminate|]. intros [= <-]. reflexivity.
Qed.

(** C5, as amended.  With the counters of the records integers, the
    percentage of a snapshot that a pass returns never exceeds 100,
    whatever the total; it is at least 0 whenever the total is not
    negative, which is the case when no counted record has a negative
    token sum.  The code clamps from above only and does not check the
    sign of a counter. *)
Theorem percentage_bounds (limit h now : Z) (dir : option (list file)) :
  let s := calculate_with limit h now dir in
  (percentage s <= 100)%Q
  ∧ (0 ≤ total_tokens s → (0 <= percentage s)%Q)
  ∧ (∀ files, dir = Some files →
       Forall (fun r : Z * Z => 0 ≤ r.2)
              (in_window (now - hours h) (pass_records (now - hours h) files)) →
       0 ≤ total_tokens s)
  ∧ (∀ off s', calculate_with_result limit h now dir off = Ok s' →
       (percentage s' <= 100)%Q
       ∧ (0 ≤ total_tokens s' → (0 <= percentage s')%Q)).
Proof.
  assert (Hle : (percentage (calculate_with limit h now dir) <= 100)%Q).
  { destruct dir; simpl; [apply py_min_le|discriminate]. }
  assert (Hge : 0 ≤ total_tokens (calculate_with limit h now dir) →
                (0 <= percentage (calculate_with limit h now dir))%Q).
  { destruct dir as [files|]; simpl; [|discriminate].
    intros Ht. apply py_min_nonneg.
    destruct (Z.ltb_spec 0 limit); [|discriminate].
    apply ratio_nonneg; assumption. }
  split_and!.
  - exact Hle.
  - exact Hge.
  - intros files -> Hall.
    destruct (calculate_with_count json_loads fromisoformat limit h now files) as [-> _].
    induction Hall as [|r rs Hr _ IH]; simpl; lia.
  - intros off s' Hs. apply calculate_returns in Hs. subst s'.
    split; assumption.
Qed.

(** C7, as amended.  With the log root absent the pass returns the
    snapshot [UsageStats(token_limit=config.token_limit)]: no tokens,
    percentage 0, no oldest time, no remaining time, and the limit of the
    configuration, provided the window start [now - window_hours] is a
    date that [datetime] can hold; the window start is computed before
    the test of the root, and when it leaves the range of [datetime] the
    pass raises [OverflowError] instead of returning. *)
Theorem missing_root_snapshot (config : Config.Config) (now off : Z) :
  let ws := now - hours (Config.window_hours config) in
  (datetime_min ≤ ws ≤ datetime_max →
     ∃ s, calculate_result config now None off = Ok s
          ∧ s = default_stats (Config.token_limit config)
          ∧ total_tokens s = 0
          ∧ percentage s = 0%Q
          ∧ remaining_tokens s = 0
          ∧ oldest_message_time s = None
          ∧ remaining_time s = None
          ∧ window_start s = None
          ∧ window_end s = None
          ∧ token_limit s = Config.token_limit config)
  ∧ (¬ (datetime_min ≤ ws ≤ datetime_max) →
       calculate_result config now None off = Raise OverflowError).
Proof.
  intros ws. subst ws.
  unfold UsageCalculator.calculate_result, UsageCalculator.calculate_with_result,
    shifted.
  replace (now + - hours (Config.window_hours config))
    with (now - hours (Config.window_hours config)) by lia.
  split.
  - intros [Hlo Hhi].
    apply Z.leb_le in Hlo, Hhi. rewrite Hlo, Hhi.
    eexists. split; [reflexivity|]. repeat split; reflexivity.
  - intros Hout.
    destruct (Z.leb_spec datetime_min (now - hours (Config.window_hours config)));
      destruct (Z.leb_spec (now - hours (Config.window_hours config)) datetime_max);
      simpl; try reflexivity.
    exfalso. apply Hout. split; assumption.
Qed.

End CalculatorClaims.

Lemma percentage_bounds_witness :
  let s := Sample.calculate_with 1000000 5 Sample.ten
             (Some [Line Sample.line_big Eof; Line Sample.line_050001 Eof]) in
  0 ≤ total_tokens s ∧ (0 <= percentage s)%Q.
Proof.
  pose proof (percentage_bounds Sample.json_loads Sample.fromisoformat
                1000000 5 Sample.ten
                (Some [Line Sample.line_big Eof; Line Sample.line_050001 Eof]))
    as (_ & Hpos & Htot & _).
  assert (H : 0 ≤ total_tokens
                (Sample.calculate_with 1000000 5 Sample.ten
                   (Some [Line Sample.line_big Eof; Line Sample.line_050001 Eof]))).
  { apply (Htot _ eq_refl). vm_compute. repeat constructor; discriminate. }
  split; [exact H|]. apply Hpos. exact H.
Defined.

(** C5, as stated, fails: a record whose counter is negative drives the
    percentage below 0, as only the upper bound is clamped. *)
Lemma percentage_negative_counterexample :
  let s := Sample.calculate (Config.default_config "/home/u/.claude/projects")
             Sample.ten (Some [Line Sample.line_negative Eof]) in
  total_tokens s = -1000000 ∧ ¬ (0 <= percentage s <= 100)%Q.
Proof.
  vm_compute. split; [reflexivity|]. intros [H _]. apply H. reflexivity.
Qed.

Lemma missing_root_snapshot_witness :
  ∃ s, UsageCalculator.calculate_result Sample.json_loads Sample.fromisoformat
         (Config.default_config "/home/u/.claude/projects") Sample.ten None 0 = Ok s
       ∧ total_tokens s = 0 ∧ token_limit s = 100000000.
Proof.
  destruct (missing_root_snapshot Sample.json_loads Sample.fromisoformat
              (Config.default_config "/home/u/.claude/projects") Sample.ten 0)
    as [H _].
  destruct H as (s & Hs & _ & Ht & _ & _ & _ & _ & _ & _ & Hl).
  { vm_compute. split; discriminate. }
  exists s. split; [exact Hs|]. split; [exact Ht|]. rewrite Hl. reflexivity.
Defined.

(** C7, as stated, fails: with a window of twenty million hours the
    window start falls before year 1 and the pass raises, root absent or
    not. *)
Lemma missing_root_raises_counterexample :
  UsageCalculator.calculate_result Sample.json_loads Sample.fromisoformat
    (Config.mkConfig "Max 5x" 20000000 90 30 15 "/home/u/.claude/projects")
    Sample.ten None 0
  = Raise OverflowError.
Proof. vm_compute. reflexivity. Qed.

(** ** Malformed lines and failing fragments *)

Section Resilience.

Variable json_loads : string -> result json.
Variable fromisoformat : string -> option datetime.

Abbreviation read_record := (read_record json_loads fromisoformat).
Abbreviation process_line := (process_line json_loads fromisoformat).
Abbreviation scan := (scan json_loads fromisoformat).
Abbreviation completes := (completes json_loads fromisoformat).
Abbreviation calculate_with := (calculate_with json_loads fromisoformat).

Lemma skipped_line ws st raw :
  read_record raw = Ok None → process_line ws st raw = Ok st.
Proof. intros H. unfold UsageCalculator.process_line. rewrite H. reflexivity. Qed.

Lemma read_blank raw : strip raw = EmptyString → read_record raw = Ok None.
Proof. intros H. unfold UsageCalculator.read_record. rewrite H. reflexivity. Qed.

Lemma read_undecodable raw :
  json_loads (strip raw) = Raise JSONDecodeError → read_record raw = Ok None.
Proof.
  intros H. unfold UsageCalculator.read_record. rewrite H.
  destruct (String.eqb _ _); reflexivity.
Qed.

Lemma read_lacks_usage raw entry :
  json_loads (strip raw) = Ok (JObj entry) → lacks_usage entry →
  read_record raw = Ok None.
Proof.
  intros H L. unfold UsageCalculator.read_record. rewrite H.
  destruct (String.eqb _ _); [reflexivity|].
  unfold lacks_usage in L. simpl.
  destruct (entry !! "message") as [[| | | | |message]|]; simpl; try contradiction.
  - rewrite L. reflexivity.
  - rewrite lookup_empty. reflexivity.
Qed.

Lemma read_bad_timestamp raw entry :
  json_loads (strip raw) = Ok (JObj entry) → message_is_object entry →
  bad_timestamp fromisoformat entry → read_record raw = Ok None.
Proof.
  intros H M B. unfold UsageCalculator.read_record. rewrite H.
  destruct (String.eqb _ _); [reflexivity|].
  unfold message_is_object in M. unfold bad_timestamp in B. simpl.
  assert (T : forall usage : json, truthy usage = true →
    match entry !! "timestamp" with
    | Some v => Ok v | None => Ok JNull
    end ≫= (fun timestamp_str : json =>
       if negb (truthy timestamp_str) then mret None
       else match timestamp_str with
            | JStr s => match fromisoformat (replace_Z s) with
                        | None => mret None
                        | Some msg_time => mret (Some (msg_time, usage))
                        end
            | _ => Raise AttributeError
            end) = Ok None).
  { intros usage _.
    destruct (entry !! "timestamp") as [[| | |s| |]|]; simpl; try contradiction;
      try reflexivity.
    rewrite B. destruct (negb _); reflexivity. }
  destruct (entry !! "message") as [[| | | | |message]|]; simpl; try contradiction.
  - destruct (message !! "usage") as [usage|]; simpl; [|reflexivity].
    destruct (truthy usage) eqn:Eu; simpl; [|reflexivity].
    apply (T usage Eu).
  - rewrite lookup_empty. reflexivity.
Qed.

Lemma scan_failing ws st f : completes ws f = false → scan ws st f = st.
Proof.
  unfold UsageCalculator.completes, UsageCalculator.scan.
  destruct (_parse_jsonl_file _ _ f ws) as [[tokens oldest]|e]; simpl;
    [discriminate|reflexivity].
Qed.

(** *** Fragments made of skipped lines and records *)

Abbreviation record_line := (record_line json_loads fromisoformat).
Abbreviation skip_line := (skip_line json_loads fromisoformat).
Abbreviation holds := (holds json_loads fromisoformat).
Abbreviation records := (records json_loads fromisoformat).
Abbreviation pass_records := (pass_records json_loads fromisoformat).
Abbreviation _parse_jsonl_file := (_parse_jsonl_file json_loads fromisoformat).

Lemma truthy_object (usage : gmap string json) :
  usage ≠ ∅ → truthy (JObj usage) = true.
Proof.
  intros Hne. simpl. destruct (map_to_list usage) eqn:E; [|reflexivity].
  apply map_to_list_empty_iff in E. contradiction.
Qed.

Lemma truthy_string (s : string) : s ≠ EmptyString → truthy (JStr s) = true.
Proof. intros Hne. simpl. apply String.eqb_neq in Hne. rewrite Hne. reflexivity. Qed.

Lemma counters_add (usage : gmap string json) (a b c d : Z) :
  counter usage "input_tokens" a → counter usage "output_tokens" b →
  counter usage "cache_creation_input_tokens" c →
  counter usage "cache_read_input_tokens" d →
  message_tokens (JObj usage) = Ok (a + b + c + d).
Proof.
  unfold counter, message_tokens.
  intros [[Ea ->]|Ea] [[Eb ->]|Eb] [[Ec ->]|Ec] [[Ed ->]|Ed]; simpl;
    rewrite Ea, Eb, Ec, Ed; reflexivity.
Qed.

Lemma read_record_line raw t n :
  record_line raw t n →
  ∃ usage, read_record raw = Ok (Some (Aware t, usage))
           ∧ message_tokens usage = Ok n.
Proof.
  intros (entry & message & usage & s & a & b & c & d & Hne & Hj & Hm & Hu
          & Hue & Ht & Hs & Hf & Ha & Hb & Hc & Hd & ->).
  exists (JObj usage). split; [|apply counters_add; assumption].
  unfold UsageCalculator.read_record. apply String.eqb_neq in Hne.
  rewrite Hne, Hj.
  change (get (JObj entry) "message" (JObj ∅)) with
    (match entry !! "message" with Some v => Ok v | None => Ok (JObj ∅) end).
  rewrite Hm.
  change (Ok (JObj message) ≫= ?f) with (f (JObj message)).
  cbv beta.
  change (get (JObj message) "usage" (JObj ∅)) with
    (match message !! "usage" with Some v => Ok v | None => Ok (JObj ∅) end).
  rewrite Hu.
  change (Ok (JObj usage) ≫= ?f) with (f (JObj usage)).
  cbv beta. rewrite (truthy_object usage Hue).
  change (get (JObj entry) "timestamp" JNull) with
    (match entry !! "timestamp" with Some v => Ok v | None => Ok JNull end).
  rewrite Ht.
  change (Ok (JStr s) ≫= ?f) with (f (JStr s)).
  cbv beta. rewrite (truthy_string s Hs), Hf. reflexivity.
Qed.

Lemma read_skip_line raw : skip_line raw → read_record raw = Ok None.
Proof.
  intros [Hb|[Hj|(entry & Hj & [Hu|[Hm Ht]])]].
  - apply read_blank, Hb.
  - apply read_undecodable, Hj.
  - eapply read_lacks_usage; eassumption.
  - eapply read_bad_timestamp; eassumption.
Qed.

Lemma count_nil ws st : count ws st [] = st.
Proof. unfold count, in_window. rewrite filter_nil. destruct st; simpl; f_equal; lia. Qed.

Lemma holds_parse ws f rs :
  holds f rs →
  ∀ st, parse_lines json_loads fromisoformat ws st f = Ok (count ws st rs)
        ∧ records f = rs.
Proof.
  induction 1 as [|raw rest rs Hskip _ IH|raw rest t n rs Hrec _ IH]; intros st.
  - simpl. rewrite count_nil. split; reflexivity.
  - pose proof (read_skip_line raw Hskip) as Hr.
    destruct (IH st) as [Hp Hrs]. simpl.
    rewrite (skipped_line ws st raw Hr).
    unfold UsageCalculator.line_records. rewrite Hr.
    split; [exact Hp|exact Hrs].
  - destruct (read_record_line raw t n Hrec) as (usage & Hr & Hn).
    pose proof (record_step json_loads fromisoformat ws st raw t usage n Hr Hn) as Hstep.
    pose proof (process_line_count json_loads fromisoformat ws st raw _ Hstep) as Hc.
    unfold UsageCalculator.line_records in Hc. rewrite Hr, Hn in Hc.
    simpl parse_lines. rewrite Hstep.
    change (Ok ?x ≫= ?f) with (f x). cbv beta.
    destruct (IH (if bool_decide (ws ≤ t) then (st.1 + n, older t st.2) else st))
      as [Hp Hrs].
    split.
    + etrans; [exact Hp|]. f_equal.
      change ((t, n) :: rs) with ([(t, n)] ++ rs).
      rewrite <- count_app. f_equal. exact Hc.
    + simpl records. unfold UsageCalculator.line_records.
      rewrite Hr, Hn, Hrs. reflexivity.
Qed.

Lemma holds_file ws f rs :
  holds f rs →
  _parse_jsonl_file f ws = Ok (sum_tokens (in_window ws rs), min_time (in_window ws rs))
  ∧ completes ws f = true ∧ records f = rs.
Proof.
  intros H. destruct (holds_parse ws f rs H (0, None)) as [Hp Hr].
  unfold UsageCalculator.completes, UsageCalculator._parse_jsonl_file.
  rewrite Hp. unfold count. simpl. rewrite omin_None_r.
  split_and!; try reflexivity. exact Hr.
Qed.

Lemma holds_pass ws files rss :
  Forall2 holds files rss → pass_records ws files = concat rss.
Proof.
  unfold UsageCalculator.pass_records.
  induction 1 as [|f rs files rss Hf _ IH]; [reflexivity|].
  destruct (holds_file ws f rs Hf) as (_ & Hc & Hr).
  rewrite filter_cons_True by exact Hc. simpl. rewrite Hr, IH. reflexivity.
Qed.


(** *** Lines that raise *)

Lemma process_raises ws st raw e :
  read_record raw = Raise e → process_line ws st raw = Raise e.
Proof. intros H. unfold UsageCalculator.process_line. rewrite H. reflexivity. Qed.

Lemma read_decoder_raises raw e :
  strip raw ≠ EmptyString → json_loads (strip raw) = Raise e →
  e ≠ JSONDecodeError → read_record raw = Raise e.
Proof.
  intros Hne Hj He. unfold UsageCalculator.read_record.
  apply String.eqb_neq in Hne. rewrite Hne, Hj.
  destruct e; try reflexivity. contradiction.
Qed.

Lemma read_not_object raw j :
  strip raw ≠ EmptyString → json_loads (strip raw) = Ok j →
  (∀ entry, j ≠ JObj entry) → read_record raw = Raise AttributeError.
Proof.
  intros Hne Hj Hno. unfold UsageCalculator.read_record.
  apply String.eqb_neq in Hne. rewrite Hne, Hj.
  destruct j as [| | | | |entry]; try reflexivity.
  exfalso. apply (Hno entry). reflexivity.
Qed.

Lemma read_message_not_object raw entry v :
  strip raw ≠ EmptyString → json_loads (strip raw) = Ok (JObj entry) →
  entry !! "message" = Some v → (∀ message, v ≠ JObj message) →
  read_record raw = Raise AttributeError.
Proof.
  intros Hne Hj Hm Hno. unfold UsageCalculator.read_record.
  apply String.eqb_neq in Hne. rewrite Hne, Hj. simpl. rewrite Hm.
  destruct v as [| | | | |message]; try reflexivity.
  exfalso. apply (Hno message). reflexivity.
Qed.

Lemma read_usage_falsy raw entry message u :
  json_loads (strip raw) = Ok (JObj entry) →
  entry !! "message" = Some (JObj message) →
  message !! "usage" = Some u → truthy u = false →
  read_record raw = Ok None.
Proof.
  intros Hj Hm Hu Hf. unfold UsageCalculator.read_record. rewrite Hj.
  destruct (String.eqb _ _); [reflexivity|].
  change (get (JObj entry) "message" (JObj ∅)) with
    (match entry !! "message" with Some v => Ok v | None => Ok (JObj ∅) end).
  rewrite Hm.
  change (Ok (JObj message) ≫= ?f) with (f (JObj message)). cbv beta.
  change (get (JObj message) "usage" (JObj ∅)) with
    (match message !! "usage" with Some v => Ok v | None => Ok (JObj ∅) end).
  rewrite Hu.
  change (Ok u ≫= ?f) with (f u). cbv beta. rewrite Hf. reflexivity.
Qed.

Lemma read_timestamp raw entry message u ts :
  strip raw ≠ EmptyString → json_loads (strip raw) = Ok (JObj entry) →
  entry !! "message" = Some (JObj message) →
  message !! "usage" = Some u → truthy u = true →
  entry !! "timestamp" = Some ts → truthy ts = true →
  read_record raw =
    match ts with
    | JStr s => match fromisoformat (replace_Z s) with
                | None => Ok None
                | Some msg_time => Ok (Some (msg_time, u))
                end
    | _ => Raise AttributeError
    end.
Proof.
  intros Hne Hj Hm Hu Hut Ht Htt. unfold UsageCalculator.read_record.
  apply String.eqb_neq in Hne. rewrite Hne, Hj.
  change (get (JObj entry) "message" (JObj ∅)) with
    (match entry !! "message" with Some v => Ok v | None => Ok (JObj ∅) end).
  rewrite Hm.
  change (Ok (JObj message) ≫= ?f) with (f (JObj message)). cbv beta.
  change (get (JObj message) "usage" (JObj ∅)) with
    (match message !! "usage" with Some v => Ok v | None => Ok (JObj ∅) end).
  rewrite Hu.
  change (Ok u ≫= ?f) with (f u). cbv beta. rewrite Hut.
  change (get (JObj entry) "timestamp" JNull) with
    (match entry !! "timestamp" with Some v => Ok v | None => Ok JNull end).
  rewrite Ht.
  change (Ok ts ≫= ?f) with (f ts). cbv beta. rewrite Htt.
  destruct ts; reflexivity.
Qed.

(** C6, as amended.  In the loop over the lines of a fragment a blank
    line, a line that [json.loads] rejects with [JSONDecodeError], a line
    that decodes to an object whose [message] is absent or is an object
    without [usage] or with an empty one, and such a line whose timestamp
    is absent, null or a string that does not parse, leave the loop state
    as it was and raise nothing.  Other malformed lines are not skipped:
    an error of the decoder of another class, a line that decodes to
    something else than an object, a [message] that is not an object, a
    timestamp that is neither empty nor a string, a timestamp without
    offset and a usage that is not an object raise in the loop; the
    exception ends the parse of the fragment, and the pass then goes on
    as if the fragment were not there, its earlier records included.  A
    fragment with one 100-token record in the window between a line that
    does not decode and a line without timestamp gives a total of 100. *)
Theorem malformed_lines_skipped :
  (∀ ws st raw, strip raw = EmptyString → process_line ws st raw = Ok st)
  ∧ (∀ ws st raw, json_loads (strip raw) = Raise JSONDecodeError →
       process_line ws st raw = Ok st)
  ∧ (∀ ws st raw entry,
       json_loads (strip raw) = Ok (JObj entry) → lacks_usage entry →
       process_line ws st raw = Ok st)
  ∧ (∀ ws st raw entry message u,
       json_loads (strip raw) = Ok (JObj entry) →
       entry !! "message" = Some (JObj message) →
       message !! "usage" = Some u → truthy u = false →
       process_line ws st raw = Ok st)
  ∧ (∀ ws st raw entry,
       json_loads (strip raw) = Ok (JObj entry) → message_is_object entry →
       bad_timestamp fromisoformat entry →
       process_line ws st raw = Ok st)
  ∧ (∀ ws st raw e,
       strip raw ≠ EmptyString → json_loads (strip raw) = Raise e →
       e ≠ JSONDecodeError →
       process_line ws st raw = Raise e)
  ∧ (∀ ws st raw j,
       strip raw ≠ EmptyString → json_loads (strip raw) = Ok j →
       (∀ entry, j ≠ JObj entry) →
       process_line ws st raw = Raise AttributeError)
  ∧ (∀ ws st raw entry v,
       strip raw ≠ EmptyString → json_loads (strip raw) = Ok (JObj entry) →
       entry !! "message" = Some v → (∀ message, v ≠ JObj message) →
       process_line ws st raw = Raise AttributeError)
  ∧ (∀ ws st raw entry message u ts,
       strip raw ≠ EmptyString → json_loads (strip raw) = Ok (JObj entry) →
       entry !! "message" = Some (JObj message) →
       message !! "usage" = Some u → truthy u = true →
       entry !! "timestamp" = Some ts → truthy ts = true →
       (∀ s, ts ≠ JStr s) →
       process_line ws st raw = Raise AttributeError)
  ∧ (∀ ws st raw entry message u s wall,
       strip raw ≠ EmptyString → json_loads (strip raw) = Ok (JObj entry) →
       entry !! "message" = Some (JObj message) →
       message !! "usage" = Some u → truthy u = true →
       entry !! "timestamp" = Some (JStr s) → s ≠ EmptyString →
       fromisoformat (replace_Z s) = Some (Naive wall) →
       process_line ws st raw = Raise TypeError)
  ∧ (∀ ws st raw entry message u s t,
       strip raw ≠ EmptyString → json_loads (strip raw) = Ok (JObj entry) →
       entry !! "message" = Some (JObj message) →
       message !! "usage" = Some u → truthy u = true →
       (∀ usage, u ≠ JObj usage) →
       entry !! "timestamp" = Some (JStr s) → s ≠ EmptyString →
       fromisoformat (replace_Z s) = Some (Aware t) →
       process_line ws st raw =
         if bool_decide (ws ≤ t) then Raise AttributeError else Ok st)
  ∧ (∀ ws st raw rest e,
       process_line ws st raw = Raise e →
       parse_lines json_loads fromisoformat ws st (Line raw rest) = Raise e)
  ∧ (∀ ws st raw rest st',
       process_line ws st raw = Ok st' →
       parse_lines json_loads fromisoformat ws st (Line raw rest)
       = parse_lines json_loads fromisoformat ws st' rest)
  ∧ (∀ limit h now files1 f files2,
       completes (now - hours h) f = false →
       calculate_with limit h now (Some (files1 ++ f :: files2))
       = calculate_with limit h now (Some (files1 ++ files2)))
  ∧ (let s := Sample.calculate_with 1000000 5 Sample.ten
                (Some [Line Sample.line_bad_json
                         (Line Sample.line_050001
                            (Line Sample.line_no_timestamp Eof))]) in
     total_tokens s = 100).
Proof.
  split_and!.
  - intros. apply skipped_line, read_blank. assumption.
  - intros. apply skipped_line, read_undecodable. assumption.
  - intros. eapply skipped_line, read_lacks_usage; eassumption.
  - intros. eapply skipped_line, read_usage_falsy; eassumption.
  - intros. eapply skipped_line, read_bad_timestamp; eassumption.
  - intros. apply process_raises, read_decoder_raises; assumption.
  - intros. eapply process_raises, read_not_object; eassumption.
  - intros. eapply process_raises, read_message_not_object; eassumption.
  - intros ws st raw entry message u ts Hne Hj Hm Hu Hut Ht Htt Hns.
    apply process_raises.
    rewrite (read_timestamp raw entry message u ts Hne Hj Hm Hu Hut Ht Htt).
    destruct ts as [| | |s| |]; try reflexivity.
    exfalso. apply (Hns s). reflexivity.
  - intros ws st raw entry message u s wall Hne Hj Hm Hu Hut Ht Hs Hf.
    unfold UsageCalculator.process_line.
    rewrite (read_timestamp raw entry message u (JStr s) Hne Hj Hm Hu Hut Ht
               (truthy_string s Hs)), Hf.
    reflexivity.
  - intros ws st raw entry message u s t Hne Hj Hm Hu Hut Hno Ht Hs Hf.
    unfold UsageCalculator.process_line.
    rewrite (read_timestamp raw entry message u (JStr s) Hne Hj Hm Hu Hut Ht
               (truthy_string s Hs)), Hf.
    change (Ok ?x ≫= ?f) with (f x). cbv beta iota.
    case_bool_decide as Hd.
    + apply Z.leb_le in Hd. rewrite Hd.
      destruct u as [| | | | |usage]; try reflexivity.
      exfalso. apply (Hno usage). reflexivity.
    + apply Z.leb_nle in Hd. rewrite Hd. reflexivity.
  - intros ws st raw rest e H. simpl. rewrite H. reflexivity.
  - intros ws st raw rest st' H. simpl. rewrite H. reflexivity.
  - intros limit h now files1 f files2 Hf.
    unfold UsageCalculator.calculate_with.
    rewrite !fold_left_app. simpl. rewrite scan_failing by exact Hf.
    reflexivity.
  - vm_compute. reflexivity.
Qed.

End Resilience.

Lemma input_only_record json_loads fromisoformat raw ts t n :
  strip raw ≠ EmptyString →
  json_loads (strip raw)
  = Ok (Sample.entry_of ts (JObj (<["input_tokens" := JNum n]> ∅))) →
  ts ≠ EmptyString →
  fromisoformat (replace_Z ts) = Some (Aware t) →
  record_line json_loads fromisoformat raw t n.
Proof.
  intros Hne Hj Hts Hf.
  exists (<["timestamp" := JStr ts]>
            (<["message" := JObj (<["usage" := JObj (<["input_tokens" := JNum n]> ∅)]> ∅)]> ∅)),
         (<["usage" := JObj (<["input_tokens" := JNum n]> ∅)]> ∅),
         (<["input_tokens" := JNum n]> ∅), ts, n, 0, 0, 0.
  split_and!; try assumption; try (vm_compute; reflexivity).
  - intros H. apply (f_equal (fun m : gmap string json => m !! "input_tokens")) in H.
    vm_compute in H. discriminate.
  - right. vm_compute. reflexivity.
  - left. vm_compute. split; reflexivity.
  - left. vm_compute. split; reflexivity.
  - left. vm_compute. split; reflexivity.
  - lia.
Qed.

Lemma sample_fragment_holds :
  holds Sample.json_loads Sample.fromisoformat
    (Line Sample.line_045959
       (Line Sample.line_bad_json
          (Line Sample.line_050000 (Line Sample.line_050001 Eof))))
    [(Sample.jan1 4 59 59, 50); (Sample.jan1 5 0 0, 7); (Sample.jan1 5 0 1, 100)].
Proof.
  apply holds_record.
  { apply (input_only_record _ _ _ "2024-01-01T04:59:59Z");
      vm_compute; (reflexivity || discriminate). }
  apply holds_skip.
  { right. left. vm_compute. reflexivity. }
  apply holds_record.
  { apply (input_only_record _ _ _ "2024-01-01T05:00:00Z");
      vm_compute; (reflexivity || discriminate). }
  apply holds_record.
  { apply (input_only_record _ _ _ "2024-01-01T05:00:01Z");
      vm_compute; (reflexivity || discriminate). }
  apply holds_eof.
Qed.



Lemma malformed_lines_skipped_witness :
  let pl := process_line Sample.json_loads Sample.fromisoformat 0 (5, Some 3) in
  pl Sample.line_blank = Ok (5, Some 3)
  ∧ pl Sample.line_bad_json = Ok (5, Some 3)
  ∧ pl Sample.line_no_usage = Ok (5, Some 3)
  ∧ pl Sample.line_no_message = Ok (5, Some 3)
  ∧ pl Sample.line_no_timestamp = Ok (5, Some 3)
  ∧ pl Sample.line_bad_timestamp = Ok (5, Some 3)
  ∧ process_line SampleMore.json_loads Sample.fromisoformat 0 (5, Some 3)
      SampleMore.line_long_number = Raise ValueError
  ∧ pl Sample.line_message_string = Raise AttributeError
  ∧ pl Sample.line_numeric_timestamp = Raise AttributeError
  ∧ pl Sample.line_naive = Raise TypeError
  ∧ Sample.calculate_with 1000000 5 Sample.ten
      (Some ([Line Sample.line_050001 Eof]
             ++ Line Sample.line_050000 (ReadError OSError) :: [Line Sample.line_four Eof]))
    = Sample.calculate_with 1000000 5 Sample.ten
      (Some ([Line Sample.line_050001 Eof] ++ [Line Sample.line_four Eof])).
Proof.
  pose proof (malformed_lines_skipped Sample.json_loads Sample.fromisoformat)
    as (Hblank & Hjson & Husage & _ & Htime & _ & _ & Hmsg & Hts & Hnaive & _
        & _ & _ & Hfrag & _).
  pose proof (malformed_lines_skipped SampleMore.json_loads Sample.fromisoformat)
    as (_ & _ & _ & _ & _ & Hdec & _).
  split_and!.
  - apply Hblank. vm_compute. reflexivity.
  - apply Hjson. vm_compute. reflexivity.
  - eapply Husage; vm_compute; reflexivity.
  - eapply Husage; vm_compute; [reflexivity|exact I].
  - eapply Htime; vm_compute; [reflexivity|exact I|exact I].
  - eapply Htime; vm_compute; [reflexivity|exact I|reflexivity].
  - apply Hdec; [vm_compute; discriminate|vm_compute; reflexivity|discriminate].
  - eapply Hmsg; [vm_compute; discriminate|vm_compute; reflexivity
                 |vm_compute; reflexivity|discriminate].
  - eapply Hts; [vm_compute; discriminate|vm_compute; reflexivity
                |vm_compute; reflexivity|vm_compute; reflexivity|reflexivity
                |vm_compute; reflexivity|reflexivity|discriminate].
  - eapply Hnaive; [vm_compute; discriminate|vm_compute; reflexivity
                   |vm_compute; reflexivity|vm_compute; reflexivity|reflexivity
                   |vm_compute; reflexivity|discriminate|vm_compute; reflexivity].
  - apply Hfrag. vm_compute. reflexivity.
Defined.

(** C6, as stated, fails: a line whose timestamp is a number, and a line
    whose [message] is a string, are not skipped but raise, and the
    100-token record in the window that precedes such a line in its
    fragment is lost with it; so is the record before a line whose long
    number makes [json.loads] raise [ValueError]. *)
Lemma malformed_line_drops_fragment :
  process_line Sample.json_loads Sample.fromisoformat (Sample.jan1 5 0 0) (100, None)
    Sample.line_numeric_timestamp = Raise AttributeError
  ∧ process_line Sample.json_loads Sample.fromisoformat (Sample.jan1 5 0 0) (100, None)
      Sample.line_message_string = Raise AttributeError
  ∧ process_line SampleMore.json_loads Sample.fromisoformat (Sample.jan1 5 0 0)
      (100, None) SampleMore.line_long_number = Raise ValueError
  ∧ total_tokens (Sample.calculate_with 1000000 5 Sample.ten
       (Some [Line Sample.line_050001 Eof])) = 100
  ∧ total_tokens (Sample.calculate_with 1000000 5 Sample.ten
       (Some [Line Sample.line_050001 (Line Sample.line_numeric_timestamp Eof)])) = 0
  ∧ total_tokens (Sample.calculate_with 1000000 5 Sample.ten
       (Some [Line Sample.line_050001 (Line Sample.line_message_string Eof)])) = 0
  ∧ total_tokens (UsageCalculator.calculate_with SampleMore.json_loads
                    Sample.fromisoformat 1000000 5 Sample.ten
       (Some [Line Sample.line_050001 (Line SampleMore.line_long_number Eof)])) = 0.
Proof. vm_compute. repeat split; reflexivity. Qed.

(** Lines of other shapes are not skipped one by one: a record whose
    [message] is not an object, a timestamp that is not a string and a
    timestamp without offset raise in the loop, and [calculate] then drops
    the whole fragment, its valid records included. *)
Example ill_shaped_line_fails_fragment :
  let pl := process_line Sample.json_loads Sample.fromisoformat
              (Sample.jan1 5 0 0) (0, None) in
  pl Sample.line_message_string = Raise AttributeError
  ∧ pl Sample.line_numeric_timestamp = Raise AttributeError
  ∧ pl Sample.line_naive = Raise TypeError
  ∧ total_tokens (Sample.calculate_with 1000000 5 Sample.ten
       (Some [Line Sample.line_050001 (Line Sample.line_naive Eof);
              Line Sample.line_four Eof])) = 20.
Proof. vm_compute. repeat split; reflexivity. Qed.

(** ** Notifier *)

Lemma notify_eq self now ty force toast :
  Notifier.notify self now ty force toast =
    Ok (if negb (Notifier.toaster self)
           || (negb force &&
               match Notifier.last_notification self !! ty with
               | Some last_time => now - last_time <? Notifier.cooldown self
               | None => false
               end)
        then Notifier.mkOutcome self false false [Notifier.LogDebug]
        else Notifier.mkOutcome
               (Notifier.mkNotifier (Notifier.toaster self) (Notifier.cooldown self)
                  (<[ty := now]> (Notifier.last_notification self)))
               true true
               [match toast with
                | Ok _ => Notifier.LogInfo
                | Raise _ => Notifier.LogError
                end]).
Proof.
  unfold Notifier.notify.
  destruct (negb (Notifier.toaster self)); [reflexivity|]. simpl.
  destruct (negb force && _); [reflexivity|].
  destruct toast; reflexivity.
Qed.

Lemma blocked_iff (self : Notifier.Notifier) (now : Z) (ty : string) (force : bool) :
  negb (Notifier.toaster self)
  || (negb force &&
      match Notifier.last_notification self !! ty with
      | Some last_time => now - last_time <? Notifier.cooldown self
      | None => false
      end) = true
  ↔ Notifier.toaster self = false
    ∨ (force = false
       ∧ ∃ last, Notifier.last_notification self !! ty = Some last
                 ∧ now - last < Notifier.cooldown self).
Proof.
  rewrite orb_true_iff, andb_true_iff, !negb_true_iff.
  destruct (Notifier.last_notification self !! ty) as [last|].
  - rewrite Z.ltb_lt. split.
    + intros [H|[H1 H2]]; [left; exact H|right; eauto].
    + intros [H|[H1 (l & [= <-] & H2)]]; [left; exact H|right; eauto].
  - split.
    + intros [H|[_ H]]; [left; exact H|discriminate].
    + intros [H|[_ (l & H & _)]]; [left; exact H|discriminate].
Qed.

(** C9, as amended.  [notify] never raises.  It returns [False] exactly
    when the toast backend is missing or the type is cooling down and the
    call is not forced; otherwise it hands the delivery to the background
    thread, records the time for the type and returns [True].  A delivery
    that fails in the thread is caught and logged only: the returned
    boolean and the recorded time are the same as for a delivery that
    succeeds. *)
Theorem notify_reports_dispatch (self : Notifier.Notifier) (now : Z)
    (ty : string) (force : bool) (toast : result unit) :
  ∃ o, Notifier.notify self now ty force toast = Ok o
    ∧ (Notifier.returned o = false ↔
         Notifier.toaster self = false
         ∨ (force = false
            ∧ ∃ last, Notifier.last_notification self !! ty = Some last
                      ∧ now - last < Notifier.cooldown self))
    ∧ Notifier.dispatched o = Notifier.returned o
    ∧ (Notifier.returned o = true →
         Notifier.last_notification (Notifier.self' o)
           = <[ty := now]> (Notifier.last_notification self)
         ∧ Notifier.log o = [match toast with Ok _ => Notifier.LogInfo
                                            | Raise _ => Notifier.LogError end])
    ∧ (Notifier.returned o = false → Notifier.self' o = self)
    ∧ (∀ toast', ∃ o', Notifier.notify self now ty force toast' = Ok o'
                       ∧ Notifier.returned o' = Notifier.returned o
                       ∧ Notifier.self' o' = Notifier.self' o).
Proof.
  pose proof (blocked_iff self now ty force) as B.
  eexists. split; [apply notify_eq|].
  destruct (negb (Notifier.toaster self) || _) eqn:E; simpl.
  - split_and!; try reflexivity; try discriminate.
    + split; [intros _; apply B; reflexivity|reflexivity].
    + intros toast'. eexists. split; [apply notify_eq|]. rewrite E. split; reflexivity.
  - split_and!; try reflexivity; try discriminate.
    + split; [discriminate|]. intros H. apply B in H. discriminate.
    + intros _. split; reflexivity.
    + intros toast'. eexists. split; [apply notify_eq|]. rewrite E. split; reflexivity.
Qed.

Lemma notify_reports_dispatch_witness :
  ∃ o, Notifier.notify (Notifier.init true 15) 0 "usage_warning" false
                       (Raise RuntimeError) = Ok o
       ∧ Notifier.last_notification (Notifier.self' o)
         = <["usage_warning" := 0]> ∅
       ∧ Notifier.log o = [Notifier.LogError].
Proof.
  destruct (notify_reports_dispatch (Notifier.init true 15) 0 "usage_warning"
              false (Raise RuntimeError))
    as (o & Ho & _ & _ & Hsent & _).
  exists o. split; [exact Ho|].
  apply Hsent. vm_compute in Ho. injection Ho as <-. reflexivity.
Defined.

(** C9, as stated, fails: with the backend present and no cooldown running,
    a delivery that raises in the thread is logged as an error while
    [notify] has returned [True]. *)
Lemma failed_delivery_returns_true :
  ∃ o, Notifier.notify (Notifier.init true 15) 0 "usage_warning" false
                       (Raise RuntimeError) = Ok o
       ∧ Notifier.send (Raise RuntimeError) = Ok Notifier.LogError
       ∧ Notifier.log o = [Notifier.LogError]
       ∧ Notifier.returned o = true
       ∧ Notifier.returned o ≠ false.
Proof.
  eexists. split; [vm_compute; reflexivity|]. simpl.
  repeat split; discriminate.
Qed.

(** ** Alert state machine *)

Lemma Qle_bool_false (a b : Q) : Qle_bool a b = false ↔ (b < a)%Q.
Proof.
  split.
  - intros H. apply Qnot_le_lt. rewrite <- Qle_bool_iff. congruence.
  - intros H. destruct (Qle_bool a b) eqn:E; [|reflexivity].
    apply Qle_bool_iff in E. exfalso. exact (Qlt_not_le _ _ H E).
Qed.

Ltac q_contra :=
  match goal with
  | H1 : (?a < ?b)%Q, H2 : (?b <= ?a)%Q |- _ =>
      exfalso; exact (Qlt_not_le _ _ H1 H2)
  end.

(** The outcome of one evaluation, by the three branches of
    [_check_and_notify]. *)
Lemma evaluate_eq (self : TrayApp.TrayApp) (stats : UsageStats) (now : Z)
    (toast : result unit) :
  ∃ r, TrayApp.evaluate self stats now toast = Ok r
    ∧ TrayApp.emitted r =
        (if Qle_bool 95 (percentage stats)
         then if TrayApp._last_warning_level self <? 2
              then Some TrayApp.Critical else None
         else if Qle_bool (Config.warning_threshold (TrayApp.config self))
                          (percentage stats)
         then if TrayApp._last_warning_level self <? 1
              then Some TrayApp.Warning else None
         else None)
    ∧ TrayApp._last_warning_level r.1 =
        (if Qle_bool 95 (percentage stats)
         then if TrayApp._last_warning_level self <? 2
              then 2 else TrayApp._last_warning_level self
         else if Qle_bool (Config.warning_threshold (TrayApp.config self))
                          (percentage stats)
         then if TrayApp._last_warning_level self <? 1
              then 1 else TrayApp._last_warning_level self
         else if 0 <? TrayApp._last_warning_level self
              then 0 else TrayApp._last_warning_level self)
    ∧ TrayApp.config r.1 = TrayApp.config self.
Proof.
  unfold TrayApp.evaluate, TrayApp._check_and_notify. simpl.
  destruct (Qle_bool 95 (percentage stats)).
  - destruct (TrayApp._last_warning_level self <? 2).
    + unfold Notifier.notify_critical. rewrite notify_eq. simpl.
      eexists. split; [reflexivity|]. repeat split.
    + eexists. split; [reflexivity|]. repeat split.
  - destruct (Qle_bool _ (percentage stats)).
    + destruct (TrayApp._last_warning_level self <? 1).
      * unfold Notifier.notify_warning. rewrite notify_eq. simpl.
        eexists. split; [reflexivity|]. repeat split.
      * eexists. split; [reflexivity|]. repeat split.
    + destruct (0 <? TrayApp._last_warning_level self);
        (eexists; split; [reflexivity|]; repeat split).
Qed.

(** C2.  An evaluation emits a Critical alert if and only if the
    percentage is at least 95 and the level is below Critical, a Warning
    alert if and only if the percentage is at least the warning threshold,
    below 95, and the level is below Warning, and nothing otherwise; an
    emitted alert raises the level to its own, so that it is not repeated
    while the level is kept.  For the percentages 80, 92, 93, 96, 94 with
    threshold 90 the alerts are a Warning at index 1 and a Critical at
    index 3, nothing at indices 0, 2 and 4. *)
Theorem alerts_on_upward_crossing :
  (∀ self stats now toast,
     ∃ r, TrayApp.evaluate self stats now toast = Ok r
       ∧ (TrayApp.emitted r = Some TrayApp.Critical ↔
            (95 <= percentage stats)%Q ∧ TrayApp._last_warning_level self < 2)
       ∧ (TrayApp.emitted r = Some TrayApp.Warning ↔
            (Config.warning_threshold (TrayApp.config self) <= percentage stats)%Q
            ∧ (percentage stats < 95)%Q
            ∧ TrayApp._last_warning_level self < 1)
       ∧ (TrayApp.emitted r = None ∨ TrayApp.emitted r = Some TrayApp.Warning
          ∨ TrayApp.emitted r = Some TrayApp.Critical)
       ∧ (TrayApp.emitted r = Some TrayApp.Critical → TrayApp._last_warning_level r.1 = 2)
       ∧ (TrayApp.emitted r = Some TrayApp.Warning → TrayApp._last_warning_level r.1 = 1))
  ∧ (∀ home toast_available t0 t1 t2 t3 t4,
       ∃ app,
         TrayApp.run (TrayApp.init (Config.default_config home) toast_available)
           [(TrayApp.snapshot 80, t0); (TrayApp.snapshot 92, t1);
            (TrayApp.snapshot 93, t2); (TrayApp.snapshot 96, t3);
            (TrayApp.snapshot 94, t4)]
         = Ok (app, [None; Some (TrayApp.Warning, toast_available); None;
                     Some (TrayApp.Critical, toast_available); None])).
Proof.
  split.
  - intros self stats now toast.
    destruct (evaluate_eq self stats now toast) as (r & Hr & He & Hl & _).
    exists r. split; [exact Hr|]. rewrite He, Hl. clear He Hl Hr.
    destruct (Qle_bool 95 (percentage stats)) eqn:E95;
      [apply Qle_bool_iff in E95|apply Qle_bool_false in E95];
      [|destruct (Qle_bool _ (percentage stats)) eqn:Ew;
        [apply Qle_bool_iff in Ew|apply Qle_bool_false in Ew]];
      repeat match goal with
             | |- context [?a <? ?b] => destruct (Z.ltb_spec a b)
             end;
      split_and!; try split; intros; destruct_and?;
        try discriminate; try lia; try q_contra; auto.
  - intros home toast_available t0 t1 t2 t3 t4.
    destruct toast_available; eexists; vm_compute; reflexivity.
Qed.

Lemma alerts_on_upward_crossing_witness :
  ∃ r, TrayApp.evaluate (TrayApp.init (Config.default_config "/home/u") true)
         (TrayApp.snapshot 96) 0 (Ok tt) = Ok r
       ∧ TrayApp._last_warning_level r.1 = 2.
Proof.
  destruct (proj1 alerts_on_upward_crossing
              (TrayApp.init (Config.default_config "/home/u") true)
              (TrayApp.snapshot 96) 0 (Ok tt))
    as (r & Hr & Hc & _ & _ & Hl & _).
  exists r. split; [exact Hr|]. apply Hl, Hc. split; [discriminate|reflexivity].
Defined.

Lemma notify_returns self now ty force toast :
  ∃ o, Notifier.notify self now ty force toast = Ok o.
Proof. eexists. apply notify_eq. Qed.

(** The two transitions used below, with the notifier made explicit. *)
Lemma evaluate_warning (self : TrayApp.TrayApp) (stats : UsageStats) (now : Z)
    (toast : result unit) :
  TrayApp._last_warning_level self < 1 →
  (Config.warning_threshold (TrayApp.config self) <= percentage stats)%Q →
  (percentage stats < 95)%Q →
  ∃ o, Notifier.notify_warning (TrayApp.notifier self) now toast = Ok o
     ∧ TrayApp.evaluate self stats now toast
       = Ok (TrayApp.mkApp (TrayApp.config self) (Notifier.self' o) (Some stats) 1,
             Some (TrayApp.Warning, o)).
Proof.
  intros Hl Hw Hc. unfold TrayApp.evaluate, TrayApp._check_and_notify. simpl.
  apply Qle_bool_false in Hc. apply Qle_bool_iff in Hw. apply Z.ltb_lt in Hl.
  rewrite Hc, Hw, Hl.
  destruct (notify_returns (TrayApp.notifier self) now "usage_warning" false toast)
    as (o & Ho).
  exists o. unfold Notifier.notify_warning. rewrite Ho. split; reflexivity.
Qed.

Lemma evaluate_normal (self : TrayApp.TrayApp) (stats : UsageStats) (now : Z)
    (toast : result unit) :
  0 < TrayApp._last_warning_level self →
  (percentage stats < Config.warning_threshold (TrayApp.config self))%Q →
  (percentage stats < 95)%Q →
  TrayApp.evaluate self stats now toast
  = Ok (TrayApp.mkApp (TrayApp.config self)
          (Notifier.reset_cooldown (TrayApp.notifier self) None) (Some stats) 0,
        None).
Proof.
  intros Hl Hw Hc. unfold TrayApp.evaluate, TrayApp._check_and_notify. simpl.
  apply Qle_bool_false in Hc. apply Qle_bool_false in Hw. apply Z.ltb_lt in Hl.
  rewrite Hc, Hw, Hl. reflexivity.
Qed.

Lemma notify_fresh (self : Notifier.Notifier) (now : Z) (ty : string)
    (toast : result unit) :
  Notifier.toaster self = true →
  Notifier.last_notification self !! ty = None →
  ∃ o, Notifier.notify self now ty false toast = Ok o
     ∧ Notifier.returned o = true
     ∧ Notifier.self' o
       = Notifier.mkNotifier true (Notifier.cooldown self)
           (<[ty := now]> (Notifier.last_notification self)).
Proof.
  intros Ht Hl. eexists. split; [apply notify_eq|].
  rewrite Ht, Hl. simpl. split; reflexivity.
Qed.

Lemma evaluate_sustained (self : TrayApp.TrayApp) (stats : UsageStats) (now : Z)
    (toast : result unit) :
  1 ≤ TrayApp._last_warning_level self →
  (Config.warning_threshold (TrayApp.config self) <= percentage stats)%Q →
  (percentage stats < 95)%Q →
  TrayApp.evaluate self stats now toast
  = Ok (TrayApp.mkApp (TrayApp.config self) (TrayApp.notifier self) (Some stats)
          (TrayApp._last_warning_level self),
        None).
Proof.
  intros Hl Hw Hc. unfold TrayApp.evaluate, TrayApp._check_and_notify. simpl.
  apply Qle_bool_false in Hc. apply Qle_bool_iff in Hw.
  assert (Hl' : (TrayApp._last_warning_level self <? 1) = false)
    by (apply Z.ltb_ge; lia).
  rewrite Hc, Hw, Hl'. reflexivity.
Qed.

Lemma run_sustained (passes : list (UsageStats * Z)) :
  ∀ self,
  1 ≤ TrayApp._last_warning_level self →
  Forall (fun pass : UsageStats * Z =>
            (Config.warning_threshold (TrayApp.config self) <= percentage pass.1)%Q
            ∧ (percentage pass.1 < 95)%Q) passes →
  ∃ app, TrayApp.run self passes = Ok (app, (fun _ => None) <$> passes)
       ∧ TrayApp._last_warning_level app = TrayApp._last_warning_level self
       ∧ TrayApp.notifier app = TrayApp.notifier self
       ∧ TrayApp.config app = TrayApp.config self.
Proof.
  induction passes as [|[stats now] rest IH]; intros self Hl Hall.
  - exists self. split_and!; reflexivity.
  - inversion Hall as [|? ? [Hw Hc] Hrest]; subst. simpl in Hw, Hc.
    destruct (IH (TrayApp.mkApp (TrayApp.config self) (TrayApp.notifier self)
                    (Some stats) (TrayApp._last_warning_level self)) Hl Hrest)
      as (app & Hrun & Hlev & Hnot & Hcfg).
    exists app. simpl.
    rewrite (evaluate_sustained self stats now (Ok tt) Hl Hw Hc). simpl.
    rewrite Hrun. split_and!; [reflexivity|exact Hlev|exact Hnot|exact Hcfg].
Qed.

(** C3.  An evaluation that finds the percentage below both thresholds
    while the level is not Normal sets the level to Normal and clears the
    cooldown time of every alert type.  Hence, with a working backend, a
    Warning crossing, a drop to Normal and a second Warning crossing deliver
    two Warning alerts whatever the times of the three evaluations, in
    particular when the second crossing is less than the cooldown after the
    first.  Without a drop to Normal in between, a further evaluation in
    the Warning band makes no notifier call and leaves the level and the
    notifier as they were, whatever its time: after a Warning alert, a run
    of evaluations in the Warning band emits nothing, before the cooldown
    has elapsed and after.  At the notifier, without a reset in between, a
    second Warning notification is suppressed, leaving the notifier as it
    was, as long as less than the cooldown has passed since the delivery,
    and is delivered afterwards.  The cooldown of the application's
    notifier is the configured number of minutes. *)
Theorem normal_clears_cooldown :
  (∀ self stats now toast,
     0 < TrayApp._last_warning_level self →
     (percentage stats < Config.warning_threshold (TrayApp.config self))%Q →
     (percentage stats < 95)%Q →
     ∃ r, TrayApp.evaluate self stats now toast = Ok r
        ∧ TrayApp.emitted r = None
        ∧ TrayApp._last_warning_level r.1 = 0
        ∧ Notifier.last_notification (TrayApp.notifier r.1) = ∅)
  ∧ (∀ config p0 p1 p2 t0 t1 t2,
       (Config.warning_threshold config <= p0)%Q → (p0 < 95)%Q →
       (p1 < Config.warning_threshold config)%Q → (p1 < 95)%Q →
       (Config.warning_threshold config <= p2)%Q → (p2 < 95)%Q →
       ∃ app,
         TrayApp.run (TrayApp.init config true)
           [(TrayApp.snapshot p0, t0); (TrayApp.snapshot p1, t1);
            (TrayApp.snapshot p2, t2)]
         = Ok (app, [Some (TrayApp.Warning, true); None;
                     Some (TrayApp.Warning, true)]))
  ∧ (∀ self stats now toast,
       1 ≤ TrayApp._last_warning_level self →
       (Config.warning_threshold (TrayApp.config self) <= percentage stats)%Q →
       (percentage stats < 95)%Q →
       TrayApp.evaluate self stats now toast
       = Ok (TrayApp.mkApp (TrayApp.config self) (TrayApp.notifier self)
               (Some stats) (TrayApp._last_warning_level self),
             None))
  ∧ (∀ config p0 t0 passes,
       (Config.warning_threshold config <= p0)%Q → (p0 < 95)%Q →
       Forall (fun pass : UsageStats * Z =>
                 (Config.warning_threshold config <= percentage pass.1)%Q
                 ∧ (percentage pass.1 < 95)%Q) passes →
       ∃ app,
         TrayApp.run (TrayApp.init config true) ((TrayApp.snapshot p0, t0) :: passes)
         = Ok (app, Some (TrayApp.Warning, true) :: ((fun _ => None) <$> passes))
         ∧ TrayApp._last_warning_level app = 1)
  ∧ (∀ self t0 t1 toast toast' o,
       Notifier.notify_warning self t0 toast = Ok o →
       Notifier.returned o = true →
       (t1 - t0 < Notifier.cooldown self →
          Notifier.notify_warning (Notifier.self' o) t1 toast'
          = Ok (Notifier.mkOutcome (Notifier.self' o) false false [Notifier.LogDebug]))
       ∧ (Notifier.cooldown self ≤ t1 - t0 →
          ∃ o', Notifier.notify_warning (Notifier.self' o) t1 toast' = Ok o'
                ∧ Notifier.returned o' = true
                ∧ Notifier.dispatched o' = true))
  ∧ (∀ config toast_available,
       Notifier.cooldown (TrayApp.notifier (TrayApp.init config toast_available))
       = minutes (Config.notification_cooldown config)).
Proof.
  split_and!; [| | | | |reflexivity].
  - intros self stats now toast Hl Hw Hc.
    eexists. split; [apply evaluate_normal; assumption|].
    split_and!; reflexivity.
  - intros config p0 p1 p2 t0 t1 t2 H0 H0' H1 H1' H2 H2'.
    unfold TrayApp.run.
    destruct (evaluate_warning (TrayApp.init config true) (TrayApp.snapshot p0) t0 (Ok tt))
      as (o0 & Ho0 & E0); [simpl; lia|exact H0|exact H0'|].
    rewrite E0. simpl.
    destruct (notify_fresh (Notifier.init true (Config.notification_cooldown config))
                t0 "usage_warning" (Ok tt) eq_refl (lookup_empty _))
      as (o0' & Ho0' & Hret0 & Hself0).
    unfold Notifier.notify_warning in Ho0. simpl in Ho0.
    rewrite Ho0' in Ho0. injection Ho0 as <-.
    rewrite Hself0. simpl.
    rewrite evaluate_normal by (simpl; first [lia|assumption]). simpl.
    match goal with
    | |- context [TrayApp.evaluate ?a ?s ?t ?x] =>
        destruct (evaluate_warning a s t x) as (o2 & Ho2 & E2);
          [simpl; lia|exact H2|exact H2'|]; rewrite E2; simpl in Ho2
    end.
    match type of Ho2 with
    | Notifier.notify_warning ?n _ _ = _ =>
        destruct (notify_fresh n t2 "usage_warning" (Ok tt) eq_refl (lookup_empty _))
          as (o2' & Ho2' & Hret2 & _)
    end.
    unfold Notifier.notify_warning in Ho2. rewrite Ho2' in Ho2. injection Ho2 as <-.
    simpl. rewrite Hret0, Hret2. eexists. reflexivity.
  - apply evaluate_sustained.
  - intros config p0 t0 passes H0 H0' Hall.
    destruct (evaluate_warning (TrayApp.init config true) (TrayApp.snapshot p0) t0 (Ok tt))
      as (o0 & Ho0 & E0); [simpl; lia|exact H0|exact H0'|].
    destruct (notify_fresh (Notifier.init true (Config.notification_cooldown config))
                t0 "usage_warning" (Ok tt) eq_refl (lookup_empty _))
      as (o0' & Ho0' & Hret0 & _).
    unfold Notifier.notify_warning in Ho0. simpl in Ho0.
    rewrite Ho0' in Ho0. injection Ho0 as <-.
    destruct (run_sustained passes
                (TrayApp.mkApp config (Notifier.self' o0')
                   (Some (TrayApp.snapshot p0)) 1))
      as (app & Hrun & Hlev & _ & _); [simpl; lia|exact Hall|].
    exists app. split; [|exact Hlev].
    change (TrayApp.run (TrayApp.init config true)
              ((TrayApp.snapshot p0, t0) :: passes))
      with (r ← TrayApp.evaluate (TrayApp.init config true) (TrayApp.snapshot p0)
                  t0 (Ok tt);
            r' ← TrayApp.run r.1 passes;
            mret (r'.1, (match r.2 with
                         | Some (a, o) => Some (a, Notifier.returned o)
                         | None => None
                         end) :: r'.2)).
    rewrite E0. simpl. simpl in Hrun. rewrite Hrun. simpl. rewrite Hret0.
    reflexivity.
  - intros self t0 t1 toast toast' o Ho Hret.
    unfold Notifier.notify_warning in *. rewrite notify_eq in Ho.
    injection Ho as <-.
    destruct (negb (Notifier.toaster self) || _) eqn:E; [discriminate|].
    apply orb_false_iff in E as [Et _]. apply negb_false_iff in Et.
    simpl. split; intros Hc; rewrite notify_eq; simpl; rewrite Et, lookup_insert_eq; simpl.
    + apply Z.ltb_lt in Hc. rewrite Hc. reflexivity.
    + apply Z.ltb_ge in Hc. rewrite Hc. eexists. split_and!; reflexivity.
Qed.

Lemma normal_clears_cooldown_witness :
  (∃ app,
     TrayApp.run (TrayApp.init (Config.default_config "/home/u") true)
       [(TrayApp.snapshot 92, 0); (TrayApp.snapshot 80, minutes 2);
        (TrayApp.snapshot 91, minutes 5)]
     = Ok (app, [Some (TrayApp.Warning, true); None; Some (TrayApp.Warning, true)]))
  ∧ (∃ app,
       TrayApp.run (TrayApp.init (Config.default_config "/home/u") true)
         [(TrayApp.snapshot 92, 0); (TrayApp.snapshot 93, minutes 5);
          (TrayApp.snapshot 93, minutes 15); (TrayApp.snapshot 93, minutes 600)]
       = Ok (app, [Some (TrayApp.Warning, true); None; None; None]))
  ∧ (∃ o,
       Notifier.notify_warning (Notifier.init true 15) 0 (Ok tt) = Ok o
       ∧ Notifier.notify_warning (Notifier.self' o) (minutes 5) (Ok tt)
         = Ok (Notifier.mkOutcome (Notifier.self' o) false false [Notifier.LogDebug])
       ∧ ∃ o', Notifier.notify_warning (Notifier.self' o) (minutes 15) (Ok tt) = Ok o'
               ∧ Notifier.returned o' = true)
  ∧ (∃ r, TrayApp.evaluate
            (TrayApp.mkApp (Config.default_config "/home/u")
               (Notifier.mkNotifier true (minutes 15) (<["usage_warning" := 0]> ∅))
               None 1)
            (TrayApp.snapshot 80) (minutes 2) (Ok tt) = Ok r
          ∧ Notifier.last_notification (TrayApp.notifier r.1) = ∅).
Proof.
  destruct normal_clears_cooldown as (Hdrop & Hrun & _ & Hkeep & Hcool & _).
  split_and!.
  - apply (Hrun (Config.default_config "/home/u") 92%Q 80%Q 91%Q 0 (minutes 2) (minutes 5));
      vm_compute; congruence.
  - destruct (Hkeep (Config.default_config "/home/u") 92%Q 0
                [(TrayApp.snapshot 93, minutes 5); (TrayApp.snapshot 93, minutes 15);
                 (TrayApp.snapshot 93, minutes 600)])
      as (app & Happ & _).
    + vm_compute. congruence.
    + vm_compute. congruence.
    + repeat constructor; vm_compute; congruence.
    + exists app. exact Happ.
  - destruct (Hcool (Notifier.init true 15) 0 (minutes 5) (Ok tt) (Ok tt) _ eq_refl eq_refl)
      as [Hin _].
    destruct (Hcool (Notifier.init true 15) 0 (minutes 15) (Ok tt) (Ok tt) _ eq_refl eq_refl)
      as [_ Hout].
    eexists. split; [reflexivity|]. split.
    + apply Hin. vm_compute. reflexivity.
    + destruct Hout as (o' & Ho' & Hr' & _); [vm_compute; discriminate|].
      exists o'. split; assumption.
  - destruct (Hdrop
        (TrayApp.mkApp (Config.default_config "/home/u")
           (Notifier.mkNotifier true (minutes 15) (<["usage_warning" := 0]> ∅))
           None 1)
        (TrayApp.snapshot 80) (minutes 2) (Ok tt))
      as (r & Hr & _ & _ & Hclear); [simpl; lia|reflexivity|reflexivity|].
    exists r. split; assumption.
Defined.

(** ** Debounce *)

Lemma filter_none {A : Type} (P : A → Prop) `{∀ x, Decision (P x)} (l : list A) :
  (∀ x, x ∈ l → ¬ P x) → filter P l = [].
Proof.
  induction l as [|a l IH]; intros Hn; [reflexivity|].
  rewrite filter_cons_False by (apply Hn; left).
  apply IH. intros x Hx. apply Hn. right. exact Hx.
Qed.

Lemma filter_one_index {A : Type} (P : A → Prop) `{∀ x, Decision (P x)}
    (l : list A) :
  (∀ i j x y, l !! i = Some x → l !! j = Some y → P x → P y → i = j) →
  (length (filter P l) ≤ 1)%nat.
Proof.
  induction l as [|a l IH]; intros Huniq; [simpl; lia|].
  destruct (decide (P a)) as [Pa|nPa].
  - rewrite filter_cons_True by exact Pa.
    rewrite filter_none; [simpl; lia|].
    intros x Hx Px. apply list_elem_of_lookup in Hx as [j Hj].
    specialize (Huniq 0%nat (S j) a x eq_refl Hj Pa Px). lia.
  - rewrite filter_cons_False by exact nPa. apply IH.
    intros i j x y Hi Hj Px Py.
    specialize (Huniq (S i) (S j) x y Hi Hj Px Py). lia.
Qed.

Section Debounce.
Import FileWatcher.

Lemma cancel_not_pending t : ¬ is_pending (cancel t).
Proof. unfold is_pending, cancel. destruct (status t) eqn:E; simpl; congruence. Qed.

Lemma qualifying_dispatch self now ev :
  qualifying ev = true → dispatch self now ev = _schedule_callback self now.
Proof.
  unfold qualifying, dispatch, on_modified, on_created.
  destruct (kind ev); try discriminate; intros ->; reflexivity.
Qed.

Lemma other_dispatch self now ev :
  qualifying ev = false → dispatch self now ev = self.
Proof.
  unfold qualifying, dispatch, on_modified, on_created.
  destruct (kind ev); try reflexivity; intros ->; reflexivity.
Qed.

(** The timers that [_schedule_callback] leaves behind the new one. *)
Lemma schedule_cancels self :
  single_slot self →
  ∀ t, t ∈ match _timer self with
           | Some i => alter cancel i (timers self)
           | None => timers self
           end → ¬ is_pending t.
Proof.
  intros Hs t Ht Hp. apply list_elem_of_lookup in Ht as [j Hj].
  destruct (_timer self) as [i|] eqn:Et.
  - destruct (decide (i = j)) as [->|Hne].
    + rewrite list_lookup_alter_eq in Hj.
      destruct (timers self !! j) as [t0|]; simplify_eq/=.
      exact (cancel_not_pending _ Hp).
    + rewrite list_lookup_alter_ne in Hj by exact Hne.
      specialize (Hs j t Hj Hp). congruence.
  - specialize (Hs j t Hj Hp). congruence.
Qed.

Lemma schedule_pending self now :
  single_slot self →
  pending (_schedule_callback self now)
  = [mkTimer (now + debounce_seconds self) Pending].
Proof.
  intros Hs. unfold pending, _schedule_callback. simpl.
  rewrite filter_app, (filter_none _ _ (schedule_cancels self Hs)).
  reflexivity.
Qed.

Lemma schedule_single_slot self now :
  single_slot self → single_slot (_schedule_callback self now).
Proof.
  intros Hs i t Hi Hp. unfold _schedule_callback in *. simpl in *.
  f_equal.
  set (old := match _timer self with
              | Some i => alter cancel i (timers self)
              | None => timers self
              end) in *.
  destruct (Nat.lt_ge_cases i (length old)) as [Hlt|Hge].
  - rewrite lookup_app_l in Hi by exact Hlt.
    exfalso. apply (schedule_cancels self Hs t); [|exact Hp].
    apply (list_elem_of_lookup_2 _ i). exact Hi.
  - rewrite lookup_app_r in Hi by exact Hge.
    apply lookup_lt_Some in Hi as Hlen. simpl in Hlen. lia.
Qed.

Lemma elapse_single_slot self now :
  single_slot self → single_slot (elapse self now).
Proof.
  intros Hs i t Hi Hp. unfold elapse in *. simpl in *.
  rewrite list_lookup_fmap in Hi.
  destruct (timers self !! i) as [t0|] eqn:E; simpl in Hi; [|discriminate].
  injection Hi as <-. apply (Hs i t0 E).
  destruct (decide (is_due now t0)) as [[Hd _]|_]; [exact Hd|exact Hp].
Qed.

Lemma dispatch_single_slot self now ev :
  single_slot self → single_slot (dispatch self now ev).
Proof.
  intros Hs. destruct (qualifying ev) eqn:Q.
  - rewrite qualifying_dispatch by exact Q. apply schedule_single_slot, Hs.
  - rewrite other_dispatch by exact Q. exact Hs.
Qed.

Lemma observe_single_slot trace : ∀ self,
  single_slot self → single_slot (observe self trace).
Proof.
  induction trace as [|e trace IH]; intros self Hs; [exact Hs|].
  simpl. apply IH. unfold observe1.
  apply dispatch_single_slot, elapse_single_slot, Hs.
Qed.

Lemma dispatch_debounce self now ev :
  debounce_seconds (dispatch self now ev) = debounce_seconds self.
Proof.
  destruct (qualifying ev) eqn:Q.
  - rewrite qualifying_dispatch by exact Q. reflexivity.
  - rewrite other_dispatch by exact Q. reflexivity.
Qed.

Lemma observe_debounce trace : ∀ self,
  debounce_seconds (observe self trace) = debounce_seconds self.
Proof.
  induction trace as [|e trace IH]; intros self; [reflexivity|].
  simpl. rewrite IH. unfold observe1. rewrite dispatch_debounce. reflexivity.
Qed.

Lemma init_single_slot delay : single_slot (init delay).
Proof. intros i t Hi. simpl in Hi. discriminate. Qed.

Lemma single_slot_pending self :
  single_slot self → (length (pending self) ≤ 1)%nat.
Proof.
  intros Hs. apply filter_one_index.
  intros i j x y Hi Hj Px Py.
  pose proof (Hs i x Hi Px). pose proof (Hs j y Hj Py). congruence.
Qed.

Lemma due_pending self now :
  filter (is_due now) (timers self)
  = filter (fun t => deadline t ≤ now) (pending self).
Proof.
  unfold pending. rewrite list_filter_filter.
  apply list_filter_iff. intros t. unfold is_due, is_pending. tauto.
Qed.

Lemma elapse_early self now d :
  pending self = [mkTimer d Pending] → now < d → elapse self now = self.
Proof.
  intros Hp Hlt. unfold elapse.
  assert (Hn : ∀ t, t ∈ timers self → ¬ is_due now t).
  { intros t Ht [Hs Hd].
    assert (Hin : t ∈ pending self)
      by (unfold pending; apply list_elem_of_filter; split; assumption).
    rewrite Hp in Hin. apply list_elem_of_singleton in Hin. subst t.
    simpl in Hd. lia. }
  rewrite (filter_none _ _ Hn), app_nil_r.
  replace (_ <$> timers self) with (timers self).
  - destruct self; reflexivity.
  - clear Hp. induction (timers self) as [|t l IH]; [reflexivity|].
    simpl. rewrite decide_False by (apply Hn; left).
    f_equal. apply IH. intros x Hx. apply Hn. right. exact Hx.
Qed.

Lemma elapse_calls_pending self now :
  calls (elapse self now)
  = calls self ++ (deadline <$> filter (fun t => deadline t ≤ now) (pending self)).
Proof. unfold elapse. simpl. rewrite due_pending. reflexivity. Qed.

Lemma elapse_calls self now d :
  pending self = [mkTimer d Pending] →
  calls (elapse self now) = calls self ++ (if decide (d ≤ now) then [d] else []).
Proof.
  intros Hp. unfold elapse. simpl. rewrite due_pending, Hp.
  destruct (decide (d ≤ now)) as [Hd|Hd].
  - rewrite filter_cons_True by exact Hd. reflexivity.
  - rewrite filter_cons_False by exact Hd. reflexivity.
Qed.

Lemma elapse_pending self now :
  pending (elapse self now) = filter (fun t => now < deadline t) (pending self).
Proof.
  unfold pending, elapse. simpl.
  induction (timers self) as [|t l IH]; [reflexivity|].
  rewrite fmap_cons.
  destruct (decide (is_due now t)) as [[Hp Hd]|Hnd].
  - rewrite filter_cons_False by (unfold is_pending; simpl; congruence).
    rewrite (filter_cons_True is_pending) by exact Hp.
    rewrite filter_cons_False by lia. exact IH.
  - destruct (decide (is_pending t)) as [Hp|Hnp].
    + rewrite !(filter_cons_True is_pending) by exact Hp.
      rewrite filter_cons_True
        by (destruct (Z.lt_ge_cases now (deadline t)); [assumption|];
            exfalso; apply Hnd; split; [exact Hp|lia]).
      f_equal. exact IH.
    + rewrite !(filter_cons_False is_pending) by exact Hnp. exact IH.
Qed.

(** The state in the middle of a burst whose latest event came at [last]. *)
Lemma burst_after_armed delay trace : ∀ self last,
  single_slot self → debounce_seconds self = delay → calls self = [] →
  pending self = [mkTimer (last + delay) Pending] →
  burst_after delay last trace →
  let self' := observe self trace in
  single_slot self' ∧ debounce_seconds self' = delay ∧ calls self' = []
  ∧ pending self'
    = [mkTimer (last_instant ((last, mkEvent Created false EmptyString) :: trace) 0 + delay)
               Pending].
Proof.
  induction trace as [|[t ev] trace IH]; intros self last Hs Hd Hc Hp Hb.
  - simpl. auto.
  - simpl in Hb. destruct Hb as (Hle & Hgap & Hq & Hb).
    assert (E : observe1 self (t, ev) = _schedule_callback self t).
    { unfold observe1. simpl.
      rewrite (elapse_early self t (last + delay)) by (assumption || lia).
      apply qualifying_dispatch, Hq. }
    simpl observe. rewrite E.
    specialize (IH (_schedule_callback self t) t
                  (schedule_single_slot self t Hs)).
    rewrite schedule_pending in IH by exact Hs. rewrite Hd in IH.
    specialize (IH Hd Hc eq_refl Hb).
    destruct trace as [|e' trace']; exact IH.
Qed.

Lemma burst_armed delay trace :
  burst delay trace →
  let self := observe (init delay) trace in
  single_slot self ∧ calls self = []
  ∧ pending self = [mkTimer (last_instant trace 0 + delay) Pending].
Proof.
  destruct trace as [|[t ev] trace]; [contradiction|].
  intros [Hq Hb].
  assert (E : observe1 (init delay) (t, ev) = _schedule_callback (init delay) t).
  { unfold observe1. apply qualifying_dispatch, Hq. }
  simpl observe. rewrite E.
  destruct (burst_after_armed delay trace (_schedule_callback (init delay) t) t)
    as (H1 & _ & H3 & H4); try reflexivity; try assumption.
  - apply schedule_single_slot, init_single_slot.
  - split; [exact H1|]. split; [exact H3|].
    rewrite H4. destruct trace; reflexivity.
Qed.

(** C8.  In every state that the handler reaches at most one timer is
    pending, and it is the one in [_timer]; a qualifying event (creation or
    modification of a non-directory path ending in [.jsonl]) leaves exactly
    one pending timer, set to the debounce delay after the event, the
    earlier one being cancelled; other events change nothing.  After a
    burst of qualifying events, each less than the delay after the one
    before, the callback has not run before the delay has passed since the
    last event, and once it has passed it has run exactly once, at the last
    event's instant plus the delay. *)
Theorem single_pending_timer :
  (∀ delay trace,
     let self := observe (init delay) trace in
     (length (pending self) ≤ 1)%nat ∧ single_slot self)
  ∧ (∀ delay trace t ev,
       qualifying ev = true →
       pending (observe (init delay) (trace ++ [(t, ev)]))
       = [mkTimer (t + delay) Pending])
  ∧ (∀ self now ev, qualifying ev = false → dispatch self now ev = self)
  ∧ (∀ delay trace now,
       burst delay trace →
       calls (elapse (observe (init delay) trace) now)
       = if decide (last_instant trace 0 + delay ≤ now)
         then [last_instant trace 0 + delay] else [])
  ∧ (∀ delay trace now later,
       burst delay trace → last_instant trace 0 + delay ≤ now →
       calls (elapse (elapse (observe (init delay) trace) now) later)
       = [last_instant trace 0 + delay]).
Proof.
  split_and!.
  - intros delay trace self.
    assert (Hs : single_slot self)
      by apply observe_single_slot, init_single_slot.
    split; [apply single_slot_pending, Hs|exact Hs].
  - intros delay trace t ev Hq.
    unfold observe. rewrite fold_left_app. simpl. unfold observe1 at 1. simpl.
    rewrite qualifying_dispatch by exact Hq.
    rewrite schedule_pending.
    + simpl. fold (observe (init delay) trace). rewrite observe_debounce.
      reflexivity.
    + apply elapse_single_slot, observe_single_slot, init_single_slot.
  - apply other_dispatch.
  - intros delay trace now Hb.
    destruct (burst_armed delay trace Hb) as (_ & Hc & Hp).
    rewrite (elapse_calls _ now _ Hp), Hc. reflexivity.
  - intros delay trace now later Hb Hdue.
    destruct (burst_armed delay trace Hb) as (_ & Hc & Hp).
    rewrite elapse_calls_pending, elapse_pending, Hp.
    rewrite filter_cons_False by (simpl; lia).
    rewrite (elapse_calls _ now _ Hp), Hc, decide_True by exact Hdue.
    reflexivity.
Qed.

End Debounce.

Lemma single_pending_timer_witness :
  FileWatcher.calls (FileWatcher.elapse
           (FileWatcher.observe (FileWatcher.init 500000) Sample.ten_events)
           1400000)
  = [1310000]
  ∧ FileWatcher.calls (FileWatcher.elapse
             (FileWatcher.observe (FileWatcher.init 500000) Sample.ten_events)
             1300000)
    = []
  ∧ FileWatcher.pending
      (FileWatcher.observe (FileWatcher.init 500000)
         (Sample.ten_events ++ [(2000000, Sample.jsonl_event)]))
    = [FileWatcher.mkTimer 2500000 FileWatcher.Pending].
Proof.
  destruct single_pending_timer as (_ & Hrep & _ & Hburst & _).
  assert (Hb : FileWatcher.burst 500000 Sample.ten_events)
    by (simpl; repeat split; lia).
  split_and!.
  - apply (Hburst 500000 Sample.ten_events 1400000 Hb).
  - apply (Hburst 500000 Sample.ten_events 1300000 Hb).
  - apply (Hrep 500000 Sample.ten_events 2000000 Sample.jsonl_event).
    reflexivity.
Defined.

(** * Further properties of the code *)

(** ** The pass over the fragments *)

Lemma sum_tokens_perm rs1 rs2 : rs1 ≡ₚ rs2 → sum_tokens rs1 = sum_tokens rs2.
Proof.
  induction 1 as [|r l l' _ IH|a b l|l1 l2 l3 _ IH1 _ IH2]; simpl;
    [reflexivity|rewrite IH; reflexivity|lia|congruence].
Qed.

Lemma min_time_perm rs1 rs2 : rs1 ≡ₚ rs2 → min_time rs1 = min_time rs2.
Proof.
  induction 1 as [|r l l' _ IH|a b l|l1 l2 l3 _ IH1 _ IH2]; simpl;
    [reflexivity|rewrite IH; reflexivity| |congruence].
  destruct (min_time l); simpl; f_equal; lia.
Qed.

Lemma min_time_bound ws rs o :
  (∀ r, r ∈ rs → ws ≤ r.1) → min_time rs = Some o → ws ≤ o.
Proof.
  revert o. induction rs as [|r rs IH]; intros o Hall; [discriminate|].
  simpl. destruct (min_time rs) as [t|] eqn:E; simpl; intros [= <-].
  - assert (ws ≤ t) by (apply IH; [intros x Hx; apply Hall; right; exact Hx|reflexivity]).
    assert (ws ≤ r.1) by (apply Hall; left). lia.
  - apply Hall. left.
Qed.

Section PassFacts.

Variable json_loads : string -> result json.
Variable fromisoformat : string -> option datetime.

Abbreviation pass_records := (pass_records json_loads fromisoformat).
Abbreviation calculate_with := (calculate_with json_loads fromisoformat).
Abbreviation calculate := (calculate json_loads fromisoformat).
Abbreviation calculate_with_result := (calculate_with_result json_loads fromisoformat).
Abbreviation calculate_result := (calculate_result json_loads fromisoformat).
Abbreviation process_line := (process_line json_loads fromisoformat).
Abbreviation read_record := (read_record json_loads fromisoformat).

Lemma pass_records_app ws files1 files2 :
  pass_records ws (files1 ++ files2)
  = pass_records ws files1 ++ pass_records ws files2.
Proof.
  unfold UsageCalculator.pass_records. rewrite filter_app. apply flat_map_app.
Qed.

Lemma pass_records_perm ws files1 files2 :
  files1 ≡ₚ files2 → pass_records ws files1 ≡ₚ pass_records ws files2.
Proof.
  intros H. unfold UsageCalculator.pass_records.
  apply Permutation_flat_map, filter_Permutation, H.
Qed.


(** X2.  The totals of a pass over two lists of fragments are those of the
    two lists taken apart: the token counts add up and the oldest time is
    the older of the two. *)
Theorem calculate_additive (limit h now : Z) (files1 files2 : list file) :
  let s := calculate_with limit h now (Some (files1 ++ files2)) in
  let s1 := calculate_with limit h now (Some files1) in
  let s2 := calculate_with limit h now (Some files2) in
  total_tokens s = total_tokens s1 + total_tokens s2
  ∧ oldest_message_time s = omin (oldest_message_time s1) (oldest_message_time s2).
Proof.
  simpl. rewrite !fold_scan_count, pass_records_app. unfold count. simpl.
  rewrite in_window_app, sum_tokens_app, min_time_app, !omin_None_r.
  split; [lia|reflexivity].
Qed.

End PassFacts.


(** ** Derived fields of the snapshot *)

Lemma ratio_le (q : Q) (total limit : Z) :
  0 < limit →
  (q <= inject_Z total / inject_Z limit * 100)%Q
  ↔ (q * inject_Z limit <= 100 * inject_Z total)%Q.
Proof.
  intros Hl. destruct limit as [|p|p]; try lia.
  destruct q as [a b]. unfold Qle, Qdiv, Qmult, Qinv, inject_Z. simpl.
  rewrite ?Pos.mul_1_r, ?Z.mul_1_r, ?Pos2Z.inj_mul. split; intros H; nia.
Qed.

Lemma py_min_ge (q p : Q) :
  (q <= 100)%Q → ((q <= py_min p 100)%Q ↔ (q <= p)%Q).
Proof.
  intros Hq. unfold py_min. destruct (Qle_bool p 100) eqn:E; [tauto|].
  apply Qle_bool_false in E. split; intros _; [|exact Hq].
  apply Qlt_le_weak. eapply Qle_lt_trans; eassumption.
Qed.

Section SnapshotFacts.

Variable json_loads : string -> result json.
Variable fromisoformat : string -> option datetime.

Abbreviation pass_records := (pass_records json_loads fromisoformat).
Abbreviation calculate_with := (calculate_with json_loads fromisoformat).

Lemma percentage_ge_iff (limit h now : Z) (files : list file) (q : Q) :
  0 < limit → (q <= 100)%Q →
  let s := calculate_with limit h now (Some files) in
  (q <= percentage s)%Q
  ↔ (q * inject_Z limit <= 100 * inject_Z (total_tokens s))%Q.
Proof.
  intros Hl Hq. simpl. apply Z.ltb_lt in Hl as Hb. rewrite Hb.
  rewrite py_min_ge by exact Hq. apply ratio_le, Hl.
Qed.

(** X4.  [remaining_tokens] is never negative; it is what is left of the
    limit while the total is within it and [0] beyond; with a positive
    limit it is [0] exactly when the percentage is 100. *)
Theorem remaining_tokens_complement (limit h now : Z) (files : list file) :
  let s := calculate_with limit h now (Some files) in
  0 ≤ remaining_tokens s
  ∧ (total_tokens s ≤ limit → total_tokens s + remaining_tokens s = limit)
  ∧ (limit ≤ total_tokens s → remaining_tokens s = 0)
  ∧ (0 < limit → (remaining_tokens s = 0 ↔ (percentage s == 100)%Q)).
Proof.
  intros s. split_and!.
  - simpl. lia.
  - simpl. lia.
  - simpl. lia.
  - intros Hl.
    assert (H100 : (100 <= percentage s)%Q ↔ limit ≤ total_tokens s).
    { unfold s. rewrite percentage_ge_iff by (assumption || apply Qle_refl).
      unfold Qle, Qmult, inject_Z. simpl. lia. }
    assert (Hle : (percentage s <= 100)%Q) by apply py_min_le.
    split.
    + intros H0. apply Qle_antisym; [exact Hle|]. apply H100.
      simpl in H0. simpl. lia.
    + intros E. assert (limit ≤ total_tokens s)
        by (apply H100; rewrite E; apply Qle_refl).
      simpl in *. lia.
Qed.

(** X5.  A pass has a remaining time exactly when it has an oldest record;
    the remaining time then runs to the reset instant, the oldest time plus
    the window, and is not negative, the oldest record being inside the
    window. *)
Theorem remaining_time_to_reset (limit h now : Z) (files : list file) :
  let s := calculate_with limit h now (Some files) in
  remaining_time s = (fun o => o + hours h - now) <$> oldest_message_time s
  ∧ (∀ r, remaining_time s = Some r → 0 ≤ r)
  ∧ (∀ o, oldest_message_time s = Some o → now - hours h ≤ o).
Proof.
  intros s.
  assert (Hb : ∀ o, oldest_message_time s = Some o → now - hours h ≤ o).
  { intros o Ho.
    destruct (calculate_with_count json_loads fromisoformat limit h now files)
      as [_ Hold].
    unfold s in Ho. rewrite Hold in Ho.
    eapply min_time_bound; [|exact Ho].
    intros r Hr. apply in_window_iff in Hr. tauto. }
  assert (E : remaining_time s
              = (fun o => o + hours h - now) <$> oldest_message_time s).
  { unfold s in *. simpl in *.
    remember (fold_left (scan json_loads fromisoformat (now - hours h)) files
                (0, None)) as st eqn:Est.
    clear Est. destruct st as [tot [o|]]; simpl in *; [|reflexivity].
    specialize (Hb o eq_refl).
    destruct (Z.ltb_spec (o + hours h - now) 0); [lia|reflexivity]. }
  split_and!; [exact E| |exact Hb].
  intros r Hr. rewrite E in Hr.
  destruct (oldest_message_time s) as [o|] eqn:Eo; simpl in Hr; [|discriminate].
  injection Hr as <-. specialize (Hb o eq_refl). lia.
Qed.

End SnapshotFacts.

Lemma remaining_tokens_complement_witness :
  let s := Sample.calculate_with 1000000 5 Sample.ten
             (Some [Line Sample.line_050001 Eof]) in
  total_tokens s + remaining_tokens s = 1000000.
Proof.
  apply (remaining_tokens_complement Sample.json_loads Sample.fromisoformat
           1000000 5 Sample.ten [Line Sample.line_050001 Eof]).
  vm_compute. discriminate.
Defined.

Lemma remaining_time_to_reset_witness :
  let s := Sample.calculate_with 1000000 5 Sample.ten
             (Some [Line Sample.line_050001 Eof]) in
  remaining_time s = Some 1000000 ∧ 0 ≤ 1000000.
Proof.
  split; [vm_compute; reflexivity|].
  apply (proj1 (proj2 (remaining_time_to_reset Sample.json_loads Sample.fromisoformat
           1000000 5 Sample.ten [Line Sample.line_050001 Eof]))).
  vm_compute. reflexivity.
Defined.

(** ** Counters are read only inside the window *)

Section LazyCounters.

Variable json_loads : string -> result json.
Variable fromisoformat : string -> option datetime.

Abbreviation read_record := (read_record json_loads fromisoformat).
Abbreviation process_line := (process_line json_loads fromisoformat).
Abbreviation _parse_jsonl_file := (_parse_jsonl_file json_loads fromisoformat).

(** X6.  The window test comes before the counters are read: a record
    whose counters do not add up is skipped like any other record when it
    is older than the window start, so the rest of its fragment is still
    counted, and makes the parse of the fragment raise when it is inside
    the window. *)
Theorem counters_read_inside_window (ws t : Z) (raw : string) (usage : json)
    (e : exn) (rest : file) :
  read_record raw = Ok (Some (Aware t, usage)) →
  message_tokens usage = Raise e →
  (t < ws → _parse_jsonl_file (Line raw rest) ws = _parse_jsonl_file rest ws)
  ∧ (ws ≤ t → _parse_jsonl_file (Line raw rest) ws = Raise e).
Proof.
  intros Hr He. unfold UsageCalculator._parse_jsonl_file. simpl.
  unfold UsageCalculator.process_line. rewrite Hr. simpl.
  split; intros Ht.
  - apply Z.leb_gt in Ht. rewrite Ht. reflexivity.
  - apply Z.leb_le in Ht. rewrite Ht, He. reflexivity.
Qed.

End LazyCounters.

Lemma counters_read_inside_window_witness :
  _parse_jsonl_file SampleMore.json_loads SampleMore.fromisoformat
    (Line SampleMore.line_null_counter_0400 (Line Sample.line_050001 Eof))
    (Sample.jan1 5 0 0)
  = Ok (100, Some (Sample.jan1 5 0 1))
  ∧ _parse_jsonl_file SampleMore.json_loads SampleMore.fromisoformat
      (Line SampleMore.line_null_counter_0900 (Line Sample.line_050001 Eof))
      (Sample.jan1 5 0 0)
    = Raise TypeError.
Proof.
  split.
  - rewrite (proj1 (counters_read_inside_window
               SampleMore.json_loads SampleMore.fromisoformat
               (Sample.jan1 5 0 0) (Sample.jan1 4 0 0)
               SampleMore.line_null_counter_0400 SampleMore.null_usage TypeError
               (Line Sample.line_050001 Eof) eq_refl eq_refl));
      [vm_compute; reflexivity|vm_compute; reflexivity].
  - apply (proj2 (counters_read_inside_window
               SampleMore.json_loads SampleMore.fromisoformat
               (Sample.jan1 5 0 0) (Sample.jan1 9 0 0)
               SampleMore.line_null_counter_0900 SampleMore.null_usage TypeError
               (Line Sample.line_050001 Eof) eq_refl eq_refl)).
    vm_compute. discriminate.
Defined.

(** ** Status, colours and the icon *)

Lemma COLORS_red : IconGenerator.COLORS !! "red" = Some IconGenerator.red.
Proof. reflexivity. Qed.

Lemma COLORS_yellow : IconGenerator.COLORS !! "yellow" = Some IconGenerator.yellow.
Proof. reflexivity. Qed.

Lemma COLORS_green : IconGenerator.COLORS !! "green" = Some IconGenerator.green.
Proof. reflexivity. Qed.

(** X7.  The three readings of the percentage agree: [status],
    [status_color], [get_color_for_percentage] and the fill colour of
    [create_icon] all switch at 90 and at 70, and the colour name is always
    a key of [COLORS] that gives the fill of the icon. *)
Theorem status_and_colours_agree (stats : UsageStats) (size : Z) (show_text : bool) :
  let p := percentage stats in
  StatsView.status_color stats = IconGenerator.get_color_for_percentage p
  ∧ IconGenerator.COLORS !! StatsView.status_color stats
    = Some (IconGenerator.fill (IconGenerator.create_icon size p show_text))
  ∧ (StatsView.status stats = "CRITICAL" ↔ (90 <= p)%Q)
  ∧ (StatsView.status stats = "WARNING" ↔ (70 <= p)%Q ∧ (p < 90)%Q)
  ∧ (StatsView.status stats = "OK" ↔ (p < 70)%Q)
  ∧ (StatsView.status_color stats = "red" ↔ StatsView.status stats = "CRITICAL")
  ∧ (StatsView.status_color stats = "yellow" ↔ StatsView.status stats = "WARNING")
  ∧ (StatsView.status_color stats = "green" ↔ StatsView.status stats = "OK").
Proof.
  unfold StatsView.status_color, StatsView.status,
    IconGenerator.get_color_for_percentage, IconGenerator.create_icon.
  simpl.
  destruct (Qle_bool 90 (percentage stats)) eqn:E90;
    [apply Qle_bool_iff in E90|apply Qle_bool_false in E90];
    [|destruct (Qle_bool 70 (percentage stats)) eqn:E70;
      [apply Qle_bool_iff in E70|apply Qle_bool_false in E70]];
    split_and!; try reflexivity; try split; intros; destruct_and?;
      try discriminate; try assumption; try q_contra; try reflexivity.
  all: try (split; assumption).
  all: exfalso; match goal with
       | H : (_ < 70)%Q |- _ =>
           apply (Qlt_not_le _ _ H); eapply Qle_trans; [|exact E90]; discriminate
       end.
Qed.

(** X8.  A Critical alert is only emitted for a snapshot whose status is
    CRITICAL, and when the warning threshold is at least 90, as it is by
    default, so is every alert: the WARNING band of the status, from 70 to
    90, never raises one. *)
Theorem alerts_imply_critical_status (self : TrayApp.TrayApp) (stats : UsageStats)
    (now : Z) (toast : result unit) :
  ∃ r, TrayApp.evaluate self stats now toast = Ok r
     ∧ (TrayApp.emitted r = Some TrayApp.Critical → StatsView.status stats = "CRITICAL")
     ∧ ((90 <= Config.warning_threshold (TrayApp.config self))%Q →
        TrayApp.emitted r ≠ None → StatsView.status stats = "CRITICAL").
Proof.
  destruct (evaluate_eq self stats now toast) as (r & Hr & He & _).
  exists r. split; [exact Hr|]. rewrite He. unfold StatsView.status.
  destruct (Qle_bool 95 (percentage stats)) eqn:E95.
  - apply Qle_bool_iff in E95.
    assert (H90 : Qle_bool 90 (percentage stats) = true).
    { apply Qle_bool_iff. eapply Qle_trans; [|exact E95]. discriminate. }
    rewrite H90. split; intros; reflexivity.
  - destruct (Qle_bool (Config.warning_threshold (TrayApp.config self))
                       (percentage stats)) eqn:Ew.
    + apply Qle_bool_iff in Ew.
      split; [destruct (_ <? 1); discriminate|].
      intros Ht _.
      assert (H90 : Qle_bool 90 (percentage stats) = true)
        by (apply Qle_bool_iff; eapply Qle_trans; eassumption).
      rewrite H90. reflexivity.
    + split; [discriminate|]. intros _ H. contradiction.
Qed.

Lemma alerts_imply_critical_status_witness :
  StatsView.status (TrayApp.snapshot 92) = "CRITICAL".
Proof.
  destruct (alerts_imply_critical_status
              (TrayApp.init (Config.default_config "/home/u") true)
              (TrayApp.snapshot 92) 0 (Ok tt)) as (r & Hr & _ & Hany).
  apply Hany; [discriminate|].
  vm_compute in Hr. injection Hr as <-. discriminate.
Defined.

Lemma int_ge (p : Q) (n : Z) : 0 < n → (n ≤ IconGenerator.int p ↔ (inject_Z n <= p)%Q).
Proof.
  intros Hn. destruct p as [a b]. unfold IconGenerator.int, Qle, inject_Z. simpl.
  rewrite Z.mul_1_r.
  destruct (Z.le_gt_cases 0 a) as [Ha|Ha].
  - rewrite Z.quot_div_nonneg by lia. split; intros H.
    + pose proof (Z.mul_div_le a (Z.pos b) ltac:(lia)). nia.
    + apply Z.div_le_lower_bound; lia.
  - assert (Hq : a ÷ Z.pos b ≤ 0).
    { replace a with (- (- a)) by lia. rewrite Z.quot_opp_l by lia.
      pose proof (Z.quot_pos (- a) (Z.pos b) ltac:(lia) ltac:(lia)). lia. }
    split; intros H; [lia|nia].
Qed.

(** X9.  The number on the icon is the percentage cut to a whole number,
    and it agrees with the colour: the icon is red exactly when the number
    is at least 90 and green exactly when it is below 70. *)
Theorem icon_number_matches_colour (size : Z) (p : Q) (show_text : bool) :
  let icon := IconGenerator.create_icon size p show_text in
  (IconGenerator.fill icon = IconGenerator.red ↔ 90 ≤ IconGenerator.int p)
  ∧ (IconGenerator.fill icon = IconGenerator.green ↔ IconGenerator.int p < 70)
  ∧ (IconGenerator.text icon
     = if show_text && (32 <=? size)
       then Some (pretty (IconGenerator.int p)) else None).
Proof.
  simpl. rewrite (int_ge p 90) by lia.
  assert (H70 : IconGenerator.int p < 70 ↔ (p < 70)%Q).
  { pose proof (int_ge p 70 ltac:(lia)) as H. split; intros Hlt.
    - apply Qnot_le_lt. intros Hle. apply H in Hle. lia.
    - destruct (Z.lt_ge_cases (IconGenerator.int p) 70) as [|Hge]; [assumption|].
      apply H in Hge. exfalso. exact (Qlt_not_le _ _ Hlt Hge). }
  rewrite H70.
  destruct (Qle_bool 90 p) eqn:E90;
    [apply Qle_bool_iff in E90|apply Qle_bool_false in E90];
    [|destruct (Qle_bool 70 p) eqn:E70;
      [apply Qle_bool_iff in E70|apply Qle_bool_false in E70]];
    split_and!; try reflexivity; try split; intros; destruct_and?;
      try discriminate; try assumption; try q_contra; try reflexivity.
  exfalso. apply (Qlt_not_le _ _ H). eapply Qle_trans; [|exact E90]. discriminate.
Qed.

(** X10.  For a remaining time of less than [2^34] seconds in absolute
    value, where [int(td.total_seconds())] is the exact number of whole
    seconds, [format_remaining_time] prints [Resetting] for a duration
    other than zero of less than a second, and otherwise the whole hours
    and minutes of the duration, the minutes below 60 and the hours left
    out when they are 0, so that less than a minute prints as [0m].  It
    prints [N/A] when there is no remaining time and also when it is the
    zero duration. *)
Theorem format_remaining_time_cases (stats : UsageStats) :
  (remaining_time stats = None ∨ remaining_time stats = Some 0 →
     StatsView.format_remaining_time stats = Some "N/A")
  ∧ (∀ td, remaining_time stats = Some td → td ≠ 0 →
       - (2 ^ 34 * 1000000) < td < 1000000 →
       StatsView.format_remaining_time stats = Some "Resetting")
  ∧ (∀ td, remaining_time stats = Some td →
       1000000 ≤ td < 2 ^ 34 * 1000000 →
       ∃ H M, 0 ≤ H ∧ 0 ≤ M < 60
         ∧ (H * 3600 + M * 60) * 1000000 ≤ td
         ∧ td < (H * 3600 + M * 60 + 60) * 1000000
         ∧ StatsView.format_remaining_time stats
           = Some (if 0 <? H then pretty H +:+ "h " +:+ pretty M +:+ "m"
                   else pretty M +:+ "m")).
Proof.
  unfold StatsView.format_remaining_time, StatsView.whole_seconds.
  split_and!.
  - intros [-> | ->]; reflexivity.
  - intros td -> Hne [Hlo Hlt].
    destruct (Z.eqb_spec td 0) as [|_]; [contradiction|].
    destruct (Z.ltb_spec (Z.abs td) (2 ^ 34 * 1000000)) as [_|Hbig]; [|lia].
    assert (Hq : td ÷ 1000000 ≤ 0).
    { destruct (Z.le_gt_cases 0 td).
      - rewrite Z.quot_small by lia. lia.
      - replace td with (- (- td)) by lia. rewrite Z.quot_opp_l by lia.
        pose proof (Z.quot_pos (- td) 1000000 ltac:(lia) ltac:(lia)). lia. }
    apply Z.leb_le in Hq. rewrite Hq. reflexivity.
  - intros td -> [Hge Hlt].
    destruct (Z.eqb_spec td 0) as [|_]; [lia|].
    destruct (Z.ltb_spec (Z.abs td) (2 ^ 34 * 1000000)) as [_|Hbig]; [|lia].
    rewrite Z.quot_div_nonneg by lia.
    set (secs := td / 1000000).
    assert (Hs : 1 ≤ secs) by (apply Z.div_le_lower_bound; lia).
    destruct (Z.leb_spec secs 0) as [|_]; [lia|].
    exists (secs / 3600), (secs mod 3600 / 60).
    pose proof (Z.div_mod td 1000000 ltac:(lia)) as Htd. fold secs in Htd.
    pose proof (Z.mod_pos_bound td 1000000 ltac:(lia)).
    pose proof (Z.div_mod secs 3600 ltac:(lia)) as Hsec.
    pose proof (Z.mod_pos_bound secs 3600 ltac:(lia)).
    pose proof (Z.div_mod (secs mod 3600) 60 ltac:(lia)) as Hmin.
    pose proof (Z.mod_pos_bound (secs mod 3600) 60 ltac:(lia)).
    assert (0 ≤ secs / 3600) by (apply Z.div_pos; lia).
    assert (0 ≤ secs mod 3600 / 60) by (apply Z.div_pos; lia).
    assert (secs mod 3600 / 60 < 60) by (apply Z.div_lt_upper_bound; lia).
    split_and!; try lia.
    destruct (0 <? secs / 3600); reflexivity.
Qed.

Lemma format_remaining_time_cases_witness :
  StatsView.format_remaining_time
    (mkStats 0 0 0 None None 0 (Some 0) None) = Some "N/A"
  ∧ StatsView.format_remaining_time
      (mkStats 0 0 0 None None 0 (Some 999999) None) = Some "Resetting"
  ∧ ∃ H M, 0 ≤ M < 60
      ∧ StatsView.format_remaining_time
          (mkStats 0 0 0 None None 0 (Some 59000000) None)
        = Some (if 0 <? H then pretty H +:+ "h " +:+ pretty M +:+ "m"
                else pretty M +:+ "m").
Proof.
  split_and!.
  - apply (proj1 (format_remaining_time_cases _)). right. reflexivity.
  - apply (proj1 (proj2 (format_remaining_time_cases _)) 999999);
      [reflexivity|lia|lia].
  - destruct (proj2 (proj2 (format_remaining_time_cases
        (mkStats 0 0 0 None None 0 (Some 59000000) None))) 59000000 eq_refl)
      as (H & M & _ & HM & _ & _ & E); [lia|].
    exists H, M. split; [exact HM|exact E].
Defined.

(** A duration of 59 seconds prints as [0m], one of 4 hours 59 minutes and
    59 seconds as [4h 59m]. *)
Example format_remaining_time_examples :
  StatsView.format_remaining_time (mkStats 0 0 0 None None 0 (Some 59000000) None)
  = Some "0m"
  ∧ StatsView.format_remaining_time
      (mkStats 0 0 0 None None 0 (Some 17999000000) None) = Some "4h 59m".
Proof. vm_compute. split; reflexivity. Qed.

(** ** Notifier: types, resets and refused calls *)

(** X11.  [reset_cooldown] for one type lets the next notification of that
    type through, whatever the time, and leaves the recorded time of every
    other type alone; without a type, or with the empty string for a type,
    it forgets the times of all types. *)
Theorem reset_cooldown_one_type (self : Notifier.Notifier) (ty ty' : string)
    (now : Z) (toast : result unit) :
  Notifier.toaster self = true → ty ≠ EmptyString →
  (∃ o, Notifier.notify (Notifier.reset_cooldown self (Some ty)) now ty false toast
        = Ok o
        ∧ Notifier.returned o = true)
  ∧ (ty' ≠ ty →
     Notifier.last_notification (Notifier.reset_cooldown self (Some ty)) !! ty'
     = Notifier.last_notification self !! ty')
  ∧ Notifier.last_notification (Notifier.reset_cooldown self None) = ∅
  ∧ Notifier.last_notification (Notifier.reset_cooldown self (Some EmptyString)) = ∅.
Proof.
  intros Ht Hne. unfold Notifier.reset_cooldown.
  apply String.eqb_neq in Hne. rewrite Hne.
  split_and!; try reflexivity.
  - eexists. split; [apply notify_eq|]. simpl.
    rewrite Ht, lookup_delete_eq. reflexivity.
  - intros Hd. simpl. apply lookup_delete_ne. congruence.
Qed.

Lemma reset_cooldown_one_type_witness :
  ∃ o, Notifier.notify
         (Notifier.reset_cooldown
            (Notifier.mkNotifier true (minutes 15) (<["usage_warning" := 0]> ∅))
            (Some "usage_warning"))
         1 "usage_warning" false (Ok tt) = Ok o
       ∧ Notifier.returned o = true.
Proof.
  apply (reset_cooldown_one_type
           (Notifier.mkNotifier true (minutes 15) (<["usage_warning" := 0]> ∅))
           "usage_warning" "usage_critical" 1 (Ok tt)); [reflexivity|discriminate].
Defined.

(** X12.  Cooldowns are kept per type: a call of [notify] for one type,
    delivered or not, does not change what a later call for another type
    returns. *)
Theorem notification_types_independent (self : Notifier.Notifier) (t1 t2 : Z)
    (ty1 ty2 : string) (force1 force2 : bool) (toast1 toast2 : result unit) :
  ty1 ≠ ty2 →
  ∃ o1 o2 o2',
    Notifier.notify self t1 ty1 force1 toast1 = Ok o1
    ∧ Notifier.notify (Notifier.self' o1) t2 ty2 force2 toast2 = Ok o2
    ∧ Notifier.notify self t2 ty2 force2 toast2 = Ok o2'
    ∧ Notifier.returned o2 = Notifier.returned o2'.
Proof.
  intros Hne. do 3 eexists.
  split; [apply notify_eq|]. split; [apply notify_eq|]. split; [apply notify_eq|].
  destruct (negb (Notifier.toaster self)
            || negb force1
               && match Notifier.last_notification self !! ty1 with
                  | Some last_time => t1 - last_time <? Notifier.cooldown self
                  | None => false
                  end); simpl.
  - destruct (negb (Notifier.toaster self) || _); reflexivity.
  - rewrite lookup_insert_ne by exact Hne.
    destruct (negb (Notifier.toaster self) || _); reflexivity.
Qed.

Lemma notification_types_independent_witness :
  ∃ o1 o2 o2',
    Notifier.notify (Notifier.init true 15) 0 "usage_warning" false (Ok tt) = Ok o1
    ∧ Notifier.notify (Notifier.self' o1) 1 "usage_critical" false (Ok tt) = Ok o2
    ∧ Notifier.notify (Notifier.init true 15) 1 "usage_critical" false (Ok tt) = Ok o2'
    ∧ Notifier.returned o2 = Notifier.returned o2'.
Proof.
  apply (notification_types_independent (Notifier.init true 15) 0 1
           "usage_warning" "usage_critical" false false (Ok tt) (Ok tt)).
  discriminate.
Defined.

Lemma attempts_refused (self : Notifier.Notifier) (ty : string) (last : Z)
    (instants : list Z) :
  Notifier.toaster self = true →
  Notifier.last_notification self !! ty = Some last →
  Forall (fun t => t - last < Notifier.cooldown self) instants →
  NotifierRuns.attempts self ty instants = (self, (fun _ => false) <$> instants).
Proof.
  intros Ht Hl Hall. induction Hall as [|t rest Hc _ IH]; [reflexivity|].
  simpl. rewrite notify_eq, Ht, Hl. simpl.
  apply Z.ltb_lt in Hc. rewrite Hc. simpl. rewrite IH. reflexivity.
Qed.

(** X13.  Refused calls do not extend a cooldown: after a delivery at
    [t0], any number of calls for the same type made less than the cooldown
    after [t0] are all refused and leave the notifier as it was, and a call
    made the cooldown or more after [t0] is delivered. *)
Theorem refused_calls_do_not_postpone (self : Notifier.Notifier) (ty : string)
    (t0 t : Z) (instants : list Z) (force : bool) (toast toast' : result unit)
    (o : Notifier.outcome) :
  Notifier.notify self t0 ty force toast = Ok o →
  Notifier.returned o = true →
  Forall (fun t' => t' - t0 < Notifier.cooldown self) instants →
  Notifier.cooldown self ≤ t - t0 →
  let r := NotifierRuns.attempts (Notifier.self' o) ty instants in
  r.1 = Notifier.self' o
  ∧ r.2 = (fun _ => false) <$> instants
  ∧ ∃ o', Notifier.notify r.1 t ty false toast' = Ok o'
          ∧ Notifier.returned o' = true.
Proof.
  intros Ho Hret Hall Hlate.
  rewrite notify_eq in Ho. injection Ho as <-.
  destruct (negb (Notifier.toaster self) || _) eqn:E; [discriminate|].
  apply orb_false_iff in E as [Et _]. apply negb_false_iff in Et.
  simpl. rewrite attempts_refused with (last := t0);
    [|exact Et|apply lookup_insert_eq|exact Hall].
  simpl. split_and!; try reflexivity.
  eexists. split; [apply notify_eq|]. simpl.
  rewrite Et, lookup_insert_eq. simpl.
  apply Z.ltb_ge in Hlate. rewrite Hlate. reflexivity.
Qed.

Lemma refused_calls_do_not_postpone_witness :
  ∃ o, Notifier.notify (Notifier.init true 15) 0 "usage_warning" false (Ok tt) = Ok o
     ∧ (NotifierRuns.attempts (Notifier.self' o) "usage_warning"
          [minutes 1; minutes 5; minutes 14]).2 = [false; false; false]
     ∧ ∃ o', Notifier.notify
               (NotifierRuns.attempts (Notifier.self' o) "usage_warning"
                  [minutes 1; minutes 5; minutes 14]).1
               (minutes 15) "usage_warning" false (Ok tt) = Ok o'
             ∧ Notifier.returned o' = true.
Proof.
  eexists. split; [reflexivity|].
  refine (proj2 (refused_calls_do_not_postpone (Notifier.init true 15)
            "usage_warning" 0 (minutes 15) [minutes 1; minutes 5; minutes 14]
            false (Ok tt) (Ok tt) _ eq_refl eq_refl _ _)).
  - repeat constructor.
  - vm_compute. discriminate.
Defined.

(** ** Alert machine: runs, refresh and plan selection *)

Lemma emitted_None (r : TrayApp.TrayApp * option (TrayApp.alert * Notifier.outcome)) :
  TrayApp.emitted r = None → r.2 = None.
Proof. unfold TrayApp.emitted. destruct r.2 as [[a o]|]; [discriminate|reflexivity]. Qed.

Lemma emitted_Some (r : TrayApp.TrayApp * option (TrayApp.alert * Notifier.outcome)) a :
  TrayApp.emitted r = Some a → ∃ o, r.2 = Some (a, o).
Proof.
  unfold TrayApp.emitted. destruct r.2 as [[a' o]|]; [|discriminate].
  intros [= ->]. eauto.
Qed.

Lemma evaluate_not_normal (self : TrayApp.TrayApp) (stats : UsageStats) (now : Z) :
  ¬ Refresh.normal (TrayApp.config self) (percentage stats) →
  ∃ r, TrayApp.evaluate self stats now (Ok tt) = Ok r
     ∧ TrayApp.config r.1 = TrayApp.config self
     ∧ (TrayApp._last_warning_level self = 2 →
        r.2 = None ∧ TrayApp._last_warning_level r.1 = 2)
     ∧ (TrayApp._last_warning_level self = 1 →
        (r.2 = None ∧ TrayApp._last_warning_level r.1 = 1)
        ∨ (∃ o, r.2 = Some (TrayApp.Critical, o)
                ∧ TrayApp._last_warning_level r.1 = 2)).
Proof.
  intros Hn.
  destruct (evaluate_eq self stats now (Ok tt)) as (r & Hr & He & Hl & Hc).
  exists r. split; [exact Hr|]. split; [exact Hc|].
  destruct (Qle_bool 95 (percentage stats)) eqn:E95.
  - split; intros Hlev; rewrite Hlev in He, Hl; simpl in He, Hl.
    + split; [apply emitted_None, He|exact Hl].
    + right. apply emitted_Some in He as [o Ho]. eauto.
  - destruct (Qle_bool (Config.warning_threshold (TrayApp.config self))
                       (percentage stats)) eqn:Ew.
    + split; intros Hlev; rewrite Hlev in He, Hl; simpl in He, Hl.
      * split; [apply emitted_None, He|exact Hl].
      * left. split; [apply emitted_None, He|exact Hl].
    + exfalso. apply Hn. apply Qle_bool_false in E95, Ew. split; assumption.
Qed.

(** X14.  Alerts do not repeat without a return to Normal.  Over any run
    of evaluations none of which finds the percentage below both
    thresholds, an application at the Critical level emits nothing and
    stays Critical, and one at the Warning level emits no Warning and at
    most one alert, which is Critical. *)
Theorem no_repeat_without_normal (passes : list (UsageStats * Z)) :
  ∀ self,
  Forall (fun pass => ¬ Refresh.normal (TrayApp.config self) (percentage pass.1))
         passes →
  ∃ app out,
    TrayApp.run self passes = Ok (app, out)
    ∧ TrayApp.config app = TrayApp.config self
    ∧ (TrayApp._last_warning_level self = 2 →
       out = (fun _ => None) <$> passes ∧ TrayApp._last_warning_level app = 2)
    ∧ (TrayApp._last_warning_level self = 1 →
       Forall (fun e => ∀ b, e ≠ Some (TrayApp.Warning, b)) out
       ∧ (length (filter is_Some out) ≤ 1)%nat
       ∧ 1 ≤ TrayApp._last_warning_level app ≤ 2).
Proof.
  induction passes as [|[stats now] rest IH]; intros self Hall.
  - exists self, []. simpl. split_and!; try reflexivity; intros Hl.
    + split; [reflexivity|exact Hl].
    + split_and!; try constructor; lia.
  - inversion Hall as [|? ? Hn Hrest]; subst. simpl in Hn.
    destruct (evaluate_not_normal self stats now Hn) as (r & Hr & Hc & H2 & H1).
    assert (Hrest' : Forall (fun pass =>
               ¬ Refresh.normal (TrayApp.config r.1) (percentage pass.1)) rest)
      by (rewrite Hc; exact Hrest).
    destruct (IH r.1 Hrest') as (app & out & Hrun & Hcfg & I2 & I1).
    simpl. rewrite Hr. simpl. rewrite Hrun. simpl.
    eexists _, _. split; [reflexivity|]. split; [congruence|].
    split; intros Hlev.
    + destruct (H2 Hlev) as [Hnone Hl2]. destruct (I2 Hl2) as [-> Happ].
      rewrite Hnone. split; [reflexivity|exact Happ].
    + destruct (H1 Hlev) as [[Hnone Hl1]|(o & Hsome & Hl2)].
      * rewrite Hnone. destruct (I1 Hl1) as (F & L & B).
        split_and!; try lia.
        -- constructor; [discriminate|exact F].
        -- rewrite filter_cons_False by (intros [? ?]; discriminate). exact L.
      * rewrite Hsome. destruct (I2 Hl2) as [-> Happ].
        split_and!; try lia.
        -- constructor; [discriminate|].
           apply Forall_fmap, Forall_forall. intros; discriminate.
        -- rewrite filter_cons_True by eauto.
           rewrite filter_none; [simpl; lia|].
           intros x Hx [? ?]. apply list_elem_of_fmap in Hx as (? & -> & _).
           discriminate.
Qed.

Lemma no_repeat_without_normal_witness :
  ∃ app out,
    TrayApp.run
      (TrayApp.mkApp (Config.default_config "/home/u") (Notifier.init true 15) None 2)
      [(TrayApp.snapshot 96, 0); (TrayApp.snapshot 92, 1); (TrayApp.snapshot 97, 2)]
    = Ok (app, out)
    ∧ out = [None; None; None].
Proof.
  destruct (no_repeat_without_normal
      [(TrayApp.snapshot 96, 0); (TrayApp.snapshot 92, 1); (TrayApp.snapshot 97, 2)]
      (TrayApp.mkApp (Config.default_config "/home/u") (Notifier.init true 15) None 2))
    as (app & out & Hrun & _ & H2 & _).
  - repeat constructor; intros [H1 H2]; vm_compute in H1, H2; congruence.
  - exists app, out. split; [exact Hrun|]. apply (H2 eq_refl).
Defined.

Section RefreshFacts.

Variable json_loads : string -> result json.
Variable fromisoformat : string -> option datetime.

Abbreviation calculate := (UsageCalculator.calculate json_loads fromisoformat).
Abbreviation calculate_result := (UsageCalculator.calculate_result json_loads fromisoformat).
Abbreviation _refresh_stats := (Refresh._refresh_stats json_loads fromisoformat).
Abbreviation _on_plan_select := (Refresh._on_plan_select json_loads fromisoformat).

Lemma refresh_fields (self : TrayApp.TrayApp) (now clock : Z)
    (dir : option (list file)) (off : Z) (update_icon toast : result unit) :
  let r := _refresh_stats self now clock dir off update_icon toast in
  (∀ stats,
     calculate_result (TrayApp.config self) now dir off = Ok stats →
     stats = calculate (TrayApp.config self) now dir
     ∧ TrayApp.current_stats r.1 = Some stats
     ∧ TrayApp.config r.1 = TrayApp.config self
     ∧ (returns update_icon = true → TrayApp.evaluate self stats clock toast = Ok r)
     ∧ (returns update_icon = false →
        r.2 = None
        ∧ TrayApp._last_warning_level r.1 = TrayApp._last_warning_level self
        ∧ TrayApp.notifier r.1 = TrayApp.notifier self))
  ∧ (∀ e,
       calculate_result (TrayApp.config self) now dir off = Raise e →
       r = (self, None)).
Proof.
  unfold Refresh._refresh_stats. split.
  - intros stats Hcalc. rewrite Hcalc.
    split; [exact (calculate_returns json_loads fromisoformat _ _ _ _ _ _ Hcalc)|].
    destruct (evaluate_eq self stats clock toast) as (r & Hr & _ & _ & Hc).
    assert (Hs : TrayApp.current_stats r.1 = Some stats).
    { unfold TrayApp.evaluate, TrayApp._check_and_notify in Hr. simpl in Hr.
      destruct (Qle_bool 95 (percentage stats));
        [|destruct (Qle_bool _ (percentage stats))];
        repeat match type of Hr with
               | context [?a <? ?b] => destruct (a <? b)
               end;
        unfold Notifier.notify_critical, Notifier.notify_warning in Hr;
        rewrite ?notify_eq in Hr; simpl in Hr; injection Hr as <-; reflexivity. }
    destruct update_icon as [[]|e]; simpl.
    + pose proof Hr as Hr'. unfold TrayApp.evaluate in Hr'. rewrite Hr'. simpl.
      split_and!; try assumption; try discriminate. intros _. exact Hr.
    + split_and!; try reflexivity; try discriminate.
      intros _. split_and!; reflexivity.
  - intros e Hcalc. rewrite Hcalc. reflexivity.
Qed.

(** X15.  A refresh whose pass returns publishes the snapshot of the pass,
    whole, and keeps the configuration.  When the icon update succeeds the
    alert machine is evaluated on that snapshot; when it raises, the
    exception is swallowed and the evaluation is skipped: no alert, level
    and notifier as before.  When the pass itself raises, the exception is
    swallowed as well and the application is left as it was, the snapshot
    published before included. *)
Theorem refresh_publishes_snapshot (self : TrayApp.TrayApp) (now clock : Z)
    (dir : option (list file)) (off : Z) (update_icon toast : result unit) :
  let r := _refresh_stats self now clock dir off update_icon toast in
  (∀ stats,
     calculate_result (TrayApp.config self) now dir off = Ok stats →
     stats = calculate (TrayApp.config self) now dir
     ∧ TrayApp.current_stats r.1 = Some stats
     ∧ TrayApp.config r.1 = TrayApp.config self
     ∧ (returns update_icon = true → TrayApp.evaluate self stats clock toast = Ok r)
     ∧ (returns update_icon = false →
        r.2 = None
        ∧ TrayApp._last_warning_level r.1 = TrayApp._last_warning_level self
        ∧ TrayApp.notifier r.1 = TrayApp.notifier self))
  ∧ (∀ e,
       calculate_result (TrayApp.config self) now dir off = Raise e →
       r = (self, None)).
Proof. apply refresh_fields. Qed.

(** X16.  Choosing the plan already in use changes nothing.  Choosing
    another one switches the plan of the shared configuration, keeps its
    other settings, and, once the file is written, refreshes, so that the
    snapshot published by a pass that returns carries the limit of the new
    plan, while a pass that raises leaves the old snapshot in place.  When
    writing the file fails the exception goes to the caller while the plan
    is already switched in memory and the snapshot is the old one. *)
Theorem plan_select_switches_limit (self : TrayApp.TrayApp) (plan_name : string)
    (save : result unit) (now clock : Z) (dir : option (list file)) (off : Z)
    (update_icon toast : result unit) :
  let r := _on_plan_select self plan_name save now clock dir off update_icon toast in
  (plan_name = Config.plan (TrayApp.config self) → r = (self, None))
  ∧ (plan_name ≠ Config.plan (TrayApp.config self) →
     TrayApp.config r.1 = Refresh.set_plan (TrayApp.config self) plan_name
     ∧ Config.plan (TrayApp.config r.1) = plan_name
     ∧ Config.window_hours (TrayApp.config r.1)
       = Config.window_hours (TrayApp.config self)
     ∧ (returns save = true →
        r.2 = None
        ∧ (∀ stats,
             calculate_result (Refresh.set_plan (TrayApp.config self) plan_name)
               now dir off = Ok stats →
             TrayApp.current_stats r.1 = Some stats
             ∧ token_limit stats = Config.token_limit (TrayApp.config r.1)
             ∧ stats = calculate (TrayApp.config r.1) now dir)
        ∧ (∀ e,
             calculate_result (Refresh.set_plan (TrayApp.config self) plan_name)
               now dir off = Raise e →
             TrayApp.current_stats r.1 = TrayApp.current_stats self
             ∧ TrayApp._last_warning_level r.1 = TrayApp._last_warning_level self))
     ∧ (∀ e, save = Raise e →
        r.2 = Some e
        ∧ TrayApp.current_stats r.1 = TrayApp.current_stats self
        ∧ TrayApp._last_warning_level r.1 = TrayApp._last_warning_level self)).
Proof.
  unfold Refresh._on_plan_select. split.
  - intros ->. rewrite String.eqb_refl. reflexivity.
  - intros Hne. apply String.eqb_neq in Hne. rewrite Hne.
    destruct save as [[]|e]; simpl.
    + match goal with
      | |- context [Refresh._refresh_stats _ _ ?s ?n ?c ?d ?o ?u ?t] =>
          destruct (refresh_fields s n c d o u t) as (Hok & Hraise)
      end.
      simpl in Hok, Hraise.
      assert (Hcfg : TrayApp.config
                (Refresh._refresh_stats json_loads fromisoformat
                   (TrayApp.mkApp (Refresh.set_plan (TrayApp.config self) plan_name)
                      (TrayApp.notifier self) (TrayApp.current_stats self)
                      (TrayApp._last_warning_level self))
                   now clock dir off update_icon toast).1
              = Refresh.set_plan (TrayApp.config self) plan_name).
      { destruct (calculate_result (Refresh.set_plan (TrayApp.config self) plan_name)
                    now dir off) as [stats|e] eqn:E.
        - destruct (Hok stats eq_refl) as (_ & _ & Hc & _). exact Hc.
        - rewrite (Hraise e eq_refl). reflexivity. }
      split_and!; try (rewrite Hcfg; reflexivity); try discriminate.
      intros _. split_and!; [reflexivity| |].
      * intros stats Hs. destruct (Hok stats Hs) as (Heq & Hcur & _).
        rewrite Hcfg. split_and!; [exact Hcur| |exact Heq].
        rewrite Heq. destruct dir; reflexivity.
      * intros e He. rewrite (Hraise e He). split; reflexivity.
    + split_and!; try reflexivity; try discriminate.
      intros e' [= <-]. split_and!; reflexivity.
Qed.

End RefreshFacts.

Lemma refresh_publishes_snapshot_witness :
  let self := TrayApp.mkApp (Config.default_config "/home/u") (Notifier.init true 15)
                None 1 in
  let r := Refresh._refresh_stats Sample.json_loads Sample.fromisoformat self
             Sample.ten 0 (Some [Line Sample.line_050001 Eof]) 0
             (Raise RuntimeError) (Ok tt) in
  (∃ stats, TrayApp.current_stats r.1 = Some stats ∧ total_tokens stats = 100)
  ∧ r.2 = None ∧ TrayApp._last_warning_level r.1 = 1
  ∧ Refresh._refresh_stats SampleMore.json_loads SampleMore.fromisoformat self
      Sample.ten 0 (Some [Line SampleMore.line_year_9999 Eof]) 0 (Ok tt) (Ok tt)
    = (self, None).
Proof.
  intros self.
  destruct (refresh_publishes_snapshot Sample.json_loads Sample.fromisoformat
              self Sample.ten 0 (Some [Line Sample.line_050001 Eof]) 0
              (Raise RuntimeError) (Ok tt)) as (Hok & _).
  destruct (Hok _ eq_refl) as (Heq & Hcur & _ & _ & Hfail).
  destruct (Hfail eq_refl) as (Hnone & Hlevel & _).
  destruct (refresh_publishes_snapshot SampleMore.json_loads SampleMore.fromisoformat
              self Sample.ten 0 (Some [Line SampleMore.line_year_9999 Eof]) 0
              (Ok tt) (Ok tt)) as (_ & Hraise).
  split_and!.
  - eexists. split; [exact Hcur|]. vm_compute. reflexivity.
  - exact Hnone.
  - exact Hlevel.
  - apply (Hraise OverflowError). vm_compute. reflexivity.
Defined.

Lemma plan_select_switches_limit_witness :
  let r := Refresh._on_plan_select Sample.json_loads Sample.fromisoformat
             (TrayApp.init (Config.default_config "/home/u") true) "Pro"
             (Ok tt) Sample.ten 0 (Some [Line Sample.line_050001 Eof]) 0
             (Ok tt) (Ok tt) in
  ∃ stats, TrayApp.current_stats r.1 = Some stats ∧ token_limit stats = 8744628.
Proof.
  destruct (plan_select_switches_limit Sample.json_loads Sample.fromisoformat
              (TrayApp.init (Config.default_config "/home/u") true) "Pro"
              (Ok tt) Sample.ten 0 (Some [Line Sample.line_050001 Eof]) 0
              (Ok tt) (Ok tt)) as (_ & Hswitch).
  destruct Hswitch as (Hcfg & _ & _ & Hok & _); [discriminate|].
  destruct (Hok eq_refl) as (_ & Hpub & _).
  destruct (Hpub _ eq_refl) as (Hs & Hl & _).
  eexists. split; [exact Hs|]. rewrite Hl, Hcfg. reflexivity.
Defined.

(** ** Debounce: causes of callbacks and other events *)

Section WatcherMore.
Import FileWatcher.

Lemma caused_app delay trace1 trace2 x :
  WatcherFacts.caused delay trace1 x → WatcherFacts.caused delay (trace1 ++ trace2) x.
Proof.
  intros (t & ev & Hin & Hq & E). exists t, ev.
  split; [apply elem_of_app; left; exact Hin|]. split; assumption.
Qed.

Lemma elem_of_alter_cancel i (l : list Timer) x :
  x ∈ alter cancel i l → ∃ y, y ∈ l ∧ deadline x = deadline y.
Proof.
  intros Hx. apply list_elem_of_lookup in Hx as [j Hj].
  rewrite list_lookup_alter in Hj. case_decide; subst.
  - destruct (l !! j) as [y|] eqn:E; simplify_eq/=.
    exists y. split; [eapply list_elem_of_lookup_2; exact E|].
    unfold cancel. destruct (status y); reflexivity.
  - exists x. split; [eapply list_elem_of_lookup_2; exact Hj|reflexivity].
Qed.

Lemma elapse_all_caused delay trace self now :
  WatcherFacts.all_caused delay trace self → WatcherFacts.all_caused delay trace (elapse self now).
Proof.
  intros (Hd & Ht & Hc). unfold elapse. split_and!; simpl.
  - exact Hd.
  - intros tm Htm. apply list_elem_of_fmap in Htm as (y & -> & Hy).
    case_decide; simpl; apply Ht, Hy.
  - intros c Hin. apply elem_of_app in Hin as [Hin|Hin]; [apply Hc, Hin|].
    apply list_elem_of_fmap in Hin as (y & -> & Hy).
    apply list_elem_of_filter in Hy as [_ Hy]. apply Ht, Hy.
Qed.

Lemma observe1_all_caused delay trace self e :
  WatcherFacts.all_caused delay trace self →
  WatcherFacts.all_caused delay (trace ++ [e]) (observe1 self e).
Proof.
  intros H. apply (elapse_all_caused _ _ _ e.1) in H.
  destruct e as [t ev]. unfold observe1. cbn [fst snd] in *.
  set (h := elapse self t) in *. clearbody h. destruct H as (Hd & Ht & Hc).
  destruct (qualifying ev) eqn:Q.
  - rewrite qualifying_dispatch by exact Q.
    unfold _schedule_callback. split_and!; simpl.
    + exact Hd.
    + intros tm Htm. apply elem_of_app in Htm as [Htm|Htm].
      * apply caused_app.
        destruct (_timer h) as [i|].
        -- apply elem_of_alter_cancel in Htm as (y & Hy & ->). apply Ht, Hy.
        -- apply Ht, Htm.
      * apply list_elem_of_singleton in Htm. subst tm. simpl.
        exists t, ev. split; [apply elem_of_app; right; left|].
        split; [exact Q|]. rewrite Hd. reflexivity.
    + intros c Hin. apply caused_app, Hc, Hin.
  - rewrite other_dispatch by exact Q. split_and!.
    + exact Hd.
    + intros tm Htm. apply caused_app, Ht, Htm.
    + intros c Hin. apply caused_app, Hc, Hin.
Qed.

Lemma observe_all_caused delay trace2 : ∀ trace1 self,
  WatcherFacts.all_caused delay trace1 self →
  WatcherFacts.all_caused delay (trace1 ++ trace2) (observe self trace2).
Proof.
  induction trace2 as [|e trace2 IH]; intros trace1 self H.
  - rewrite app_nil_r. exact H.
  - simpl. replace (trace1 ++ e :: trace2) with ((trace1 ++ [e]) ++ trace2)
      by (rewrite <- app_assoc; reflexivity).
    apply IH, observe1_all_caused, H.
Qed.

(** X17.  The callback never runs without a cause: every instant at which
    it has run is the debounce delay after a qualifying event of the
    trace. *)
Theorem every_callback_has_an_event (delay : Z) (trace : list (Z * FileSystemEvent))
    (now c : Z) :
  c ∈ calls (elapse (observe (init delay) trace) now) →
  ∃ t ev, (t, ev) ∈ trace ∧ qualifying ev = true ∧ c = t + delay.
Proof.
  intros Hc.
  assert (H0 : WatcherFacts.all_caused delay [] (init delay)).
  { split_and!; [reflexivity| |]; intros x Hx; simpl in Hx; inversion Hx. }
  apply (observe_all_caused delay trace [] _) in H0. simpl in H0.
  apply (elapse_all_caused _ _ _ now) in H0 as (_ & _ & Hcalls).
  exact (Hcalls c Hc).
Qed.

Lemma observe_cons self e trace :
  observe self (e :: trace) = observe (observe1 self e) trace.
Proof. reflexivity. Qed.

Lemma observe1_other self t ev :
  qualifying ev = false → observe1 self (t, ev) = elapse self t.
Proof. intros Hq. unfold observe1. apply other_dispatch, Hq. Qed.

Lemma observe1_qualifying self t ev :
  qualifying ev = true → observe1 self (t, ev) = _schedule_callback (elapse self t) t.
Proof. intros Hq. unfold observe1. apply qualifying_dispatch, Hq. Qed.

Lemma elapse_idle self now :
  pending self = [] → calls (elapse self now) = calls self
                      ∧ pending (elapse self now) = [].
Proof.
  intros Hp. rewrite elapse_calls_pending, elapse_pending, Hp.
  split; [apply app_nil_r|reflexivity].
Qed.

Lemma noise_idle noise : ∀ self now,
  Forall (fun e => qualifying e.2 = false) noise →
  pending self = [] →
  calls (elapse (observe self noise) now) = calls self.
Proof.
  induction noise as [|[t ev] noise IH]; intros self now Hall Hp.
  - simpl. apply elapse_idle, Hp.
  - inversion Hall as [|? ? Hq Hrest]; subst. simpl in Hq.
    rewrite observe_cons, observe1_other by exact Hq.
    destruct (elapse_idle self t Hp) as [Hc Hp'].
    rewrite (IH _ _ Hrest Hp'). exact Hc.
Qed.

Lemma noise_armed noise : ∀ self now d,
  Forall (fun e => qualifying e.2 = false) noise →
  pending self = [mkTimer d Pending] →
  calls (elapse (observe self noise) now)
  = calls self ++ (if decide (d ≤ now ∨ Exists (fun e => d ≤ e.1) noise)
                   then [d] else []).
Proof.
  induction noise as [|[t ev] noise IH]; intros self now d Hall Hp.
  - change (observe self []) with self. rewrite (elapse_calls _ _ _ Hp).
    destruct (decide (d ≤ now)); [rewrite decide_True by tauto; reflexivity|].
    rewrite decide_False; [reflexivity|].
    intros [?|Hex]; [lia|inversion Hex].
  - inversion Hall as [|? ? Hq Hrest]; subst. simpl in Hq.
    rewrite observe_cons, observe1_other by exact Hq.
    destruct (decide (d ≤ t)) as [Hdue|Hearly].
    + assert (Hp' : pending (elapse self t) = []).
      { rewrite elapse_pending, Hp. rewrite filter_cons_False by (simpl; lia).
        reflexivity. }
      rewrite (noise_idle _ _ _ Hrest Hp'), (elapse_calls _ _ _ Hp).
      rewrite decide_True by exact Hdue.
      rewrite decide_True; [reflexivity|].
      right. constructor. simpl. exact Hdue.
    + rewrite (elapse_early self t d Hp) by lia.
      rewrite (IH _ now d Hrest Hp).
      destruct (decide (d ≤ now ∨ Exists (fun e => d ≤ e.1) noise)) as [Hy|Hn].
      * rewrite decide_True; [reflexivity|].
        destruct Hy as [?|Hex]; [left; assumption|right; apply Exists_cons_tl, Hex].
      * rewrite decide_False; [reflexivity|].
        intros [?|Hex]; [tauto|].
        inversion Hex; subst; simpl in *; [lia|tauto].
Qed.

(** X18.  Events that do not qualify (deletions, moves, directories, other
    suffixes) neither postpone nor repeat a pending callback: after one
    qualifying event followed by any such events the callback has run
    exactly once, at the event's instant plus the delay, as soon as that
    instant has been reached, and not at all before. *)
Theorem other_events_do_not_postpone (delay t now : Z) (ev : FileSystemEvent)
    (noise : list (Z * FileSystemEvent)) :
  qualifying ev = true →
  Forall (fun e => qualifying e.2 = false) noise →
  calls (elapse (observe (init delay) ((t, ev) :: noise)) now)
  = if decide (t + delay ≤ now ∨ Exists (fun e => t + delay ≤ e.1) noise)
    then [t + delay] else [].
Proof.
  intros Hq Hall. rewrite observe_cons, observe1_qualifying by exact Hq.
  rewrite (noise_armed noise _ now (t + delay) Hall).
  - reflexivity.
  - apply (schedule_pending (elapse (init delay) t)).
    apply elapse_single_slot, init_single_slot.
Qed.

End WatcherMore.

Lemma every_callback_has_an_event_witness :
  ∃ t ev, (t, ev) ∈ Sample.ten_events
          ∧ FileWatcher.qualifying ev = true ∧ 1310000 = t + 500000.
Proof.
  apply (every_callback_has_an_event 500000 Sample.ten_events 1400000 1310000).
  vm_compute. left.
Defined.

Lemma other_events_do_not_postpone_witness :
  FileWatcher.calls
    (FileWatcher.elapse
       (FileWatcher.observe (FileWatcher.init 500000)
          [(0, Sample.jsonl_event);
           (100000, FileWatcher.mkEvent FileWatcher.Deleted false "/p/a.jsonl");
           (200000, FileWatcher.mkEvent FileWatcher.Modified true "/p/d.jsonl");
           (300000, FileWatcher.mkEvent FileWatcher.Modified false "/p/notes.txt")])
       600000)
  = [500000].
Proof.
  rewrite (other_events_do_not_postpone 500000 0 600000 Sample.jsonl_event);
    [reflexivity|reflexivity|repeat constructor].
Defined.

(** ** Which events qualify *)

Lemma substring_all (s : string) : substring 0 (String.length s) s = s.
Proof. induction s as [|a s IH]; simpl; [reflexivity|]. rewrite IH. reflexivity. Qed.

Lemma substring_suffix (p s : string) :
  substring (String.length p) (String.length s) (p +:+ s) = s.
Proof. induction p as [|a p IH]; simpl; [apply substring_all|exact IH]. Qed.

Lemma length_app_string (p s : string) :
  String.length (p +:+ s) = (String.length p + String.length s)%nat.
Proof. induction p as [|a p IH]; simpl; [reflexivity|]. rewrite IH. reflexivity. Qed.

Lemma substring_split (s : string) : ∀ n,
  (n ≤ String.length s)%nat →
  s = substring 0 n s +:+ substring n (String.length s - n) s.
Proof.
  induction s as [|a s IH]; intros [|n] Hn; simpl in *; try lia.
  - reflexivity.
  - rewrite substring_all. reflexivity.
  - change (String a (substring 0 n s) +:+ substring n (String.length s - n) s)
      with (String a (substring 0 n s +:+ substring n (String.length s - n) s)).
    f_equal. apply IH. lia.
Qed.

Lemma endswith_iff (s suffix : string) :
  endswith s suffix = true ↔ ∃ p, s = p +:+ suffix.
Proof.
  unfold endswith. rewrite andb_true_iff, Nat.leb_le, String.eqb_eq. split.
  - intros [Hle E].
    exists (substring 0 (String.length s - String.length suffix) s).
    pose proof (substring_split s (String.length s - String.length suffix)
                  ltac:(lia)) as H.
    replace (String.length s - (String.length s - String.length suffix))%nat
      with (String.length suffix) in H by lia.
    rewrite E in H. exact H.
  - intros [p ->]. rewrite length_app_string. split; [lia|].
    replace (String.length p + String.length suffix - String.length suffix)%nat
      with (String.length p) by lia.
    apply substring_suffix.
Qed.

(** X19.  An event makes the handler schedule the callback exactly when it
    is a creation or a modification, not of a directory, of a path that
    ends in [.jsonl]; every other event leaves the handler untouched. *)
Theorem qualifying_events (self : FileWatcher.JSONLEventHandler) (now : Z)
    (ev : FileWatcher.FileSystemEvent) :
  (FileWatcher.qualifying ev = true
   ↔ (FileWatcher.kind ev = FileWatcher.Created
      ∨ FileWatcher.kind ev = FileWatcher.Modified)
     ∧ FileWatcher.is_directory ev = false
     ∧ ∃ p, FileWatcher.src_path ev = p +:+ ".jsonl")
  ∧ FileWatcher.dispatch self now ev
    = if FileWatcher.qualifying ev
      then FileWatcher._schedule_callback self now else self.
Proof.
  split.
  - unfold FileWatcher.qualifying. rewrite <- endswith_iff.
    destruct (FileWatcher.kind ev); rewrite ?andb_true_iff, ?negb_true_iff;
      split; intros; destruct_and?; destruct_or?; try discriminate; auto.
  - destruct (FileWatcher.qualifying ev) eqn:Q.
    + apply qualifying_dispatch, Q.
    + apply other_dispatch, Q.
Qed.

(** ** The cooldown inside the tray application *)

Lemma evaluate_cooldown_free (available : bool) (self : TrayApp.TrayApp)
    (stats : UsageStats) (now : Z) :
  TrayFacts.cooldown_free available self →
  ∃ r, TrayApp.evaluate self stats now (Ok tt) = Ok r
     ∧ TrayFacts.cooldown_free available r.1
     ∧ (∀ a o, r.2 = Some (a, o) → Notifier.returned o = available).
Proof.
  intros (Ht & Hrange & H0 & H1).
  assert (Hc : TrayApp._last_warning_level self < 2 →
               Notifier.last_notification (TrayApp.notifier self)
                 !! "usage_critical" = None).
  { intros Hl. destruct (decide (TrayApp._last_warning_level self = 0)) as [E|E].
    - rewrite (H0 E). apply lookup_empty.
    - apply H1. lia. }
  unfold TrayApp.evaluate, TrayApp._check_and_notify,
    Notifier.notify_critical, Notifier.notify_warning. simpl.
  destruct (Qle_bool 95 (percentage stats));
    [|destruct (Qle_bool _ (percentage stats))];
    repeat match goal with
           | |- context [?a <? ?b] => destruct (Z.ltb_spec a b)
           end;
    rewrite ?notify_eq; simpl;
    rewrite ?Hc by assumption; rewrite ?H0 by lia; rewrite ?lookup_empty;
    rewrite ?Ht; (eexists; split; [reflexivity|]);
    unfold TrayFacts.cooldown_free; destruct available; simpl;
    (split; [split_and!|]); intros; simplify_eq/=;
    try assumption; try lia; try reflexivity;
    rewrite ?lookup_insert_ne by discriminate;
    rewrite ?H0 by lia; rewrite ?lookup_empty; try reflexivity;
    try (apply H0; lia); try (apply H1; lia); try (apply Hc; lia).
Qed.

Lemma run_cooldown_free (available : bool) (passes : list (UsageStats * Z)) :
  ∀ self, TrayFacts.cooldown_free available self →
  ∃ app out, TrayApp.run self passes = Ok (app, out)
    ∧ TrayFacts.cooldown_free available app
    ∧ Forall (fun e => ∀ a b, e = Some (a, b) → b = available) out.
Proof.
  induction passes as [|[stats now] rest IH]; intros self Hinv.
  - exists self, []. split; [reflexivity|]. split; [exact Hinv|constructor].
  - destruct (evaluate_cooldown_free available self stats now Hinv)
      as (r & Hr & Hinv' & Hret).
    destruct (IH r.1 Hinv') as (app & out & Hrun & Happ & Hout).
    simpl. rewrite Hr. simpl. rewrite Hrun. simpl.
    eexists _, _. split; [reflexivity|]. split; [exact Happ|].
    constructor; [|exact Hout].
    intros a b. destruct r.2 as [[a' o]|] eqn:E; [|discriminate].
    intros [= <- <-]. apply (Hret a' o eq_refl).
Qed.

(** X20.  Inside the tray application the cooldown never refuses an alert:
    over any run of evaluations from the initial state, every alert that
    is emitted is accepted by the notifier when the toast backend is there
    (and refused when it is not), because the level only lets an alert
    through after the cooldown times have been cleared.  The level stays
    among 0, 1 and 2. *)
Theorem cooldown_never_refuses_in_app (config : Config.Config) (available : bool)
    (passes : list (UsageStats * Z)) :
  ∃ app out,
    TrayApp.run (TrayApp.init config available) passes = Ok (app, out)
    ∧ Forall (fun e => ∀ a b, e = Some (a, b) → b = available) out
    ∧ 0 ≤ TrayApp._last_warning_level app ≤ 2.
Proof.
  destruct (run_cooldown_free available passes (TrayApp.init config available))
    as (app & out & Hrun & (_ & Hrange & _) & Hout).
  - split_and!; simpl; try reflexivity; try lia; intros; apply lookup_empty.
  - exists app, out. split_and!; try assumption; lia.
Qed.


(** ** A root without countable records *)

Lemma token_limit_pos (c : Config.Config) : 0 < Config.token_limit c.
Proof.
  unfold Config.token_limit. rewrite PLANS_lookup.
  repeat case_decide; simpl; lia.
Qed.

Section EmptyRoot.

Variable json_loads : string -> result json.
Variable fromisoformat : string -> option datetime.

(** X21.  A root that exists but holds no record inside the window gives a
    snapshot with no tokens, percentage 0, no oldest and no remaining time,
    the window set, and the whole limit remaining; the snapshot for a
    missing root differs: it reports 0 remaining tokens and no window. *)
Theorem empty_root_snapshot (config : Config.Config) (now : Z) (files : list file) :
  let ws := now - hours (Config.window_hours config) in
  in_window ws (pass_records json_loads fromisoformat ws files) = [] →
  let s := calculate json_loads fromisoformat config now (Some files) in
  let s0 := calculate json_loads fromisoformat config now None in
  total_tokens s = 0
  ∧ (percentage s == 0)%Q
  ∧ remaining_tokens s = Config.token_limit config
  ∧ oldest_message_time s = None
  ∧ remaining_time s = None
  ∧ window_start s = Some ws ∧ window_end s = Some now
  ∧ remaining_tokens s0 = 0 ∧ window_start s0 = None.
Proof.
  intros ws Hempty s s0.
  destruct (calculate_with_count json_loads fromisoformat
              (Config.token_limit config) (Config.window_hours config) now files)
    as [Htot Hold].
  fold ws in Htot, Hold. rewrite Hempty in Htot, Hold.
  pose proof (token_limit_pos config) as Hpos.
  subst s s0. unfold UsageCalculator.calculate, UsageCalculator.calculate_with in *.
  cbn [total_tokens oldest_message_time] in Htot, Hold.
  subst ws.
  remember (fold_left (scan json_loads fromisoformat
                         (now - hours (Config.window_hours config))) files
              (0, None)) as st.
  clear Heqst. destruct st as [tot old]. simpl in Htot, Hold. subst tot old.
  simpl. split_and!; try reflexivity; try lia.
  apply Z.ltb_lt in Hpos. rewrite Hpos.
  change (inject_Z 0) with 0%Q.
  assert (E : (0 / inject_Z (Config.token_limit config) * 100 == 0)%Q)
    by (unfold Qdiv; rewrite !Qmult_0_l; reflexivity).
  unfold py_min.
  destruct (Qle_bool _ 100) eqn:Eb; [exact E|].
  apply Qle_bool_false in Eb. rewrite E in Eb. discriminate.
Qed.

End EmptyRoot.

Lemma empty_root_snapshot_witness :
  let s := Sample.calculate (Config.default_config "/home/u") Sample.ten
             (Some [Line Sample.line_045959 Eof]) in
  total_tokens s = 0 ∧ remaining_tokens s = 100000000.
Proof.
  destruct (empty_root_snapshot Sample.json_loads Sample.fromisoformat
              (Config.default_config "/home/u") Sample.ten
              [Line Sample.line_045959 Eof]) as (Ht & _ & Hr & _).
  - vm_compute. reflexivity.
  - split; [exact Ht|exact Hr].
Defined.
